(** * health-api: the resource modules, their validation and their routes

    A shallow embedding of the Express routers under [src/modules]
    (patients, providers, appointments, encounters, prescriptions, labs,
    vitals, inventory, billing, reports) together with the fragments of
    the two libraries the routers are written against:

    - [zod]: the request schemas ([z.object], [z.string().min],
      [z.string().regex], [z.number().int().positive()], [z.enum],
      [.optional()], [.partial()]) and [parse];
    - [mongoose]: the model schemas, [Model.create], [findById],
      [findByIdAndUpdate], [findByIdAndDelete].

    One collection is a finite map from ObjectIds to documents; a route
    handler is a function from the request and the collection to the new
    collection and the response. *)

From Stdlib Require Import ZArith String Ascii List Bool.
From Stdlib Require Import Floats.SpecFloat.
From stdpp Require Import gmap strings list fin_maps.

Set Warnings "-register-all".
Open Scope string_scope.

(** ** JavaScript values *)

(** A JS number is an IEEE-754 binary64; [spec_float] is its value. *)
Abbreviation number := spec_float (only parsing).

(** The values that flow through the routers: JSON request bodies, the
    objects built by the handlers (which may hold [undefined] and [Date]
    objects) and stored documents (which hold ObjectIds).  A [Date] is its
    time value in milliseconds since the epoch, [None] being the Invalid
    Date; an ObjectId is its 24-digit lower-case hexadecimal string; a
    string is the sequence of its code units. *)
Inductive value :=
  | VUndef
  | VNull
  | VBool (b : bool)
  | VNum (n : number)
  | VStr (s : string)
  | VDate (t : option Z)
  | VOid (h : string)
  | VArr (l : list value)
  | VObj (m : gmap string value).

Abbreviation obj := (gmap string value) (only parsing).

(** [o.k] for a plain object: [undefined] when the key is absent. *)
Definition prop (o : obj) (k : string) : value := default VUndef (o !! k).

(** ToBoolean. *)
Definition truthy (v : value) : bool :=
  match v with
  | VUndef | VNull => false
  | VBool b => b
  | VNum (S754_zero _) | VNum S754_nan => false
  | VStr EmptyString => false
  | _ => true
  end.

(** [a || b] *)
Definition or_else (a b : value) : value := if truthy a then a else b.

(** [Number.isInteger] *)
Definition Number_isInteger (x : number) : bool :=
  match x with
  | S754_zero _ => true
  | S754_finite _ m e => (0 <=? e)%Z || (Z.pos m mod 2 ^ (- e) =? 0)%Z
  | _ => false
  end.

Definition zero : number := S754_zero false.

(** ** Regular expressions of the schemas

    The two patterns of the sources, [/^\d{4}-\d{2}-\d{2}$/] and
    [/^\d{4}-\d{2}-\d{2}T\d{2}:\d{2}:\d{2}\.\d{3}Z?$/], are sequences of
    [\d], literal characters and one optional literal, anchored at both
    ends. *)
Module RegExp.

Inductive atom :=
  | Digit                (* \d *)
  | Lit (c : ascii)      (* a literal character *)
  | OptLit (c : ascii).  (* c? *)

Definition is_digit (c : ascii) : bool :=
  let n := N_of_ascii c in (48 <=? n)%N && (n <=? 57)%N.

Fixpoint test (r : list atom) (s : string) : bool :=
  match r with
  | [] => match s with EmptyString => true | _ => false end
  | Digit :: r' =>
      match s with
      | String c s' => is_digit c && test r' s'
      | EmptyString => false
      end
  | Lit a :: r' =>
      match s with
      | String c s' => Ascii.eqb a c && test r' s'
      | EmptyString => false
      end
  | OptLit a :: r' =>
      match s with
      | String c s' => (Ascii.eqb a c && test r' s') || test r' s
      | EmptyString => test r' s
      end
  end.

Definition digits (n : nat) : list atom := repeat Digit n.

(** [/^\d{4}-\d{2}-\d{2}$/] *)
Definition date : list atom :=
  digits 4 ++ [Lit "-"%char] ++ digits 2 ++ [Lit "-"%char] ++ digits 2.

(** [/^\d{4}-\d{2}-\d{2}T\d{2}:\d{2}:\d{2}\.\d{3}Z?$/] *)
Definition datetime : list atom :=
  date ++ [Lit "T"%char] ++ digits 2 ++ [Lit ":"%char] ++ digits 2
       ++ [Lit ":"%char] ++ digits 2 ++ [Lit "."%char] ++ digits 3
       ++ [OptLit "Z"%char].

End RegExp.

(** ** [new Date(string)]

    V8's parser on the two shapes the schemas let through.  It reads the
    string as an ISO date first: month 1..12 and day 1..31 (a day beyond
    the month's length rolls over into the next month); hour 0..23,
    minute and second 0..59, or exactly 24:00:00.000.  A date-only
    string is UTC; a date-time string without [Z] is local time and goes
    through the host's [UTC(t)] conversion.

    When the month or the day of a date-only string is out of range, V8
    hands the three numbers to its legacy parser.  That one takes a
    first number that could be a day of the month (1..31) for the month
    of a month-day-year date: the string is a date when the year digits
    are 0001..0012 and the month digits 01..31 (["0001-13-01"] is 13
    January 2001), a two-digit year being 20xx up to 49 and 19xx from 50,
    and the date is local time.  In a date-time string the legacy parser stops
    at the [T].  Anything else is the Invalid Date. *)
Module JSDate.

Fixpoint digits_val (acc : Z) (s : string) : Z :=
  match s with
  | EmptyString => acc
  | String c s' => digits_val (10 * acc + (Z.of_N (N_of_ascii c) - 48)) s'
  end.

Definition num (s : string) (start len : nat) : Z :=
  digits_val 0 (substring start len s).

(** Days since the epoch of the first day of month [m] (1..12) of year
    [y], plus [d - 1]: ECMAScript's [MakeDay(y, m - 1, d)]. *)
Definition MakeDay (y m d : Z) : Z :=
  let y' := if (m <=? 2)%Z then (y - 1)%Z else y in
  let era := (y' / 400)%Z in
  let yoe := (y' - era * 400)%Z in
  let mp := ((m + 9) mod 12)%Z in
  let doy := ((153 * mp + 2) / 5 + d - 1)%Z in
  let doe := (yoe * 365 + yoe / 4 - yoe / 100 + doy)%Z in
  (era * 146097 + doe - 719468)%Z.

Definition MakeTime (h mi s ms : Z) : Z :=
  (((h * 60 + mi) * 60 + s) * 1000 + ms)%Z.

Definition MakeDate (day time : Z) : Z := (day * 86400000 + time)%Z.

Definition between (x lo hi : Z) : bool := (lo <=? x)%Z && (x <=? hi)%Z.

Definition day_ok (m d : Z) : bool := between m 1 12 && between d 1 31.

Definition time_ok (h mi s ms : Z) : bool :=
  (between h 0 23 && between mi 0 59 && between s 0 59)
  || ((h =? 24)%Z && (mi =? 0)%Z && (s =? 0)%Z && (ms =? 0)%Z).

(** The legacy parser on the numbers [y-m-d] of a date-only string that
    is no ISO date: [y] is the month, [m] the day, [d] the year. *)
Definition legacy_ok (y m : Z) : bool := between y 1 12 && between m 1 31.

Definition legacy_year (n : Z) : Z :=
  if between n 0 49 then (n + 2000)%Z
  else if between n 50 99 then (n + 1900)%Z
  else n.

Definition parse (UTC : Z → Z) (s : string) : option Z :=
  if RegExp.test RegExp.date s then
    let y := num s 0 4 in let m := num s 5 2 in let d := num s 8 2 in
    if day_ok m d then Some (MakeDate (MakeDay y m d) 0)
    else if legacy_ok y m
    then Some (UTC (MakeDate (MakeDay (legacy_year d) y m) 0))
    else None
  else if RegExp.test RegExp.datetime s then
    let y := num s 0 4 in let m := num s 5 2 in let d := num s 8 2 in
    let h := num s 11 2 in let mi := num s 14 2 in
    let sec := num s 17 2 in let ms := num s 20 3 in
    if day_ok m d && time_ok h mi sec ms then
      let t := MakeDate (MakeDay y m d) (MakeTime h mi sec ms) in
      Some (if (String.length s =? 24)%nat then t else UTC t)
    else None
  else None.

(** [new Date(v)].  The handlers only ever pass the string a schema has
    validated, or nothing at all ([undefined], the Invalid Date); the
    constructor's behaviour on other argument types is not needed and
    is rendered as the Invalid Date. *)
Definition new (UTC : Z → Z) (v : value) : value :=
  match v with
  | VStr s => VDate (parse UTC s)
  | _ => VDate None
  end.

End JSDate.

(** ** zod

    The fragment of zod (v3) the request schemas use.  None of these
    schema types transforms its input, so parsing a field either returns
    the input value itself or reports issues; [_parse] returns the issues
    (none when the value is accepted).  Every check of a field and every
    field of an object is visited: issues accumulate, nothing stops at
    the first one. *)
Module zod.

Inductive ZodParsedType :=
  | PString | PNan | PNumber | PInteger | PFloat | PBoolean | PDate
  | PUndefined | PNull | PArray | PObject.

Definition is_nan (n : number) : bool :=
  match n with S754_nan => true | _ => false end.

Definition getParsedType (v : value) : ZodParsedType :=
  match v with
  | VUndef => PUndefined
  | VNull => PNull
  | VBool _ => PBoolean
  | VNum n => if is_nan n then PNan else PNumber
  | VStr _ => PString
  | VDate _ => PDate
  | VOid _ => PObject
  | VArr _ => PArray
  | VObj _ => PObject
  end.

Inductive ZodIssueCode :=
  | invalid_type (expected received : ZodParsedType)
  | too_small
  | invalid_string
  | invalid_enum_value.

Record ZodIssue := Issue { code : ZodIssueCode; path : list string }.

Inductive StringCheck :=
  | Min (n : nat)                      (* .min(n) *)
  | Regex (r : list RegExp.atom).      (* .regex(r) *)

Inductive NumberCheck :=
  | Int                                (* .int() *)
  | Positive                           (* .positive() *)
  | Nonnegative.                       (* .nonnegative() *)

Inductive ZodType :=
  | ZodString (checks : list StringCheck)
  | ZodNumber (checks : list NumberCheck)
  | ZodBoolean
  | ZodEnum (values : list string)
  | ZodOptional (inner : ZodType).

Definition string_check (p : list string) (s : string) (c : StringCheck)
  : list ZodIssue :=
  match c with
  | Min n => if (String.length s <? n)%nat then [Issue too_small p] else []
  | Regex r => if RegExp.test r s then [] else [Issue invalid_string p]
  end.

Definition number_check (p : list string) (n : number) (c : NumberCheck)
  : list ZodIssue :=
  match c with
  | Int => if Number_isInteger n then []
           else [Issue (invalid_type PInteger PFloat) p]
  | Positive => if SFleb n zero then [Issue too_small p] else []
  | Nonnegative => if SFltb n zero then [Issue too_small p] else []
  end.

Fixpoint _parse (t : ZodType) (p : list string) (v : value) : list ZodIssue :=
  match t with
  | ZodString checks =>
      match v with
      | VStr s => flat_map (string_check p s) checks
      | _ => [Issue (invalid_type PString (getParsedType v)) p]
      end
  | ZodNumber checks =>
      match v with
      | VNum n =>
          if is_nan n then [Issue (invalid_type PNumber PNan) p]
          else flat_map (number_check p n) checks
      | _ => [Issue (invalid_type PNumber (getParsedType v)) p]
      end
  | ZodBoolean =>
      match v with
      | VBool _ => []
      | _ => [Issue (invalid_type PBoolean (getParsedType v)) p]
      end
  | ZodEnum values =>
      match v with
      | VStr s => if bool_decide (s ∈ values) then []
                  else [Issue invalid_enum_value p]
      | _ => [Issue (invalid_type PString (getParsedType v)) p]
      end
  | ZodOptional inner =>
      match v with
      | VUndef => []
      | _ => _parse inner p v
      end
  end.

(** [z.object(shape)]: the fields in declaration order. *)
Definition ZodObject := list (string * ZodType).

(** [.partial()]: every field becomes optional. *)
Definition partial (shape : ZodObject) : ZodObject :=
  map (λ kt, (kt.1, ZodOptional kt.2)) shape.

(** The own properties a [z.object] reads its fields from; [None] when
    the input's parsed type is not [object]. *)
Definition own_props (input : value) : option obj :=
  match input with
  | VObj m => Some m
  | VOid _ => Some ∅
  | _ => None
  end.

(** The issues of all fields, in shape order. *)
Definition field_issues (shape : ZodObject) (m : obj) : list ZodIssue :=
  flat_map (λ kt, _parse kt.2 [kt.1] (prop m kt.1)) shape.

(** Unknown keys are stripped; a key of the shape is kept when the
    input has it. *)
Definition strip (shape : ZodObject) (m : obj) : obj :=
  filter (λ kv, kv.1 ∈ shape.*1) m.

(** [schema.parse(input)]: the parsed data, or the [ZodError] whose
    [errors] are the issues. *)
Inductive Result :=
  | Ok (data : obj)
  | ZodError (errors : list ZodIssue).

Definition parse (shape : ZodObject) (input : value) : Result :=
  match own_props input with
  | None => ZodError [Issue (invalid_type PObject (getParsedType input)) []]
  | Some m =>
      match field_issues shape m with
      | [] => Ok (strip shape m)
      | issues => ZodError issues
      end
  end.

End zod.

(** ** mongoose

    The model layer.  A collection is a finite map from ObjectIds to
    documents.  Every schema of the sources is declared with
    [{ timestamps: true }], so documents carry [createdAt] and
    [updatedAt] next to [_id] and [__v].

    The request schemas have already fixed the JavaScript type of every
    field that reaches a model ([create_doc_typed], [update_doc_typed]
    below), so of mongoose's casts only those from the schema's own type
    (and from a string to an ObjectId) are rendered; a value of another
    type is a cast failure here, and [cast_typed] shows that such a
    failure is never what a route runs into. *)
Module mongoose.

Inductive SchemaType := TString | TNumber | TDate | TBoolean | TObjectId.

Record SchemaTypeOptions := Path {
  type : SchemaType;
  required : bool;
  enum : option (list string);
  default_value : option value
}.

Definition Schema := list (string * SchemaTypeOptions).

(** *** ObjectIds: 24 hexadecimal digits *)

Definition is_hex (c : ascii) : bool :=
  let n := N_of_ascii c in
  ((48 <=? n)%N && (n <=? 57)%N) || ((97 <=? n)%N && (n <=? 102)%N)
  || ((65 <=? n)%N && (n <=? 70)%N).

Definition to_lower (c : ascii) : ascii :=
  let n := N_of_ascii c in
  if (65 <=? n)%N && (n <=? 70)%N then ascii_of_N (n + 32) else c.

Fixpoint all_hex (s : string) : bool :=
  match s with
  | EmptyString => true
  | String c s' => is_hex c && all_hex s'
  end.

Fixpoint lower (s : string) : string :=
  match s with
  | EmptyString => EmptyString
  | String c s' => String (to_lower c) (lower s')
  end.

(** [new ObjectId(s)] for a string: [None] when the driver throws.
    (Drivers before bson 6 also take any string of 12 characters; the
    examples below stay clear of that length.) *)
Definition castObjectId (s : string) : option string :=
  if (String.length s =? 24)%nat && all_hex s then Some (lower s) else None.

(** *** Errors *)

(** [err.errors[path].kind] of a [ValidationError]. *)
Inductive ValidatorKind := CastFailed | RequiredFailed | EnumFailed.

Inductive Error :=
  | ValidationError (errors : list (string * ValidatorKind))
  | CastError (path : string)
  | MongoServerError (code : Z).

(** The settled state of an awaited query. *)
Inductive outcome (A : Type) :=
  | Resolved (a : A)
  | Rejected (e : Error).
Arguments Resolved {A} a.
Arguments Rejected {A} e.

(** *** Casting and validation of one path *)

Definition cast (t : SchemaType) (v : value) : option value :=
  match v with
  | VUndef | VNull => Some v
  | _ =>
      match t, v with
      | TString, VStr _ => Some v
      | TNumber, VNum n => if zod.is_nan n then None else Some v
      | TDate, VDate (Some _) => Some v
      | TBoolean, VBool _ => Some v
      | TObjectId, VStr s => VOid <$> castObjectId s
      | TObjectId, VOid _ => Some v
      | _, _ => None
      end
  end.

(** The [required] validator: a value must be there, and a String path
    also refuses the empty string. *)
Definition checkRequired (t : SchemaType) (v : value) : bool :=
  match v with
  | VUndef | VNull => false
  | VStr EmptyString => match t with TString => false | _ => true end
  | _ => true
  end.

Definition validate_value (o : SchemaTypeOptions) (v : value)
  : option ValidatorKind :=
  if required o && negb (checkRequired (type o) v) then Some RequiredFailed
  else
    match enum o, v with
    | Some values, VStr s =>
        if bool_decide (s ∈ values) then None else Some EnumFailed
    | _, _ => None
    end.

(** Setting one path of a new document: the default fills in for
    [undefined], the value is cast, the validators run. *)
Definition set_path (input : obj) (k : string) (o : SchemaTypeOptions)
  : ValidatorKind + value :=
  let v1 := match prop input k, default_value o with
            | VUndef, Some d => d
            | v0, _ => v0
            end in
  match cast (type o) v1 with
  | None => inl CastFailed
  | Some v2 =>
      match validate_value o v2 with
      | Some e => inl e
      | None => inr v2
      end
  end.

(** All failing paths, in schema order. *)
Definition path_errors (sch : Schema) (input : obj)
  : list (string * ValidatorKind) :=
  flat_map (λ ko, match set_path input ko.1 ko.2 with
                  | inl e => [(ko.1, e)]
                  | inr _ => []
                  end) sch.

(** The schema paths of the new document; keys outside the schema are
    dropped (strict mode), paths left [undefined] are not stored. *)
Definition paths_of (sch : Schema) (input : obj) : obj :=
  foldr (λ ko acc, match set_path input ko.1 ko.2 with
                   | inr VUndef | inl _ => acc
                   | inr v => <[ko.1 := v]> acc
                   end) ∅ sch.

Definition document (sch : Schema) (input : obj) (id : string) (now : Z)
  : obj :=
  <["_id" := VOid id]>
    (<["createdAt" := VDate (Some now)]>
       (<["updatedAt" := VDate (Some now)]>
          (<["__v" := VNum zero]> (paths_of sch input)))).

(** *** Queries *)

(** [Model.create(input)]: validation failure rejects with a
    [ValidationError] listing every failing path; otherwise the document
    gets the fresh [_id] and both timestamps and is inserted.  An [_id]
    already in the collection is the server's duplicate-key error. *)
Definition create (sch : Schema) (input : obj) (id : string) (now : Z)
    (c : gmap string obj) : gmap string obj * outcome obj :=
  match path_errors sch input with
  | [] =>
      match c !! id with
      | None => let d := document sch input id now in
                (<[id := d]> c, Resolved d)
      | Some _ => (c, Rejected (MongoServerError 11000%Z))
      end
  | errs => (c, Rejected (ValidationError errs))
  end.

(** [Model.findById(id)] *)
Definition findById (id : string) (c : gmap string obj)
  : outcome (option obj) :=
  match castObjectId id with
  | None => Rejected (CastError "_id")
  | Some o => Resolved (c !! o)
  end.

(** Casting an update: keys whose value is [undefined] are removed (as
    mongoose does since version 6), keys outside the schema are dropped,
    the others are cast to their path's type (validators do not run on
    updates). *)
Definition castUpdate (sch : Schema) (update : obj) : option obj :=
  foldr (λ ko acc,
           match update !! ko.1 with
           | None | Some VUndef => acc
           | Some v =>
               match cast (type ko.2) v, acc with
               | Some v', Some a => Some (<[ko.1 := v']> a)
               | _, _ => None
               end
           end) (Some ∅) sch.

(** [Model.findByIdAndUpdate(id, update, { new: true })]: the cast
    update is merged into the document and [updatedAt] refreshed; the
    result is the new document, or [null] when there is none. *)
Definition findByIdAndUpdate (sch : Schema) (id : string) (update : obj)
    (now : Z) (c : gmap string obj)
  : gmap string obj * outcome (option obj) :=
  match castObjectId id with
  | None => (c, Rejected (CastError "_id"))
  | Some o =>
      match castUpdate sch update with
      | None => (c, Rejected (CastError "update"))
      | Some upd =>
          match c !! o with
          | None => (c, Resolved None)
          | Some d =>
              let d' := <["updatedAt" := VDate (Some now)]> (upd ∪ d) in
              (<[o := d']> c, Resolved (Some d'))
          end
      end
  end.

(** [Model.findByIdAndDelete(id)] *)
Definition findByIdAndDelete (id : string) (c : gmap string obj)
  : gmap string obj * outcome (option obj) :=
  match castObjectId id with
  | None => (c, Rejected (CastError "_id"))
  | Some o => (delete o c, Resolved (c !! o))
  end.

End mongoose.

(** ** Requests and responses *)

(** What the host gives a handler besides the request: the local-time
    conversion [UTC(t)] of the process, the clock, and the ObjectId the
    driver generates for a new document. *)
Record env := Env { UTC : Z → Z; now : Z; newId : string }.

(** [details: err.errors] of a 400 response. *)
Inductive details :=
  | ZodIssues (errors : list zod.ZodIssue)
  | PathErrors (errors : list (string * mongoose.ValidatorKind))
  | NoDetails.

Inductive body :=
  | Doc (d : obj)
  | Docs (l : list obj)
  | Count (count : nat)
  | Total (total : nat)
  | ErrorBody (error : string) (d : details)
  | Empty.

(** A handler either writes a response or, when an awaited query rejects
    outside a [try], ends with its promise rejected and no response of
    its own. *)
Inductive response :=
  | Res (status : nat) (b : body)
  | Unhandled (e : mongoose.Error).

(** [err.errors] in a [catch]. *)
Definition errors_of (e : mongoose.Error) : details :=
  match e with
  | mongoose.ValidationError errs => PathErrors errs
  | _ => NoDetails
  end.

(** *** Query strings and filters *)

Inductive qvalue :=
  | QStr (s : string)
  | QArr (l : list qvalue)
  | QObj (m : list (string * qvalue)).

Definition q_truthy (v : qvalue) : bool :=
  match v with QStr EmptyString => false | _ => true end.

Inductive condition :=
  | Equals (v : qvalue)                           (* k: v *)
  | RegexMatch (pattern : qvalue) (options : string). (* k: { $regex, $options } *)

Inductive filter :=
  | Where (conds : gmap string condition)
  | Or (alts : list (gmap string condition)).     (* { $or: [...] } *)

(** [if (q.k) where.k = mk(q.k)] *)
Definition assign_if (q : gmap string qvalue) (k : string)
    (mk : qvalue → condition) (w : gmap string condition)
  : gmap string condition :=
  match q !! k with
  | Some v => if q_truthy v then <[k := mk v]> w else w
  | None => w
  end.

(** [q.k || ''] *)
Definition or_empty (q : gmap string qvalue) (k : string) : qvalue :=
  match q !! k with
  | Some v => if q_truthy v then v else QStr EmptyString
  | None => QStr EmptyString
  end.

(** The conditions a filter puts on field [k]. *)
Definition conditions_on (f : filter) (k : string) : list condition :=
  match f with
  | Where w => option_list (w !! k)
  | Or alts => flat_map (λ w, option_list (w !! k)) alts
  end.

(** *** A resource module *)

(** What distinguishes one module from another: its request schema
    ([XUpdate] is [XCreate.partial()] in every module), its model schema,
    the object it hands to [Model.create], the update it hands to
    [findByIdAndUpdate], and the filter its search route builds. *)
Record Resource := {
  Create : zod.ZodObject;
  schema : mongoose.Schema;
  createDoc : (Z → Z) → obj → obj;
  updateDoc : (Z → Z) → obj → obj;
  searchFilter : gmap string qvalue → filter
}.

Definition Update (R : Resource) : zod.ZodObject := zod.partial (Create R).

(** [k: data.k ? new Date(data.k) : undefined] *)
Definition date_or_undefined (UTC : Z → Z) (data : obj) (k : string) : value :=
  if truthy (prop data k) then JSDate.new UTC (prop data k) else VUndef.

(** ** The modules *)

Module patients.

Definition patientSchema : mongoose.Schema :=
  [ ("name", mongoose.Path mongoose.TString true None None);
    ("dob", mongoose.Path mongoose.TDate true None None);
    ("gender", mongoose.Path mongoose.TString false
                 (Some ["M"; "F"; "O"]) (Some (VStr "O"))) ].

Definition PatientCreate : zod.ZodObject :=
  [ ("name", zod.ZodString [zod.Min 2]);
    ("dob", zod.ZodString [zod.Regex RegExp.date]);
    ("gender", zod.ZodOptional (zod.ZodEnum ["M"; "F"; "O"])) ].

(** [{ name: data.name, dob: new Date(data.dob), gender: data.gender || 'O' }] *)
Definition create_doc (UTC : Z → Z) (data : obj) : obj :=
  <["gender" := or_else (prop data "gender") (VStr "O")]>
    (<["dob" := JSDate.new UTC (prop data "dob")]>
       (<["name" := prop data "name"]> ∅)).

(** [{ ...data, dob: data.dob ? new Date(data.dob) : undefined }] *)
Definition update_doc (UTC : Z → Z) (data : obj) : obj :=
  <["dob" := date_or_undefined UTC data "dob"]> data.

(** [const term = req.query.term || '';
     Patient.find({ name: { $regex: term, $options: 'i' } })] *)
Definition search (q : gmap string qvalue) : filter :=
  let term := or_empty q "term" in
  Where {[ "name" := RegexMatch term "i" ]}.

Definition resource : Resource :=
  {| Create := PatientCreate; schema := patientSchema;
     createDoc := create_doc; updateDoc := update_doc;
     searchFilter := search |}.

End patients.

Module providers.

Definition providerSchema : mongoose.Schema :=
  [ ("name", mongoose.Path mongoose.TString true None None);
    ("specialty", mongoose.Path mongoose.TString true None None);
    ("active", mongoose.Path mongoose.TBoolean false None (Some (VBool true))) ].

Definition ProviderCreate : zod.ZodObject :=
  [ ("name", zod.ZodString [zod.Min 2]);
    ("specialty", zod.ZodString [zod.Min 2]);
    ("active", zod.ZodOptional zod.ZodBoolean) ].

(** [Provider.create(data)] *)
Definition create_doc (UTC : Z → Z) (data : obj) : obj := data.

(** [Provider.findByIdAndUpdate(req.params.id, data, { new: true })] *)
Definition update_doc (UTC : Z → Z) (data : obj) : obj := data.

(** [const term = req.query.term || '';
     Provider.find({ $or: [ { name: { $regex: term, $options: 'i' } },
                            { specialty: { $regex: term, $options: 'i' } } ] })] *)
Definition search (q : gmap string qvalue) : filter :=
  let term := or_empty q "term" in
  Or [ {[ "name" := RegexMatch term "i" ]};
       {[ "specialty" := RegexMatch term "i" ]} ].

Definition resource : Resource :=
  {| Create := ProviderCreate; schema := providerSchema;
     createDoc := create_doc; updateDoc := update_doc;
     searchFilter := search |}.

End providers.

Module appointments.

Definition appointmentSchema : mongoose.Schema :=
  [ ("patientId", mongoose.Path mongoose.TObjectId true None None);
    ("providerId", mongoose.Path mongoose.TObjectId true None None);
    ("start", mongoose.Path mongoose.TDate true None None);
    ("end", mongoose.Path mongoose.TDate true None None);
    ("status", mongoose.Path mongoose.TString false
                 (Some ["scheduled"; "completed"; "cancelled"])
                 (Some (VStr "scheduled"))) ].

Definition AppointmentCreate : zod.ZodObject :=
  [ ("patientId", zod.ZodString []);
    ("providerId", zod.ZodString []);
    ("start", zod.ZodString [zod.Regex RegExp.datetime]);
    ("end", zod.ZodString [zod.Regex RegExp.datetime]);
    ("status", zod.ZodOptional
                 (zod.ZodEnum ["scheduled"; "completed"; "cancelled"])) ].

(** [{ ...data, start: new Date(data.start), end: new Date(data.end) }] *)
Definition create_doc (UTC : Z → Z) (data : obj) : obj :=
  <["end" := JSDate.new UTC (prop data "end")]>
    (<["start" := JSDate.new UTC (prop data "start")]> data).

(** [{ ...data, start: data.start ? new Date(data.start) : undefined,
                end: data.end ? new Date(data.end) : undefined }] *)
Definition update_doc (UTC : Z → Z) (data : obj) : obj :=
  <["end" := date_or_undefined UTC data "end"]>
    (<["start" := date_or_undefined UTC data "start"]> data).

(** [if (patientId) where.patientId = patientId;
     if (providerId) where.providerId = providerId;] *)
Definition search (q : gmap string qvalue) : filter :=
  Where (assign_if q "providerId" Equals (assign_if q "patientId" Equals ∅)).

(** The update of the cancel route: [{ status: 'cancelled' }] *)
Definition cancel_update : obj := {[ "status" := VStr "cancelled" ]}.

Definition resource : Resource :=
  {| Create := AppointmentCreate; schema := appointmentSchema;
     createDoc := create_doc; updateDoc := update_doc;
     searchFilter := search |}.

End appointments.

Module encounters.

Definition encounterSchema : mongoose.Schema :=
  [ ("patientId", mongoose.Path mongoose.TObjectId true None None);
    ("providerId", mongoose.Path mongoose.TObjectId true None None);
    ("date", mongoose.Path mongoose.TDate true None None);
    ("notes", mongoose.Path mongoose.TString false None
                (Some (VStr EmptyString))) ].

Definition EncounterCreate : zod.ZodObject :=
  [ ("patientId", zod.ZodString []);
    ("providerId", zod.ZodString []);
    ("date", zod.ZodString [zod.Regex RegExp.datetime]);
    ("notes", zod.ZodOptional (zod.ZodString [])) ].

(** [{ ...data, date: new Date(data.date) }] *)
Definition create_doc (UTC : Z → Z) (data : obj) : obj :=
  <["date" := JSDate.new UTC (prop data "date")]> data.

(** [{ ...data, date: data.date ? new Date(data.date) : undefined }] *)
Definition update_doc (UTC : Z → Z) (data : obj) : obj :=
  <["date" := date_or_undefined UTC data "date"]> data.

Definition search (q : gmap string qvalue) : filter :=
  Where (assign_if q "providerId" Equals (assign_if q "patientId" Equals ∅)).

Definition resource : Resource :=
  {| Create := EncounterCreate; schema := encounterSchema;
     createDoc := create_doc; updateDoc := update_doc;
     searchFilter := search |}.

End encounters.

Module prescriptions.

Definition prescriptionSchema : mongoose.Schema :=
  [ ("patientId", mongoose.Path mongoose.TObjectId true None None);
    ("providerId", mongoose.Path mongoose.TObjectId true None None);
    ("medication", mongoose.Path mongoose.TString true None None);
    ("dosage", mongoose.Path mongoose.TString true None None);
    ("startDate", mongoose.Path mongoose.TDate true None None);
    ("endDate", mongoose.Path mongoose.TDate true None None);
    ("status", mongoose.Path mongoose.TString false
                 (Some ["active"; "completed"; "cancelled"])
                 (Some (VStr "active"))) ].

Definition PrescriptionCreate : zod.ZodObject :=
  [ ("patientId", zod.ZodString []);
    ("providerId", zod.ZodString []);
    ("medication", zod.ZodString []);
    ("dosage", zod.ZodString []);
    ("startDate", zod.ZodString [zod.Regex RegExp.date]);
    ("endDate", zod.ZodString [zod.Regex RegExp.date]);
    ("status", zod.ZodOptional
                 (zod.ZodEnum ["active"; "completed"; "cancelled"])) ].

(** [{ ...data, startDate: new Date(data.startDate),
                endDate: new Date(data.endDate) }] *)
Definition create_doc (UTC : Z → Z) (data : obj) : obj :=
  <["endDate" := JSDate.new UTC (prop data "endDate")]>
    (<["startDate" := JSDate.new UTC (prop data "startDate")]> data).

Definition update_doc (UTC : Z → Z) (data : obj) : obj :=
  <["endDate" := date_or_undefined UTC data "endDate"]>
    (<["startDate" := date_or_undefined UTC data "startDate"]> data).

Definition search (q : gmap string qvalue) : filter :=
  Where (assign_if q "providerId" Equals (assign_if q "patientId" Equals ∅)).

Definition resource : Resource :=
  {| Create := PrescriptionCreate; schema := prescriptionSchema;
     createDoc := create_doc; updateDoc := update_doc;
     searchFilter := search |}.

End prescriptions.

Module labs.

Definition labSchema : mongoose.Schema :=
  [ ("patientId", mongoose.Path mongoose.TObjectId true None None);
    ("testName", mongoose.Path mongoose.TString true None None);
    ("result", mongoose.Path mongoose.TString true None None);
    ("date", mongoose.Path mongoose.TDate true None None) ].

Definition LabCreate : zod.ZodObject :=
  [ ("patientId", zod.ZodString []);
    ("testName", zod.ZodString []);
    ("result", zod.ZodString []);
    ("date", zod.ZodString [zod.Regex RegExp.date]) ].

(** [{ ...data, date: new Date(data.date) }] *)
Definition create_doc (UTC : Z → Z) (data : obj) : obj :=
  <["date" := JSDate.new UTC (prop data "date")]> data.

(** [{ ...data, date: data.date ? new Date(data.date) : undefined }] *)
Definition update_doc (UTC : Z → Z) (data : obj) : obj :=
  <["date" := date_or_undefined UTC data "date"]> data.

(** [if (patientId) where.patientId = patientId;
     if (testName) where.testName = { $regex: testName, $options: 'i' };] *)
Definition search (q : gmap string qvalue) : filter :=
  Where (assign_if q "testName" (λ v, RegexMatch v "i")
           (assign_if q "patientId" Equals ∅)).

Definition resource : Resource :=
  {| Create := LabCreate; schema := labSchema;
     createDoc := create_doc; updateDoc := update_doc;
     searchFilter := search |}.

End labs.

Module vitals.

Definition vitalsSchema : mongoose.Schema :=
  [ ("patientId", mongoose.Path mongoose.TObjectId true None None);
    ("date", mongoose.Path mongoose.TDate true None None);
    ("heartRate", mongoose.Path mongoose.TNumber true None None);
    ("bloodPressure", mongoose.Path mongoose.TString true None None);
    ("temperature", mongoose.Path mongoose.TNumber true None None) ].

Definition VitalsCreate : zod.ZodObject :=
  [ ("patientId", zod.ZodString []);
    ("date", zod.ZodString [zod.Regex RegExp.date]);
    ("heartRate", zod.ZodNumber [zod.Int; zod.Positive]);
    ("bloodPressure", zod.ZodString []);
    ("temperature", zod.ZodNumber []) ].

Definition create_doc (UTC : Z → Z) (data : obj) : obj :=
  <["date" := JSDate.new UTC (prop data "date")]> data.

Definition update_doc (UTC : Z → Z) (data : obj) : obj :=
  <["date" := date_or_undefined UTC data "date"]> data.

(** [if (patientId) where.patientId = patientId;] *)
Definition search (q : gmap string qvalue) : filter :=
  Where (assign_if q "patientId" Equals ∅).

Definition resource : Resource :=
  {| Create := VitalsCreate; schema := vitalsSchema;
     createDoc := create_doc; updateDoc := update_doc;
     searchFilter := search |}.

End vitals.

Module inventory.

Definition inventorySchema : mongoose.Schema :=
  [ ("name", mongoose.Path mongoose.TString true None None);
    ("quantity", mongoose.Path mongoose.TNumber true None None);
    ("reorderLevel", mongoose.Path mongoose.TNumber false None
                       (Some (VNum zero))) ].

Definition InventoryCreate : zod.ZodObject :=
  [ ("name", zod.ZodString []);
    ("quantity", zod.ZodNumber [zod.Int; zod.Nonnegative]);
    ("reorderLevel", zod.ZodOptional (zod.ZodNumber [zod.Int; zod.Nonnegative])) ].

(** [InventoryItem.create(data)] *)
Definition create_doc (UTC : Z → Z) (data : obj) : obj := data.

Definition update_doc (UTC : Z → Z) (data : obj) : obj := data.

(** [if (name) where.name = { $regex: name, $options: 'i' };] *)
Definition search (q : gmap string qvalue) : filter :=
  Where (assign_if q "name" (λ v, RegexMatch v "i") ∅).

Definition resource : Resource :=
  {| Create := InventoryCreate; schema := inventorySchema;
     createDoc := create_doc; updateDoc := update_doc;
     searchFilter := search |}.

End inventory.

Module billing.

Definition billingSchema : mongoose.Schema :=
  [ ("patientId", mongoose.Path mongoose.TObjectId true None None);
    ("amount", mongoose.Path mongoose.TNumber true None None);
    ("status", mongoose.Path mongoose.TString false
                 (Some ["unpaid"; "paid"; "pending"]) (Some (VStr "unpaid")));
    ("dueDate", mongoose.Path mongoose.TDate true None None) ].

Definition BillingCreate : zod.ZodObject :=
  [ ("patientId", zod.ZodString []);
    ("amount", zod.ZodNumber [zod.Positive]);
    ("status", zod.ZodOptional (zod.ZodEnum ["unpaid"; "paid"; "pending"]));
    ("dueDate", zod.ZodString [zod.Regex RegExp.date]) ].

(** [{ ...data, dueDate: new Date(data.dueDate) }] *)
Definition create_doc (UTC : Z → Z) (data : obj) : obj :=
  <["dueDate" := JSDate.new UTC (prop data "dueDate")]> data.

Definition update_doc (UTC : Z → Z) (data : obj) : obj :=
  <["dueDate" := date_or_undefined UTC data "dueDate"]> data.

(** [if (patientId) where.patientId = patientId;
     if (status) where.status = status;] *)
Definition search (q : gmap string qvalue) : filter :=
  Where (assign_if q "status" Equals (assign_if q "patientId" Equals ∅)).

Definition resource : Resource :=
  {| Create := BillingCreate; schema := billingSchema;
     createDoc := create_doc; updateDoc := update_doc;
     searchFilter := search |}.

End billing.

(** The nine record types and their modules. *)
Inductive record_type :=
  | Patient | Provider | Appointment | Encounter | Prescription
  | Lab | Vitals | InventoryItem | Billing.

Definition module (r : record_type) : Resource :=
  match r with
  | Patient => patients.resource
  | Provider => providers.resource
  | Appointment => appointments.resource
  | Encounter => encounters.resource
  | Prescription => prescriptions.resource
  | Lab => labs.resource
  | Vitals => vitals.resource
  | InventoryItem => inventory.resource
  | Billing => billing.resource
  end.

(** ** The routes every module has *)

(** [router.get('/count')] *)
Definition get_count (c : gmap string obj) : response :=
  Res 200 (Count (size c)).

(** [router.get('/:id')] *)
Definition get_by_id (id : string) (c : gmap string obj) : response :=
  match mongoose.findById id c with
  | mongoose.Rejected e => Unhandled e
  | mongoose.Resolved None => Res 404 (ErrorBody "not_found" NoDetails)
  | mongoose.Resolved (Some d) => Res 200 (Doc d)
  end.

(** [router.post('/')] *)
Definition post (R : Resource) (e : env) (req_body : value)
    (c : gmap string obj) : gmap string obj * response :=
  match zod.parse (Create R) req_body with
  | zod.ZodError errors =>
      (c, Res 400 (ErrorBody "validation_error" (ZodIssues errors)))
  | zod.Ok data =>
      match mongoose.create (schema R) (createDoc R (UTC e) data)
                            (newId e) (now e) c with
      | (c', mongoose.Resolved d) => (c', Res 201 (Doc d))
      | (c', mongoose.Rejected err) =>
          (c', Res 400 (ErrorBody "validation_error" (errors_of err)))
      end
  end.

(** [router.put('/:id')] *)
Definition put (R : Resource) (e : env) (id : string) (req_body : value)
    (c : gmap string obj) : gmap string obj * response :=
  match zod.parse (Update R) req_body with
  | zod.ZodError errors =>
      (c, Res 400 (ErrorBody "validation_error" (ZodIssues errors)))
  | zod.Ok data =>
      match mongoose.findByIdAndUpdate (schema R) id
              (updateDoc R (UTC e) data) (now e) c with
      | (c', mongoose.Resolved (Some d)) => (c', Res 200 (Doc d))
      | (c', mongoose.Resolved None) =>
          (c', Res 404 (ErrorBody "not_found" NoDetails))
      | (c', mongoose.Rejected err) =>
          (c', Res 400 (ErrorBody "validation_error" (errors_of err)))
      end
  end.

(** [router.delete('/:id')] *)
Definition delete_ (id : string) (c : gmap string obj)
  : gmap string obj * response :=
  match mongoose.findByIdAndDelete id c with
  | (c', mongoose.Resolved _) => (c', Res 204 Empty)
  | (c', mongoose.Rejected err) => (c', Unhandled err)
  end.

(** [router.patch('/:id/cancel')], appointments only *)
Definition patch_cancel (e : env) (id : string) (c : gmap string obj)
  : gmap string obj * response :=
  match mongoose.findByIdAndUpdate appointments.appointmentSchema id
          appointments.cancel_update (now e) c with
  | (c', mongoose.Resolved (Some d)) => (c', Res 200 (Doc d))
  | (c', mongoose.Resolved None) =>
      (c', Res 404 (ErrorBody "not_found" NoDetails))
  | (c', mongoose.Rejected err) => (c', Unhandled err)
  end.

(** ** reports *)
Module reports.

(** A model as the report routes use it: what its [countDocuments] and
    its [aggregate] settle to when awaited (they reject when the store
    cannot answer). *)
Record Model := {
  countDocuments : mongoose.outcome nat;
  aggregate : mongoose.outcome (list obj)
}.

(** [router.get('/appointments')]; [Appointment] is
    [mongoose.models.Appointment || null]. *)
Definition get_appointments (Appointment : option Model) : response :=
  match Appointment with
  | None => Res 200 (Total 0)
  | Some M =>
      match countDocuments M with
      | mongoose.Resolved total => Res 200 (Total total)
      | mongoose.Rejected _ => Res 200 (Total 0)
      end
  end.

(** [router.get('/billing')]; the pipeline groups by [$status] and sums
    [$amount]. *)
Definition get_billing (Billing : option Model) : response :=
  match Billing with
  | None => Res 200 (Docs [])
  | Some M =>
      match aggregate M with
      | mongoose.Resolved unpaid => Res 200 (Docs unpaid)
      | mongoose.Rejected _ => Res 200 (Docs [])
      end
  end.

End reports.

(** ** The requests one module serves *)

Inductive request :=
  | POST (req_body : value)
  | PUT (id : string) (req_body : value)
  | PATCH_cancel (id : string)
  | DELETE (id : string)
  | GET (id : string)
  | GET_count.

(** Dispatch inside the router of record type [r].  Only the
    appointments router has the cancel route; elsewhere the path falls
    through to the application's 404 handler. *)
Definition handle (r : record_type) (e : env) (q : request)
    (c : gmap string obj) : gmap string obj * response :=
  match q with
  | POST b => post (module r) e b c
  | PUT id b => put (module r) e id b c
  | PATCH_cancel id =>
      match r with
      | Appointment => patch_cancel e id c
      | _ => (c, Res 404 (ErrorBody "Not Found" NoDetails))
      end
  | DELETE id => delete_ id c
  | GET id => (c, get_by_id id c)
  | GET_count => (c, get_count c)
  end.

(** The collections the routes of record type [r] can produce, starting
    from the empty collection. *)
Inductive reachable (r : record_type) : gmap string obj → Prop :=
  | reachable_empty : reachable r ∅
  | reachable_step e q c :
      reachable r c → reachable r (handle r e q c).1.

(** ** Vocabulary of the properties *)

(** Every enum path of the schema holds, in [d], a string of its
    declared set. *)
Definition enums_in_range (sch : mongoose.Schema) (d : obj) : Prop :=
  ∀ k o values,
    (k, o) ∈ sch → mongoose.enum o = Some values →
    ∃ s, d !! k = Some (VStr s) ∧ s ∈ values.

(** Every record of a collection of type [r] has its enums in range. *)
Definition all_in_range (r : record_type)
    (c : gmap string (gmap string value)) : Prop :=
  ∀ id d, c !! id = Some d → enums_in_range (schema (module r)) d.

(** A create payload breaks a rule: it is not an object, or one of its
    fields fails the request schema, or (the request schema being
    satisfied) one of the model's paths fails to cast or validate. *)
Inductive invalid_payload (R : Resource) (e : env) (input : value) : Prop :=
  | not_an_object :
      zod.own_props input = None → invalid_payload R e input
  | field_violation m k t :
      zod.own_props input = Some m → (k, t) ∈ Create R →
      zod._parse t [k] (prop m k) ≠ [] → invalid_payload R e input
  | path_violation data k o err :
      zod.parse (Create R) input = zod.Ok data → (k, o) ∈ schema R →
      mongoose.set_path (createDoc R (UTC e) data) k o = inl err →
      invalid_payload R e input.

(** The details of a 400 response list every violation of the payload. *)
Definition reports_all (R : Resource) (e : env) (input : value)
    (d : details) : Prop :=
  match d with
  | ZodIssues errors =>
      errors ≠ [] ∧
      ∀ m k t i,
        zod.own_props input = Some m → (k, t) ∈ Create R →
        i ∈ zod._parse t [k] (prop m k) → i ∈ errors
  | PathErrors errors =>
      errors ≠ [] ∧
      ∀ data k o err,
        zod.parse (Create R) input = zod.Ok data → (k, o) ∈ schema R →
        mongoose.set_path (createDoc R (UTC e) data) k o = inl err →
        (k, err) ∈ errors
  | NoDetails => False
  end.

(** Strings of [n] decimal digits. *)
Fixpoint all_digits (s : string) : bool :=
  match s with
  | EmptyString => true
  | String c s' => RegExp.is_digit c && all_digits s'
  end.

Definition digit_string (n : nat) (s : string) : Prop :=
  String.length s = n ∧ all_digits s = true.

(** The shape YYYY-MM-DD. *)
Definition date_shaped (s : string) : Prop :=
  ∃ y m d,
    digit_string 4 y ∧ digit_string 2 m ∧ digit_string 2 d ∧
    s = y +:+ "-" +:+ m +:+ "-" +:+ d.

(** The shape YYYY-MM-DDTHH:MM:SS.mmm with an optional trailing Z. *)
Definition datetime_shaped (s : string) : Prop :=
  ∃ y m d h mi sec ms z,
    digit_string 4 y ∧ digit_string 2 m ∧ digit_string 2 d ∧
    digit_string 2 h ∧ digit_string 2 mi ∧ digit_string 2 sec ∧
    digit_string 3 ms ∧ (z = EmptyString ∨ z = "Z") ∧
    s = y +:+ "-" +:+ m +:+ "-" +:+ d +:+ "T" +:+ h +:+ ":" +:+ mi
          +:+ ":" +:+ sec +:+ "." +:+ ms +:+ z.

(** What an optional enum field of a validated payload can be: absent,
    or a member of the enum. *)
Definition enum_value (values : list string) (v : value) : Prop :=
  v = VUndef ∨ ∃ s, v = VStr s ∧ s ∈ values.

(** A string has the shape the pattern [re] of a schema asks for. *)
Definition shaped (re : list RegExp.atom) (s : string) : Prop :=
  (re = RegExp.date ∧ date_shaped s) ∨
  (re = RegExp.datetime ∧ datetime_shaped s).

(** Membership in a list that is written out. *)
Ltac in_list :=
  repeat first [apply list_elem_of_here | apply list_elem_of_further].

(** Case analysis on membership in a list that is written out. *)
Ltac inv_elem H :=
  repeat (apply elem_of_cons in H as [H|H]; [try (injection H as ??); subst|]);
  try (by apply elem_of_nil in H).

(** The JavaScript type of [v] is the one the schema type [t] expects (a
    string for a String or an ObjectId path, and so on), or [v] is
    [undefined]. *)
Definition schema_typed (t : mongoose.SchemaType) (v : value) : Prop :=
  match v with
  | VUndef => True
  | VStr _ => t = mongoose.TString ∨ t = mongoose.TObjectId
  | VNum n => t = mongoose.TNumber ∧ zod.is_nan n = false
  | VBool _ => t = mongoose.TBoolean
  | VDate _ => t = mongoose.TDate
  | _ => False
  end.

(** ** Sample requests *)
Module sample.

Definition e0 : env :=
  {| UTC := λ t, t; now := 1700000000000%Z;
     newId := "65a1b2c3d4e5f60718293a4b" |}.

Definition jane : value :=
  VObj {[ "name" := VStr "Jane Doe"; "dob" := VStr "1990-05-01" ]}.

(** The patient the sample requests create. *)
Definition jane_doc : obj :=
  mongoose.document patients.patientSchema
    (patients.create_doc (UTC e0)
       {[ "name" := VStr "Jane Doe"; "dob" := VStr "1990-05-01" ]})
    (newId e0) (now e0).

Definition no_dob : value := VObj {[ "name" := VStr "Jane Doe" ]}.

Definition month13 : value :=
  VObj {[ "name" := VStr "Jane Doe"; "dob" := VStr "2024-13-01" ]}.

Definition feb31 : gmap string value :=
  {[ "name" := VStr "Jane Doe"; "dob" := VStr "2023-02-31" ]}.

(** [end] one day before [start]; well-formed references. *)
Definition backwards : gmap string value :=
  {[ "patientId" := VStr "65a1b2c3d4e5f60718293a01";
     "providerId" := VStr "65a1b2c3d4e5f60718293a02";
     "start" := VStr "2024-01-02T10:00:00.000Z";
     "end" := VStr "2024-01-01T10:00:00.000Z";
     "status" := VStr "completed" ]}.

(** The same with references that are not ObjectIds. *)
Definition backwards_loose : gmap string value :=
  {[ "patientId" := VStr "p1";
     "providerId" := VStr "d1";
     "start" := VStr "2024-01-02T10:00:00.000Z";
     "end" := VStr "2024-01-01T10:00:00.000Z" ]}.

(** The collection after [POST /appointments] with [backwards]. *)
Definition booked : gmap string obj :=
  (post appointments.resource e0 (VObj backwards) ∅).1.

(** The appointment in it. *)
Definition booked_doc : gmap string value :=
  mongoose.document appointments.appointmentSchema
    (appointments.create_doc (UTC e0) backwards) (newId e0) (now e0).

Definition unavailable : reports.Model :=
  {| reports.countDocuments := mongoose.Rejected (mongoose.MongoServerError 0);
     reports.aggregate := mongoose.Rejected (mongoose.MongoServerError 0) |}.

End sample.

(** ** Vocabulary of the further properties *)

(** The query parameters a search route reads. *)
Definition search_params (r : record_type) : list string :=
  match r with
  | Patient | Provider => ["term"]
  | Appointment | Encounter | Prescription => ["patientId"; "providerId"]
  | Lab => ["patientId"; "testName"]
  | Vitals => ["patientId"]
  | InventoryItem => ["name"]
  | Billing => ["patientId"; "status"]
  end.

(** What a route sees of parameter [k]: its value when it is there and
    truthy. *)
Definition truthy_param (q : gmap string qvalue) (k : string)
  : option qvalue :=
  match q !! k with
  | Some v => if q_truthy v then Some v else None
  | None => None
  end.

(** The condition the [where]-building routes put on [k]: a
    case-insensitive regex for the two name-like parameters, equality
    for the others. *)
Definition search_condition (k : string) (v : qvalue) : condition :=
  if decide (k = "testName" ∨ k = "name") then RegexMatch v "i" else Equals v.

(** A stored value of the type a path declares; a Date is a valid
    date, a Number is not NaN. *)
Definition stored_typed (t : mongoose.SchemaType) (v : value) : Prop :=
  match t, v with
  | mongoose.TString, VStr _ => True
  | mongoose.TNumber, VNum n => zod.is_nan n = false
  | mongoose.TDate, VDate (Some _) => True
  | mongoose.TBoolean, VBool _ => True
  | mongoose.TObjectId, VOid _ => True
  | _, _ => False
  end.

(** Every path of the schema that is required or has a default is set
    in [d], and whatever [d] holds at a path has the path's type. *)
Definition well_stored (sch : mongoose.Schema) (d : obj) : Prop :=
  ∀ k o, (k, o) ∈ sch →
    (mongoose.required o = true ∨ is_Some (mongoose.default_value o) →
     is_Some (d !! k))
    ∧ ∀ v, d !! k = Some v → stored_typed (mongoose.type o) v.

(** What Mongoose can cast and validate of a payload the create schema
    of [r] accepts: references are ObjectIds, date strings are dates,
    and a required String path is not given the empty string. *)
Definition castable (r : record_type) (UTC : Z → Z) (m : gmap string value)
  : Prop :=
  ∀ k o s, (k, o) ∈ schema (module r) → m !! k = Some (VStr s) →
    match mongoose.type o with
    | mongoose.TObjectId => is_Some (mongoose.castObjectId s)
    | mongoose.TDate => is_Some (JSDate.parse UTC s)
    | mongoose.TString => mongoose.required o = true → s ≠ EmptyString
    | _ => True
    end.

(** Further sample requests. *)
Module sample_more.

Definition e1 : env :=
  {| UTC := λ t, t; now := 1700000360000%Z;
     newId := "65a1b2c3d4e5f60718293a4c" |}.

(** The collection after [POST /patients] with [sample.jane]. *)
Definition registered : gmap string obj :=
  {[ newId sample.e0 := sample.jane_doc ]}.

Definition lab : gmap string value :=
  {[ "patientId" := VStr "65a1b2c3d4e5f60718293a4b";
     "testName" := VStr "glucose";
     "result" := VStr "5.4";
     "date" := VStr "2024-03-01" ]}.

(** The collection after [POST /labs] with [lab], and its record. *)
Definition lab_doc : gmap string value :=
  mongoose.document labs.labSchema
    (labs.create_doc (UTC sample.e0) lab) (newId sample.e0) (now sample.e0).

Definition tested : gmap string obj := {[ newId sample.e0 := lab_doc ]}.

(** [PUT /patients/:id] with [gender_F] at clock [now e1], on
    [registered]: the record it leaves and the collection. *)
Definition gender_F : gmap string value := {[ "gender" := VStr "F" ]}.

Definition regendered_doc : gmap string value :=
  <["updatedAt" := VDate (Some (now e1))]> (gender_F ∪ sample.jane_doc).

Definition regendered : gmap string obj :=
  {[ newId sample.e0 := regendered_doc ]}.

End sample_more.

(** * Properties *)

(** ** zod: parsing *)

Section zod_facts.

Implicit Types (shape : zod.ZodObject) (m data : gmap string value).

Lemma field_issues_elem shape m i :
  i ∈ zod.field_issues shape m ↔
  ∃ k t, (k, t) ∈ shape ∧ i ∈ zod._parse t [k] (prop m k).
Proof.
  unfold zod.field_issues. rewrite list_elem_of_In, in_flat_map.
  setoid_rewrite <- list_elem_of_In. split.
  - intros [[k t] [Hin Hi]]. by exists k, t.
  - intros (k & t & Hin & Hi). by exists (k, t).
Qed.

Lemma field_issues_nil shape m :
  zod.field_issues shape m = [] ↔
  ∀ k t, (k, t) ∈ shape → zod._parse t [k] (prop m k) = [].
Proof.
  split.
  - intros Hnil k t Hin.
    destruct (zod._parse t [k] (prop m k)) as [|i l] eqn:E; [done|].
    assert (i ∈ zod.field_issues shape m) as Hi.
    { apply field_issues_elem. exists k, t. rewrite E. split; [done|left]. }
    rewrite Hnil in Hi. by apply elem_of_nil in Hi.
  - intros Hall.
    destruct (zod.field_issues shape m) as [|i l] eqn:E; [done|].
    assert (i ∈ zod.field_issues shape m) as Hi by (rewrite E; left).
    apply field_issues_elem in Hi as (k & t & Hin & Hi).
    rewrite (Hall k t Hin) in Hi. by apply elem_of_nil in Hi.
Qed.

(** Validation succeeds exactly when every field passes on its own, and
    then returns the input stripped to the schema's keys. *)
Lemma parse_Ok shape input data :
  zod.parse shape input = zod.Ok data ↔
  ∃ m, zod.own_props input = Some m ∧
       zod.field_issues shape m = [] ∧ data = zod.strip shape m.
Proof.
  unfold zod.parse. destruct (zod.own_props input) as [m|]; split.
  - destruct (zod.field_issues shape m) eqn:E; [|done].
    intros [= <-]. by exists m.
  - intros (m' & [= <-] & -> & ->). done.
  - done.
  - by intros (m' & ? & _).
Qed.

Lemma parse_ZodError shape input errors :
  zod.parse shape input = zod.ZodError errors →
  errors ≠ [] ∧
  ∀ m, zod.own_props input = Some m → errors = zod.field_issues shape m.
Proof.
  unfold zod.parse. destruct (zod.own_props input) as [m|].
  - destruct (zod.field_issues shape m) eqn:E; [done|].
    intros [= <-]. split; [done|]. by intros m' [= <-].
  - intros [= <-]. split; [done|]. done.
Qed.

Lemma strip_lookup shape m k :
  zod.strip shape m !! k = if decide (k ∈ shape.*1) then m !! k else None.
Proof.
  unfold zod.strip. case_decide as Hk.
  - destruct (m !! k) as [v|] eqn:E.
    + by apply map_lookup_filter_Some.
    + apply map_lookup_filter_None. left. done.
  - apply map_lookup_filter_None. right. intros v _. done.
Qed.

Lemma strip_lookup_None shape m k :
  m !! k = None → zod.strip shape m !! k = None.
Proof. intros H. rewrite strip_lookup. by case_decide. Qed.

Lemma strip_prop shape m k t :
  (k, t) ∈ shape → prop (zod.strip shape m) k = prop m k.
Proof.
  intros Hin. unfold prop. rewrite strip_lookup.
  rewrite decide_True; [done|].
  apply list_elem_of_fmap. by exists (k, t).
Qed.

Lemma partial_elem shape k t :
  (k, t) ∈ zod.partial shape ↔
  ∃ t', t = zod.ZodOptional t' ∧ (k, t') ∈ shape.
Proof.
  unfold zod.partial. rewrite list_elem_of_In, in_map_iff.
  setoid_rewrite <- list_elem_of_In. split.
  - intros ([k' t'] & [= <- <-] & Hin). by exists t'.
  - intros (t' & -> & Hin). by exists (k, t').
Qed.

(** [XUpdate.parse({})] succeeds with no data. *)
Lemma partial_parse_empty shape :
  zod.parse (zod.partial shape) (VObj ∅) = zod.Ok ∅.
Proof.
  apply parse_Ok. exists ∅. split; [done|]. split.
  - apply field_issues_nil. intros k t (t' & -> & _)%partial_elem.
    unfold prop. by rewrite lookup_empty.
  - unfold zod.strip. by rewrite map_filter_empty.
Qed.

(** A field that is not optional reports an issue when it is missing. *)
Lemma missing_required (t : zod.ZodType) p :
  (∀ t', t ≠ zod.ZodOptional t') → zod._parse t p VUndef ≠ [].
Proof. destruct t; try done. intros H. by destruct (H t). Qed.

(** An accepted optional enum field is absent or a member of the enum. *)
Lemma parse_optional_enum values p v :
  zod._parse (zod.ZodOptional (zod.ZodEnum values)) p v = [] →
  v = VUndef ∨ ∃ s, v = VStr s ∧ s ∈ values.
Proof.
  destruct v; simpl; try done; [by left|].
  case_bool_decide; [|done]. intros _. right. eauto.
Qed.

Lemma parse_partial_optional_enum values p v :
  zod._parse (zod.ZodOptional (zod.ZodOptional (zod.ZodEnum values))) p v = [] →
  v = VUndef ∨ ∃ s, v = VStr s ∧ s ∈ values.
Proof.
  destruct v; simpl; try done; [by left|].
  case_bool_decide; [|done]. intros _. right. eauto.
Qed.

End zod_facts.

(** ** mongoose: creating a document *)

Section mongoose_create_facts.

Implicit Types (sch : mongoose.Schema) (input d : gmap string value)
  (c : gmap string (gmap string value)).

Lemma path_errors_elem sch input k err :
  (k, err) ∈ mongoose.path_errors sch input ↔
  ∃ o, (k, o) ∈ sch ∧ mongoose.set_path input k o = inl err.
Proof.
  unfold mongoose.path_errors. rewrite list_elem_of_In, in_flat_map.
  setoid_rewrite <- list_elem_of_In. split.
  - intros ([k' o] & Hin & Hi). simpl in Hi.
    destruct (mongoose.set_path input k' o) eqn:E.
    + apply list_elem_of_singleton in Hi as [= <- <-]. by exists o.
    + by apply elem_of_nil in Hi.
  - intros (o & Hin & E). exists (k, o). split; [done|].
    simpl. rewrite E. by apply list_elem_of_singleton.
Qed.

Lemma path_errors_nil sch input :
  mongoose.path_errors sch input = [] ↔
  ∀ k o, (k, o) ∈ sch → ∃ v, mongoose.set_path input k o = inr v.
Proof.
  split.
  - intros Hnil k o Hin.
    destruct (mongoose.set_path input k o) as [err|v] eqn:E; [|by exists v].
    assert ((k, err) ∈ mongoose.path_errors sch input) as Hi
      by (apply path_errors_elem; eauto).
    rewrite Hnil in Hi. by apply elem_of_nil in Hi.
  - intros Hall.
    destruct (mongoose.path_errors sch input) as [|[k err] l] eqn:E; [done|].
    assert ((k, err) ∈ mongoose.path_errors sch input) as Hi
      by (rewrite E; left).
    apply path_errors_elem in Hi as (o & Hin & Hi).
    destruct (Hall k o Hin) as [v Hv]. congruence.
Qed.

Lemma create_Resolved sch input id now c c' d :
  mongoose.create sch input id now c = (c', mongoose.Resolved d) ↔
  mongoose.path_errors sch input = [] ∧ c !! id = None ∧
  d = mongoose.document sch input id now ∧ c' = <[id := d]> c.
Proof.
  unfold mongoose.create.
  destruct (mongoose.path_errors sch input) eqn:E.
  - destruct (c !! id) eqn:Ec.
    + split; [done|]. by intros (_ & ? & _).
    + split.
      * by intros [= <- <-].
      * by intros (_ & _ & -> & ->).
  - split; [done|]. by intros (? & _).
Qed.

Lemma create_Rejected sch input id now c c' err :
  mongoose.create sch input id now c = (c', mongoose.Rejected err) → c' = c.
Proof.
  unfold mongoose.create.
  destruct (mongoose.path_errors sch input); [destruct (c !! id)|];
    by intros [= <-].
Qed.

Lemma create_invalid sch input id now c :
  mongoose.path_errors sch input ≠ [] →
  mongoose.create sch input id now c =
    (c, mongoose.Rejected
          (mongoose.ValidationError (mongoose.path_errors sch input))).
Proof.
  unfold mongoose.create.
  by destruct (mongoose.path_errors sch input).
Qed.

End mongoose_create_facts.

(** ** The create route *)

Section post_facts.

Variable R : Resource.
Implicit Types (e : env) (input : value) (c : gmap string (gmap string value)).

(** The create route answers 201 exactly when both layers accept the
    payload and the generated id is free; it writes only then. *)
Lemma post_Created e input c c' d :
  post R e input c = (c', Res 201 (Doc d)) ↔
  ∃ data, zod.parse (Create R) input = zod.Ok data ∧
    mongoose.path_errors (schema R) (createDoc R (UTC e) data) = [] ∧
    c !! newId e = None ∧
    d = mongoose.document (schema R) (createDoc R (UTC e) data)
          (newId e) (now e) ∧
    c' = <[newId e := d]> c.
Proof.
  unfold post. destruct (zod.parse (Create R) input) as [data|] eqn:E.
  - destruct (mongoose.create _ _ _ _ c) as [c1 [d1|err]] eqn:Ec.
    + apply create_Resolved in Ec as (Hnil & Hfree & -> & ->). split.
      * intros [= <- <-]. by exists data.
      * intros (data' & [= <-] & _ & _ & -> & ->). done.
    + split; [done|]. intros (data' & [= <-] & Hnil & Hfree & -> & ->).
      assert (mongoose.create (schema R) (createDoc R (UTC e) data)
                (newId e) (now e) c
              = (<[newId e := mongoose.document (schema R)
                    (createDoc R (UTC e) data) (newId e) (now e)]> c,
                 mongoose.Resolved (mongoose.document (schema R)
                    (createDoc R (UTC e) data) (newId e) (now e)))) as Hc
        by by apply create_Resolved.
      congruence.
  - split; [done|]. by intros (data' & ? & _).
Qed.

Lemma post_unchanged e input c c' resp :
  post R e input c = (c', resp) →
  (∀ d, resp ≠ Res 201 (Doc d)) → c' = c.
Proof.
  unfold post. destruct (zod.parse (Create R) input) as [data|].
  - destruct (mongoose.create _ _ _ _ c) as [c1 [d1|err]] eqn:Ec.
    + intros [= <- <-] H. by destruct (H d1).
    + intros [= <- <-] _. by apply create_Rejected in Ec.
  - by intros [= <- <-].
Qed.

Lemma post_invalid e input c :
  invalid_payload R e input →
  ∃ d, post R e input c = (c, Res 400 (ErrorBody "validation_error" d))
       ∧ reports_all R e input d.
Proof.
  intros Hbad. unfold post.
  destruct (zod.parse (Create R) input) as [data|errors] eqn:E.
  - apply parse_Ok in E as Hok. destruct Hok as (m & Hm & Hnil & ->).
    destruct Hbad as [Hno | m' k t Hm' Hin Hne | data' k o err Hd Hin Herr].
    + congruence.
    + assert (m' = m) as -> by congruence.
      by rewrite (proj1 (field_issues_nil _ _) Hnil k t Hin) in Hne.
    + assert (data' = zod.strip (Create R) m) as -> by congruence.
      assert (mongoose.path_errors (schema R)
                (createDoc R (UTC e) (zod.strip (Create R) m)) ≠ []) as Hne.
      { intros Hn. destruct (proj1 (path_errors_nil _ _) Hn k o Hin).
        congruence. }
      rewrite (create_invalid _ _ _ _ _ Hne). eexists. split; [done|].
      simpl. split; [done|]. intros data2 k2 o2 err2 Hd2 Hin2 Herr2.
      rewrite E in Hd2. injection Hd2 as <-.
      apply path_errors_elem. eauto.
  - eexists. split; [done|]. simpl.
    apply parse_ZodError in E as [Hne Hall]. split; [done|].
    intros m k t i Hm Hin Hi. rewrite (Hall m Hm).
    apply field_issues_elem. eauto.
Qed.

End post_facts.

(** A payload that lacks a field the schema does not mark optional is
    invalid. *)
Lemma missing_field_is_invalid (R : Resource) (e : env)
    (m : gmap string value) k t :
  (k, t) ∈ Create R → (∀ t', t ≠ zod.ZodOptional t') → m !! k = None →
  invalid_payload R e (VObj m).
Proof.
  intros Hin Hreq Hk. apply (field_violation R e (VObj m) m k t eq_refl Hin).
  unfold prop. rewrite Hk. by apply missing_required.
Qed.

(** C1.  Whatever the record type, a create payload that violates a rule
    (it is not an object, a field misses its schema rule -- a missing
    required field included -- or a path of the model does not cast or
    validate) gets status 400 with error [validation_error]; the details
    list every violation found, not only the first; the collection that
    comes back is the one that went in, so nothing was written and its
    contents and size are what they were. *)
Theorem create_invalid_input (r : record_type) (e : env) (input : value)
    (c : gmap string (gmap string value)) :
  invalid_payload (module r) e input →
  ∃ d, handle r e (POST input) c
         = (c, Res 400 (ErrorBody "validation_error" d))
       ∧ reports_all (module r) e input d
       ∧ get_count (handle r e (POST input) c).1 = get_count c.
Proof.
  intros Hbad. simpl.
  destruct (post_invalid (module r) e input c Hbad) as (d & Hpost & Hall).
  exists d. rewrite Hpost. done.
Qed.

(** A payload without [dob] is such a payload for the patients module. *)
Lemma create_invalid_input_witness :
  invalid_payload (module Patient) sample.e0 sample.no_dob ∧
  ∃ d, handle Patient sample.e0 (POST sample.no_dob) ∅
         = (∅, Res 400 (ErrorBody "validation_error" d))
       ∧ reports_all (module Patient) sample.e0 sample.no_dob d
       ∧ get_count (handle Patient sample.e0 (POST sample.no_dob) ∅).1
         = get_count ∅.
Proof.
  assert (invalid_payload (module Patient) sample.e0 sample.no_dob) as H.
  { apply (missing_field_is_invalid _ _ _ "dob"
             (zod.ZodString [zod.Regex RegExp.date])).
    - simpl. unfold patients.PatientCreate. in_list.
    - done.
    - reflexivity. }
  split; [exact H|].
  exact (create_invalid_input Patient sample.e0 sample.no_dob ∅ H).
Defined.

(** ** mongoose: updating a document *)

Section mongoose_update_facts.

Implicit Types (sch : mongoose.Schema) (update u d : gmap string value)
  (c : gmap string (gmap string value)).

(** A key of the cast update comes from a key of the update that holds a
    value other than [undefined]. *)
Lemma castUpdate_lookup sch update u k :
  mongoose.castUpdate sch update = Some u →
  u !! k = None ∨
  ∃ o v v', (k, o) ∈ sch ∧ update !! k = Some v ∧ v ≠ VUndef ∧
            mongoose.cast (mongoose.type o) v = Some v' ∧ u !! k = Some v'.
Proof.
  revert u. induction sch as [|[k0 o0] sch IH]; intros u; simpl.
  - intros [= <-]. left. apply lookup_empty.
  - assert (∀ u0, mongoose.castUpdate sch update = Some u0 →
              u0 !! k = None ∨
              ∃ o v v', (k, o) ∈ (k0, o0) :: sch ∧ update !! k = Some v ∧
                v ≠ VUndef ∧ mongoose.cast (mongoose.type o) v = Some v' ∧
                u0 !! k = Some v') as IH'.
    { intros u0 H0. destruct (IH u0 H0) as [?|(o & v & v' & ? & ?)]; [by left|].
      right. exists o, v, v'. split; [by right|done]. }
    fold (mongoose.castUpdate sch update).
    destruct (update !! k0) as [v0|] eqn:E0; [|by apply IH'].
    assert (v0 = VUndef ∨ v0 ≠ VUndef) as [->|Hv0]
      by (destruct v0; (by left) || (by right)); [by apply IH'|].
    destruct (mongoose.cast (mongoose.type o0) v0) as [v0'|] eqn:Ec;
      destruct (mongoose.castUpdate sch update) as [a|] eqn:Ea;
      intros Hu; try (by destruct v0).
    assert (u = <[k0 := v0']> a) as -> by (by destruct v0; simplify_eq).
    destruct (decide (k = k0)) as [->|Hk].
    + right. exists o0, v0, v0'. rewrite lookup_insert_eq.
      split; [left|done].
    + rewrite lookup_insert_ne by done. by apply IH'.
Qed.

(** An update all of whose keys are [undefined] casts to the empty
    update. *)
Lemma castUpdate_undefined sch update :
  (∀ k, prop update k = VUndef) → mongoose.castUpdate sch update = Some ∅.
Proof.
  intros Hall. induction sch as [|[k0 o0] sch IH]; simpl; [done|].
  fold (mongoose.castUpdate sch update). rewrite IH.
  specialize (Hall k0). unfold prop in Hall.
  destruct (update !! k0) as [v|]; [|done]. simpl in Hall. by subst v.
Qed.

Lemma findByIdAndUpdate_Some sch id update now c c' d' :
  mongoose.findByIdAndUpdate sch id update now c
    = (c', mongoose.Resolved (Some d')) ↔
  ∃ o u d, mongoose.castObjectId id = Some o ∧
    mongoose.castUpdate sch update = Some u ∧ c !! o = Some d ∧
    d' = <["updatedAt" := VDate (Some now)]> (u ∪ d) ∧ c' = <[o := d']> c.
Proof.
  unfold mongoose.findByIdAndUpdate.
  destruct (mongoose.castObjectId id) as [o|];
    [|split; [done|by intros (?&?&?&?&_)]].
  destruct (mongoose.castUpdate sch update) as [u|];
    [|split; [done|by intros (?&?&?&_&?&_)]].
  destruct (c !! o) as [d|] eqn:E; split.
  - intros [= <- <-]. by exists o, u, d.
  - intros (o' & u' & d0 & [= <-] & [= <-] & Hd & -> & ->).
    assert (d0 = d) as -> by congruence. done.
  - done.
  - intros (o' & u' & d0 & [= <-] & _ & Hd & _). congruence.
Qed.

(** Without a document (or with a rejected query) nothing is written. *)
Lemma findByIdAndUpdate_other sch id update now c c' r :
  mongoose.findByIdAndUpdate sch id update now c = (c', r) →
  (∀ d, r ≠ mongoose.Resolved (Some d)) → c' = c.
Proof.
  unfold mongoose.findByIdAndUpdate.
  destruct (mongoose.castObjectId id) as [o|]; [|by intros [= <- <-]].
  destruct (mongoose.castUpdate sch update) as [u|]; [|by intros [= <- <-]].
  destruct (c !! o) as [d|]; [|by intros [= <- <-]].
  intros [= <- <-] H. exfalso. by eapply H.
Qed.

End mongoose_update_facts.

(** ** The update route *)

(** The update a module builds has no defined key that the validated
    data lacks: the only keys it adds are date keys, and those are
    [undefined] when the data has no date. *)
Lemma update_doc_frame (r : record_type) (UTC : Z → Z)
    (data : gmap string value) (k : string) :
  data !! k = None → prop (updateDoc (module r) UTC data) k = VUndef.
Proof.
  intros Hk.
  assert (∀ k', prop data k' = VUndef → date_or_undefined UTC data k' = VUndef)
    as Hdate by (intros k' H; unfold date_or_undefined; by rewrite H).
  assert (prop data k = VUndef) as Hp by (unfold prop; by rewrite Hk).
  destruct r; simpl;
    unfold patients.update_doc, providers.update_doc, appointments.update_doc,
      encounters.update_doc, prescriptions.update_doc, labs.update_doc,
      vitals.update_doc, inventory.update_doc, billing.update_doc;
    try done;
    unfold prop at 1;
    repeat match goal with
      | |- context [ <[?k0 := _]> _ !! k ] =>
          destruct (decide (k = k0)) as [->|?];
          [ rewrite lookup_insert_eq; simpl; by apply Hdate
          | rewrite lookup_insert_ne by done ]
      end;
    by rewrite Hk.
Qed.

Section put_facts.

Variable R : Resource.
Implicit Types (e : env) (input : value) (c : gmap string (gmap string value)).

Lemma put_OK e id input c c' d' :
  put R e id input c = (c', Res 200 (Doc d')) ↔
  ∃ data o u d,
    zod.parse (Update R) input = zod.Ok data ∧
    mongoose.castObjectId id = Some o ∧
    mongoose.castUpdate (schema R) (updateDoc R (UTC e) data) = Some u ∧
    c !! o = Some d ∧
    d' = <["updatedAt" := VDate (Some (now e))]> (u ∪ d) ∧
    c' = <[o := d']> c.
Proof.
  unfold put. destruct (zod.parse (Update R) input) as [data|] eqn:E.
  - destruct (mongoose.findByIdAndUpdate _ _ _ _ c) as [c1 [[d1|]|err]] eqn:Ec.
    + apply findByIdAndUpdate_Some in Ec as (o & u & d & Ho & Hu & Hd & -> & ->).
      split.
      * intros [= <- <-]. by exists data, o, u, d.
      * intros (data' & o' & u' & d0 & [= <-] & Ho' & Hu' & Hd' & -> & ->).
        by simplify_eq.
    + split; [done|].
      intros (data' & o' & u' & d0 & [= <-] & Ho' & Hu' & Hd' & -> & ->).
      assert (mongoose.findByIdAndUpdate (schema R) id
                (updateDoc R (UTC e) data) (now e) c
              = (<[o' := <["updatedAt" := VDate (Some (now e))]> (u' ∪ d0)]> c,
                 mongoose.Resolved
                   (Some (<["updatedAt" := VDate (Some (now e))]> (u' ∪ d0)))))
        as H by (apply findByIdAndUpdate_Some; by exists o', u', d0).
      congruence.
    + split; [done|].
      intros (data' & o' & u' & d0 & [= <-] & Ho' & Hu' & Hd' & -> & ->).
      assert (mongoose.findByIdAndUpdate (schema R) id
                (updateDoc R (UTC e) data) (now e) c
              = (<[o' := <["updatedAt" := VDate (Some (now e))]> (u' ∪ d0)]> c,
                 mongoose.Resolved
                   (Some (<["updatedAt" := VDate (Some (now e))]> (u' ∪ d0)))))
        as H by (apply findByIdAndUpdate_Some; by exists o', u', d0).
      congruence.
  - split; [done|]. by intros (data' & ? & ? & ? & ? & _).
Qed.

Lemma put_unchanged e id input c c' resp :
  put R e id input c = (c', resp) →
  (∀ d, resp ≠ Res 200 (Doc d)) → c' = c.
Proof.
  unfold put. destruct (zod.parse (Update R) input) as [data|].
  - destruct (mongoose.findByIdAndUpdate _ _ _ _ c) as [c1 [[d1|]|err]] eqn:Ec.
    + intros [= <- <-] H. by destruct (H d1).
    + intros [= <- <-] _. by eapply findByIdAndUpdate_other.
    + intros [= <- <-] _. by eapply findByIdAndUpdate_other.
  - by intros [= <- <-].
Qed.

End put_facts.

(** C3.  For every record type and every id of an existing record: an
    update with the empty payload answers 200 with the stored record in
    which only [updatedAt] has been refreshed; and whenever an update
    answers 200, every field that the payload does not mention (other
    than [updatedAt]) has the value it had before. *)
Theorem update_keeps_unspecified_fields (r : record_type) (e : env)
    (id o : string) (c : gmap string (gmap string value))
    (d : gmap string value) :
  mongoose.castObjectId id = Some o → c !! o = Some d →
  (let d' := <["updatedAt" := VDate (Some (now e))]> d in
   handle r e (PUT id (VObj ∅)) c = (<[o := d']> c, Res 200 (Doc d')))
  ∧ (∀ m c' d', handle r e (PUT id (VObj m)) c = (c', Res 200 (Doc d')) →
       ∀ k, m !! k = None → k ≠ "updatedAt" → d' !! k = d !! k).
Proof.
  intros Ho Hd. split.
  - simpl. apply put_OK. exists ∅, o, ∅, d.
    split; [apply partial_parse_empty|]. split; [done|].
    split; [|by rewrite (left_id_L ∅ (∪))].
    apply castUpdate_undefined. intros k. by apply update_doc_frame.
  - intros m c' d' Hput k Hk Hne. simpl in Hput.
    apply put_OK in Hput
      as (data & o' & u & d0 & Hp & Ho' & Hu & Hd0 & -> & ->).
    assert (o' = o) as -> by congruence.
    assert (d0 = d) as -> by congruence.
    rewrite lookup_insert_ne by done.
    apply parse_Ok in Hp as (m' & [= <-] & _ & ->).
    assert (u !! k = None) as Huk.
    { destruct (castUpdate_lookup _ _ _ k Hu)
        as [?|(o1 & v & v' & _ & Hv & Hvne & _)]; [done|].
      pose proof (update_doc_frame r (UTC e) (zod.strip (Update (module r)) m) k
                    (strip_lookup_None _ _ _ Hk)) as Hf.
      unfold prop in Hf. rewrite Hv in Hf. simpl in Hf. done. }
    by rewrite lookup_union_r.
Qed.

Lemma update_keeps_unspecified_fields_witness :
  mongoose.castObjectId (newId sample.e0) = Some (newId sample.e0) ∧
  sample.booked !! newId sample.e0 = Some sample.booked_doc ∧
  (let d' := <["updatedAt" := VDate (Some (now sample.e0))]> sample.booked_doc in
   handle Appointment sample.e0 (PUT (newId sample.e0) (VObj ∅)) sample.booked
   = (<[newId sample.e0 := d']> sample.booked, Res 200 (Doc d')))
  ∧ (∀ m c' d',
       handle Appointment sample.e0 (PUT (newId sample.e0) (VObj m)) sample.booked
       = (c', Res 200 (Doc d')) →
       ∀ k, m !! k = None → k ≠ "updatedAt" → d' !! k = sample.booked_doc !! k).
Proof.
  assert (mongoose.castObjectId (newId sample.e0) = Some (newId sample.e0))
    as H1 by reflexivity.
  assert (sample.booked !! newId sample.e0 = Some sample.booked_doc)
    as H2 by (vm_compute; reflexivity).
  split; [exact H1|]. split; [exact H2|].
  exact (update_keeps_unspecified_fields Appointment sample.e0 _ _ _ _ H1 H2).
Defined.

(** ** The delete route *)

(** C4 (as amended).  For every record type and every id that is a
    well-formed ObjectId, whether or not a record has it, the delete
    route answers 204 with an empty body; when no record has the id the
    collection is left as it was. *)
Theorem delete_answers_204 (r : record_type) (e : env) (id o : string)
    (c : gmap string (gmap string value)) :
  mongoose.castObjectId id = Some o →
  handle r e (DELETE id) c = (delete o c, Res 204 Empty)
  ∧ (c !! o = None → (handle r e (DELETE id) c).1 = c).
Proof.
  intros Ho. simpl. unfold delete_, mongoose.findByIdAndDelete.
  rewrite Ho. split; [done|]. simpl. apply delete_id.
Qed.

Lemma delete_answers_204_witness :
  mongoose.castObjectId "65A1B2C3D4E5F60718293A4C"
    = Some "65a1b2c3d4e5f60718293a4c" ∧
  handle Appointment sample.e0 (DELETE "65A1B2C3D4E5F60718293A4C") sample.booked
    = (delete "65a1b2c3d4e5f60718293a4c" sample.booked, Res 204 Empty)
  ∧ (sample.booked !! "65a1b2c3d4e5f60718293a4c" = None →
     (handle Appointment sample.e0 (DELETE "65A1B2C3D4E5F60718293A4C")
        sample.booked).1 = sample.booked).
Proof.
  assert (mongoose.castObjectId "65A1B2C3D4E5F60718293A4C"
          = Some "65a1b2c3d4e5f60718293a4c") as H by reflexivity.
  split; [exact H|].
  exact (delete_answers_204 Appointment sample.e0 _ _ sample.booked H).
Defined.

(** An id that is not an ObjectId: the query rejects, the route has no
    [try] around it, and no 204 is sent. *)
Lemma delete_malformed_id_no_204 :
  handle Appointment sample.e0 (DELETE "abc") ∅
    = (∅, Unhandled (mongoose.CastError "_id"))
  ∧ ¬ ∃ c', handle Appointment sample.e0 (DELETE "abc") ∅ = (c', Res 204 Empty).
Proof.
  split; [reflexivity|]. intros [c' H]. vm_compute in H. discriminate H.
Qed.

(** ** The cancel route *)

Lemma cancel_update_cast :
  mongoose.castUpdate appointments.appointmentSchema appointments.cancel_update
  = Some {[ "status" := VStr "cancelled" ]}.
Proof. reflexivity. Qed.

(** C5 (as amended).  For every appointment id that is a well-formed
    ObjectId: if a record has it, the cancel route sets its status to
    [cancelled] whatever the record held before (no validation, no look
    at the prior status), refreshes [updatedAt] and answers 200 with the
    updated record; if none has it, the route answers 404 [not_found] and
    changes nothing. *)
Theorem cancel_forces_cancelled (e : env) (id o : string)
    (c : gmap string (gmap string value)) :
  mongoose.castObjectId id = Some o →
  (∀ d, c !! o = Some d →
     let d' := <["updatedAt" := VDate (Some (now e))]>
                 (<["status" := VStr "cancelled"]> d) in
     handle Appointment e (PATCH_cancel id) c
       = (<[o := d']> c, Res 200 (Doc d')))
  ∧ (c !! o = None →
     handle Appointment e (PATCH_cancel id) c
       = (c, Res 404 (ErrorBody "not_found" NoDetails))).
Proof.
  intros Ho. simpl. unfold patch_cancel, mongoose.findByIdAndUpdate.
  rewrite Ho, cancel_update_cast. split.
  - intros d Hd. rewrite Hd. simpl.
    by rewrite <- insert_union_singleton_l.
  - intros Hd. by rewrite Hd.
Qed.

Lemma cancel_forces_cancelled_witness :
  mongoose.castObjectId (newId sample.e0) = Some (newId sample.e0) ∧
  sample.booked_doc !! "status" = Some (VStr "completed") ∧
  (∀ d, sample.booked !! newId sample.e0 = Some d →
     let d' := <["updatedAt" := VDate (Some (now sample.e0))]>
                 (<["status" := VStr "cancelled"]> d) in
     handle Appointment sample.e0 (PATCH_cancel (newId sample.e0)) sample.booked
       = (<[newId sample.e0 := d']> sample.booked, Res 200 (Doc d')))
  ∧ (sample.booked !! newId sample.e0 = None →
     handle Appointment sample.e0 (PATCH_cancel (newId sample.e0)) sample.booked
       = (sample.booked, Res 404 (ErrorBody "not_found" NoDetails))).
Proof.
  assert (mongoose.castObjectId (newId sample.e0) = Some (newId sample.e0))
    as H by reflexivity.
  split; [exact H|]. split; [vm_compute; reflexivity|].
  exact (cancel_forces_cancelled sample.e0 _ _ sample.booked H).
Defined.

(** An id that is not an ObjectId has no record, yet the answer is not
    404: the query rejects and the route does not catch it. *)
Lemma cancel_malformed_id_no_404 :
  (∀ o, mongoose.castObjectId "abc" = Some o → False) ∧
  handle Appointment sample.e0 (PATCH_cancel "abc") ∅
    = (∅, Unhandled (mongoose.CastError "_id"))
  ∧ handle Appointment sample.e0 (PATCH_cancel "abc") ∅
    ≠ (∅, Res 404 (ErrorBody "not_found" NoDetails)).
Proof.
  split; [intros o H; vm_compute in H; discriminate H|].
  split; [reflexivity|]. intros H. vm_compute in H. discriminate H.
Qed.

(** ** Create, then read *)

(** C8.  For every record type: when the create route answers 201 with a
    record (the input passed validation and the model accepted it), the
    read route called with that record's [_id] on the resulting
    collection answers 200 with the very same record, so all fields
    agree.  The id is the one the driver generated, a well-formed
    ObjectId. *)
Theorem create_then_get (r : record_type) (e : env) (input : value)
    (c c' : gmap string (gmap string value)) (d : gmap string value) :
  handle r e (POST input) c = (c', Res 201 (Doc d)) →
  mongoose.castObjectId (newId e) = Some (newId e) →
  ∃ id data,
    zod.parse (Create (module r)) input = zod.Ok data ∧
    d !! "_id" = Some (VOid id) ∧
    handle r e (GET id) c' = (c', Res 200 (Doc d)).
Proof.
  simpl. intros (data & Hp & _ & _ & -> & ->)%post_Created Hid.
  exists (newId e), data. split; [done|]. split.
  - unfold mongoose.document. apply lookup_insert_eq.
  - unfold get_by_id, mongoose.findById. by rewrite Hid, lookup_insert_eq.
Qed.

Lemma create_then_get_witness :
  handle Patient sample.e0 (POST sample.jane) ∅
    = ({[ newId sample.e0 := sample.jane_doc ]}, Res 201 (Doc sample.jane_doc)) ∧
  mongoose.castObjectId (newId sample.e0) = Some (newId sample.e0) ∧
  ∃ id data,
    zod.parse (Create (module Patient)) sample.jane = zod.Ok data ∧
    sample.jane_doc !! "_id" = Some (VOid id) ∧
    handle Patient sample.e0 (GET id) {[ newId sample.e0 := sample.jane_doc ]}
      = ({[ newId sample.e0 := sample.jane_doc ]}, Res 200 (Doc sample.jane_doc)).
Proof.
  assert (handle Patient sample.e0 (POST sample.jane) ∅
          = ({[ newId sample.e0 := sample.jane_doc ]},
             Res 201 (Doc sample.jane_doc))) as H1
    by (vm_compute; reflexivity).
  assert (mongoose.castObjectId (newId sample.e0) = Some (newId sample.e0))
    as H2 by reflexivity.
  split; [exact H1|]. split; [exact H2|].
  exact (create_then_get Patient sample.e0 sample.jane _ _ _ H1 H2).
Defined.

(** ** reports *)

(** C9.  Both aggregation routes always answer 200.  When the model is
    not there, or the awaited aggregation rejects, the appointments
    report is [{ total: 0 }] and the billing report is [[]]: a failure
    degrades to the empty result and never becomes an error response. *)
Theorem reports_degrade_to_empty (A B : option reports.Model) :
  (∃ n, reports.get_appointments A = Res 200 (Total n))
  ∧ (∃ l, reports.get_billing B = Res 200 (Docs l))
  ∧ ((A = None ∨
      ∃ M err, A = Some M ∧ reports.countDocuments M = mongoose.Rejected err) →
     reports.get_appointments A = Res 200 (Total 0))
  ∧ ((B = None ∨
      ∃ M err, B = Some M ∧ reports.aggregate M = mongoose.Rejected err) →
     reports.get_billing B = Res 200 (Docs [])).
Proof.
  unfold reports.get_appointments, reports.get_billing. repeat split.
  - destruct A as [M|]; [destruct (reports.countDocuments M)|]; eauto.
  - destruct B as [M|]; [destruct (reports.aggregate M)|]; eauto.
  - intros [->|(M & err & -> & ->)]; done.
  - intros [->|(M & err & -> & ->)]; done.
Qed.

Lemma reports_degrade_to_empty_witness :
  reports.countDocuments sample.unavailable
    = mongoose.Rejected (mongoose.MongoServerError 0) ∧
  reports.get_appointments (Some sample.unavailable) = Res 200 (Total 0) ∧
  reports.get_billing None = Res 200 (Docs []).
Proof.
  destruct (reports_degrade_to_empty (Some sample.unavailable) None)
    as (_ & _ & HA & HB).
  split; [reflexivity|]. split.
  - apply HA. right. by exists sample.unavailable, (mongoose.MongoServerError 0).
  - apply HB. by left.
Defined.

(** ** The search routes *)

Lemma assign_if_absent (q : gmap string qvalue) (k k' : string)
    (mk : qvalue → condition) (w : gmap string condition) :
  q !! k = None → assign_if q k' mk w !! k = w !! k.
Proof.
  intros Hk. unfold assign_if.
  destruct (q !! k') as [v|] eqn:E; [|done].
  destruct (q_truthy v); [|done].
  rewrite lookup_insert_ne; [done|]. intros ->. congruence.
Qed.

(** C2 (as amended).  In the search routes of appointments, encounters,
    prescriptions, labs, vitals, inventory and billing a query parameter
    that is absent from the request puts no condition into the filter.
    The patients and providers routes instead default an absent [term]
    to the empty string: their filter always carries the case-insensitive
    regex condition on [name] (and, for providers, [specialty]), with the
    empty pattern when no term is given. *)
Theorem search_filter_absent_parameter :
  (∀ r q k, r ≠ Patient → r ≠ Provider → q !! k = None →
     conditions_on (searchFilter (module r) q) k = [])
  ∧ (∀ q, q !! "term" = None →
       searchFilter (module Patient) q
       = Where {[ "name" := RegexMatch (QStr EmptyString) "i" ]})
  ∧ (∀ q, q !! "term" = None →
       searchFilter (module Provider) q
       = Or [ {[ "name" := RegexMatch (QStr EmptyString) "i" ]};
              {[ "specialty" := RegexMatch (QStr EmptyString) "i" ]} ]).
Proof.
  split; [|split].
  - intros r q k Hp Hq Hk. destruct r; try done; simpl;
      unfold appointments.search, encounters.search, prescriptions.search,
        labs.search, vitals.search, inventory.search, billing.search; simpl;
      rewrite ?assign_if_absent by done; by rewrite lookup_empty.
  - intros q Hq. simpl. unfold patients.search, or_empty. by rewrite Hq.
  - intros q Hq. simpl. unfold providers.search, or_empty. by rewrite Hq.
Qed.

Lemma search_filter_absent_parameter_witness :
  conditions_on
    (searchFilter (module Lab) {[ "testName" := QStr "glucose" ]}) "patientId"
  = [] ∧
  searchFilter (module Patient) {[ "page" := QStr "2" ]}
  = Where {[ "name" := RegexMatch (QStr EmptyString) "i" ]}.
Proof.
  destruct search_filter_absent_parameter as (H1 & H2 & _). split.
  - apply H1; done.
  - apply H2. done.
Defined.

(** Without [term] the patients filter still has a condition on [name],
    the empty-pattern regex, and the providers filter has it on [name]
    and [specialty]. *)
Lemma search_without_term_matches_empty_string :
  (∅ : gmap string qvalue) !! "term" = None ∧
  conditions_on (searchFilter (module Patient) ∅) "name"
    = [RegexMatch (QStr EmptyString) "i"] ∧
  conditions_on (searchFilter (module Provider) ∅) "specialty"
    = [RegexMatch (QStr EmptyString) "i"].
Proof. split; [done|]. split; reflexivity. Qed.

(** ** The schemas of the nine modules *)

Lemma schema_NoDup (r : record_type) : NoDup (schema (module r)).*1.
Proof. destruct r; apply (bool_decide_unpack _); by vm_compute. Qed.

(** The keys mongoose adds are not paths of any schema. *)
Lemma schema_reserved (r : record_type) (k : string) :
  k ∈ (schema (module r)).*1 →
  k ≠ "_id" ∧ k ≠ "createdAt" ∧ k ≠ "updatedAt" ∧ k ≠ "__v".
Proof. intros Hk. destruct r; simpl in Hk; inv_elem Hk; done. Qed.

Lemma NoDup_fst_functional {A} (l : list (string * A)) k a b :
  NoDup l.*1 → (k, a) ∈ l → (k, b) ∈ l → a = b.
Proof.
  induction l as [|[k0 a0] l IH]; simpl; [by intros _ ?%elem_of_nil|].
  intros [Hk0 Hnd]%NoDup_cons Ha Hb.
  assert (∀ x, (k0, x) ∈ l → False) as Hno.
  { intros x Hx. apply Hk0. apply list_elem_of_fmap. by exists (k0, x). }
  apply elem_of_cons in Ha as [Ha|Ha];
    apply elem_of_cons in Hb as [Hb|Hb]; simplify_eq; try done.
  - by destruct (Hno b).
  - by destruct (Hno a).
  - by apply IH.
Qed.

(** Each enum path of a model has the same enum, optional, in the
    request schema; it is a String path that is not required and whose
    default is a member of the enum. *)
Lemma enum_paths (r : record_type) k o values :
  (k, o) ∈ schema (module r) → mongoose.enum o = Some values →
  (k, zod.ZodOptional (zod.ZodEnum values)) ∈ Create (module r)
  ∧ mongoose.type o = mongoose.TString
  ∧ mongoose.required o = false
  ∧ ∃ s0, mongoose.default_value o = Some (VStr s0) ∧ s0 ∈ values.
Proof.
  intros Hin He. destruct r; simpl in Hin; inv_elem Hin;
    simpl in He; try discriminate He; injection He as <-;
    (split; [simpl; in_list|]); (split; [done|]); (split; [done|]);
    eexists; (split; [reflexivity|in_list]).
Qed.

(** The object handed to [Model.create] keeps an accepted enum field
    (patients replace a missing gender by ['O']). *)
Lemma create_doc_enum (r : record_type) (UTC : Z → Z)
    (data : gmap string value) k o values :
  (k, o) ∈ schema (module r) → mongoose.enum o = Some values →
  enum_value values (prop data k) →
  enum_value values (prop (createDoc (module r) UTC data) k).
Proof.
  intros Hin He Hv. destruct r; simpl in Hin; inv_elem Hin;
    simpl in He; try discriminate He; injection He as <-; simpl;
    unfold appointments.create_doc, prescriptions.create_doc,
      billing.create_doc, patients.create_doc;
    unfold prop at 1; rewrite ?lookup_insert_ne by done; try exact Hv.
  rewrite lookup_insert_eq. simpl. right.
  destruct Hv as [->|(s & -> & Hs)].
  - exists "O". split; [done|in_list].
  - exists s. split; [|done]. inv_elem Hs; by subst.
Qed.

(** The update handed to [findByIdAndUpdate] keeps every field that is
    not a date. *)
Lemma update_doc_enum (r : record_type) (UTC : Z → Z)
    (data : gmap string value) k o values :
  (k, o) ∈ schema (module r) → mongoose.enum o = Some values →
  prop (updateDoc (module r) UTC data) k = prop data k.
Proof.
  intros Hin He. destruct r; simpl in Hin; inv_elem Hin;
    simpl in He; try discriminate He; simpl;
    unfold appointments.update_doc, prescriptions.update_doc,
      billing.update_doc, patients.update_doc;
    unfold prop at 1; by rewrite ?lookup_insert_ne by done.
Qed.

(** ** mongoose: the paths of a new document *)

Section mongoose_paths_facts.

Implicit Types (sch : mongoose.Schema) (input : gmap string value).

Lemma paths_of_None sch input k :
  k ∉ sch.*1 → mongoose.paths_of sch input !! k = None.
Proof.
  induction sch as [|[k0 o0] sch IH]; simpl; [intros _; apply lookup_empty|].
  intros [Hne Hk]%not_elem_of_cons.
  fold (mongoose.paths_of sch input).
  destruct (mongoose.set_path input k0 o0) as [?|[]];
    rewrite ?lookup_insert_ne by done; by apply IH.
Qed.

Lemma paths_of_lookup sch input k o v :
  NoDup sch.*1 → (k, o) ∈ sch →
  mongoose.set_path input k o = inr v → v ≠ VUndef →
  mongoose.paths_of sch input !! k = Some v.
Proof.
  induction sch as [|[k0 o0] sch IH]; simpl; [by intros _ ?%elem_of_nil|].
  intros [Hk0 Hnd]%NoDup_cons Hin Hset Hv.
  fold (mongoose.paths_of sch input).
  apply elem_of_cons in Hin as [[= <- <-]|Hin].
  - rewrite Hset. destruct v; try done; by rewrite lookup_insert_eq.
  - assert (k ≠ k0) as Hne.
    { intros ->. apply Hk0. apply list_elem_of_fmap. by exists (k0, o). }
    destruct (mongoose.set_path input k0 o0) as [?|[]];
      rewrite ?lookup_insert_ne by done; by apply IH.
Qed.

Lemma set_path_defined input k o v v' :
  prop input k = v → v ≠ VUndef →
  mongoose.cast (mongoose.type o) v = Some v' →
  mongoose.validate_value o v' = None →
  mongoose.set_path input k o = inr v'.
Proof.
  intros Hp Hv Hc Hval. unfold mongoose.set_path. rewrite Hp.
  destruct v; try done; destruct (mongoose.default_value o);
    by rewrite Hc, Hval.
Qed.

Lemma set_path_default input k o v v' :
  prop input k = VUndef → mongoose.default_value o = Some v →
  mongoose.cast (mongoose.type o) v = Some v' →
  mongoose.validate_value o v' = None →
  mongoose.set_path input k o = inr v'.
Proof.
  intros Hp Hd Hc Hval. unfold mongoose.set_path.
  by rewrite Hp, Hd, Hc, Hval.
Qed.

(** An Invalid Date does not cast. *)
Lemma set_path_invalid_date input k o :
  prop input k = VDate None → mongoose.type o = mongoose.TDate →
  mongoose.set_path input k o = inl mongoose.CastFailed.
Proof.
  intros Hp Ht. unfold mongoose.set_path. rewrite Hp, Ht. done.
Qed.

(** What an accepted document holds at a String enum path whose default
    is in the enum, when the input held an enum value there. *)
Lemma set_path_enum input k o values s0 v :
  mongoose.enum o = Some values → mongoose.type o = mongoose.TString →
  mongoose.default_value o = Some (VStr s0) → s0 ∈ values →
  enum_value values (prop input k) →
  mongoose.set_path input k o = inr v →
  ∃ s, v = VStr s ∧ s ∈ values.
Proof.
  intros He Ht Hd Hs0 [Hp|(s & Hp & Hs)]; unfold mongoose.set_path;
    rewrite Hp, ?Hd, Ht; simpl.
  - destruct (mongoose.validate_value o (VStr s0)); [done|].
    intros [= <-]. eauto.
  - destruct (mongoose.validate_value o (VStr s)); [done|].
    intros [= <-]. eauto.
Qed.

End mongoose_paths_facts.

Lemma document_lookup (r : record_type) (input : gmap string value)
    (id : string) (now : Z) (k : string) :
  k ∈ (schema (module r)).*1 →
  mongoose.document (schema (module r)) input id now !! k
  = mongoose.paths_of (schema (module r)) input !! k.
Proof.
  intros (H1 & H2 & H3 & H4)%schema_reserved. unfold mongoose.document.
  by rewrite !lookup_insert_ne.
Qed.

(** ** Enum fields stay in range *)

Section enum_invariant.

Variable r : record_type.
Implicit Types (e : env) (c : gmap string (gmap string value)).

Lemma post_in_range e input c :
  all_in_range r c → all_in_range r (post (module r) e input c).1.
Proof.
  intros Hc. destruct (post (module r) e input c) as [c' resp] eqn:E.
  assert ((∃ d, resp = Res 201 (Doc d)) ∨ ∀ d, resp ≠ Res 201 (Doc d)) as [[d1 ->]|Hno].
  { destruct resp as [st [| | | | |]|]; try (by right).
    destruct (decide (st = 201)) as [->|?]; [left; eauto|right; congruence]. }
  2: { simpl. by rewrite (post_unchanged _ _ _ _ _ _ E Hno). }
  apply post_Created in E as (data & Hp & Hnil & Hfree & Hd1 & ->). simpl.
  intros id d [[<- <-]|[_ Hd]]%lookup_insert_Some; [|by eapply Hc].
  intros k o values Hin He.
  destruct (enum_paths r k o values Hin He) as (Hz & Ht & _ & s0 & Hdef & Hs0).
  apply parse_Ok in Hp as (m & _ & Hm & ->).
  assert (enum_value values (prop (zod.strip (Create (module r)) m) k)) as Hv.
  { rewrite (strip_prop _ _ _ _ Hz).
    apply (parse_optional_enum _ [k]).
    by apply (proj1 (field_issues_nil _ _) Hm). }
  apply (create_doc_enum r (UTC e) _ k o values Hin He) in Hv.
  destruct (proj1 (path_errors_nil _ _) Hnil k o Hin) as [v Hset].
  destruct (set_path_enum _ _ _ _ _ _ He Ht Hdef Hs0 Hv Hset) as (s & -> & Hs).
  exists s. split; [|done]. rewrite Hd1, document_lookup.
  - eapply paths_of_lookup; [apply schema_NoDup|done|done|done].
  - apply list_elem_of_fmap. by exists (k, o).
Qed.

Lemma put_in_range e id input c :
  all_in_range r c → all_in_range r (put (module r) e id input c).1.
Proof.
  intros Hc. destruct (put (module r) e id input c) as [c' resp] eqn:E.
  assert ((∃ d, resp = Res 200 (Doc d)) ∨ ∀ d, resp ≠ Res 200 (Doc d)) as [[d1 ->]|Hno].
  { destruct resp as [st [| | | | |]|]; try (by right).
    destruct (decide (st = 200)) as [->|?]; [left; eauto|right; congruence]. }
  2: { simpl. by rewrite (put_unchanged _ _ _ _ _ _ _ E Hno). }
  apply put_OK in E as (data & o' & u & d0 & Hp & Ho & Hu & Hd0 & Hd1 & ->).
  simpl.
  intros id' d [[<- <-]|[_ Hd]]%lookup_insert_Some; [|by eapply Hc].
  intros k o values Hin He.
  destruct (enum_paths r k o values Hin He) as (Hz & Ht & _ & _).
  assert (k ≠ "updatedAt") as Hk.
  { eapply schema_reserved, list_elem_of_fmap. by exists (k, o). }
  rewrite Hd1, lookup_insert_ne by done.
  destruct (castUpdate_lookup _ _ _ k Hu)
    as [Hnone|(o1 & v & v' & Hin1 & Hv & Hvne & Hcast & Hsome)].
  { rewrite lookup_union_r by done. by apply (Hc _ _ Hd0 k o values). }
  assert (o1 = o) as ->
    by (eapply NoDup_fst_functional; [apply schema_NoDup|done..]).
  apply parse_Ok in Hp as (m & _ & Hm & ->).
  assert (enum_value values v) as [->|(s & -> & Hs)]; [|done|].
  { assert (prop (updateDoc (module r) (UTC e)
                    (zod.strip (Update (module r)) m)) k = v) as <-
      by (unfold prop; by rewrite Hv).
    rewrite (update_doc_enum r _ _ k o values Hin He).
    assert ((k, zod.ZodOptional (zod.ZodOptional (zod.ZodEnum values)))
            ∈ Update (module r)) as Hz'
      by (apply partial_elem; eauto).
    rewrite (strip_prop _ _ _ _ Hz').
    apply (parse_partial_optional_enum _ [k]).
    by apply (proj1 (field_issues_nil _ _) Hm). }
  rewrite Ht in Hcast. simpl in Hcast. injection Hcast as <-.
  exists s. split; [|done]. by apply lookup_union_Some_l.
Qed.

Lemma delete_in_range id c :
  all_in_range r c → all_in_range r (delete_ id c).1.
Proof.
  intros Hc. unfold delete_, mongoose.findByIdAndDelete.
  destruct (mongoose.castObjectId id) as [o|]; simpl; [|done].
  intros id' d [_ Hd]%lookup_delete_Some. by eapply Hc.
Qed.

End enum_invariant.

Lemma cancel_in_range (e : env) (id : string)
    (c : gmap string (gmap string value)) :
  all_in_range Appointment c →
  all_in_range Appointment (patch_cancel e id c).1.
Proof.
  intros Hc. unfold patch_cancel, mongoose.findByIdAndUpdate.
  rewrite cancel_update_cast.
  destruct (mongoose.castObjectId id) as [o|]; simpl; [|done].
  destruct (c !! o) as [d0|] eqn:Hd0; simpl; [|done].
  intros id' d [[<- <-]|[_ Hd]]%lookup_insert_Some; [|by eapply Hc].
  intros k o' values Hin He. simpl in Hin. inv_elem Hin;
    simpl in He; try discriminate He; injection He as <-.
  exists "cancelled". split; [|in_list].
  rewrite lookup_insert_ne by done.
  apply lookup_union_Some_l. apply lookup_singleton_eq.
Qed.

Lemma handle_in_range (r : record_type) (e : env) (q : request)
    (c : gmap string (gmap string value)) :
  all_in_range r c → all_in_range r (handle r e q c).1.
Proof.
  intros Hc. destruct q; simpl.
  - by apply post_in_range.
  - by apply put_in_range.
  - destruct r; try done. by apply cancel_in_range.
  - by apply delete_in_range.
  - done.
  - done.
Qed.

(** Both routes refuse a payload whose enum field is a string outside the
    declared set. *)
Lemma enum_out_of_range_refused (r : record_type) (e : env)
    (c : gmap string (gmap string value)) (m : gmap string value)
    k o values s id :
  (k, o) ∈ schema (module r) → mongoose.enum o = Some values →
  m !! k = Some (VStr s) → s ∉ values →
  (∃ dt, handle r e (POST (VObj m)) c
         = (c, Res 400 (ErrorBody "validation_error" dt)))
  ∧ (∃ dt, handle r e (PUT id (VObj m)) c
           = (c, Res 400 (ErrorBody "validation_error" dt))).
Proof.
  intros Hin He Hm Hs.
  destruct (enum_paths r k o values Hin He) as (Hz & _).
  assert (prop m k = VStr s) as Hp by (unfold prop; by rewrite Hm).
  split.
  - destruct (post_invalid (module r) e (VObj m) c) as (dt & Hpost & _);
      [|by exists dt].
    apply (field_violation _ _ (VObj m) m k _ eq_refl Hz).
    rewrite Hp. simpl. by rewrite bool_decide_false.
  - simpl. unfold put.
    destruct (zod.parse (Update (module r)) (VObj m)) as [data|errs] eqn:E;
      [|by eexists].
    apply parse_Ok in E as (m' & [= <-] & Hnil & _).
    assert ((k, zod.ZodOptional (zod.ZodOptional (zod.ZodEnum values)))
            ∈ Update (module r)) as Hz' by (apply partial_elem; eauto).
    pose proof (proj1 (field_issues_nil _ _) Hnil _ _ Hz') as Hk.
    rewrite Hp in Hk. simpl in Hk. by rewrite bool_decide_false in Hk.
Qed.

(** C7.  For every record type, every record of a collection reachable
    from the empty one through the routes (create, update, delete, and
    for appointments the cancel transition) holds, at each enum path of
    its schema, a string of the path's declared set.  Create and update
    check enum values against that set: a payload with an out-of-set
    string there is refused with 400 and nothing is written; the cancel
    transition writes ['cancelled'], a member of the set. *)
Theorem enum_fields_stay_in_range (r : record_type)
    (c : gmap string (gmap string value)) :
  reachable r c →
  all_in_range r c
  ∧ (∀ e m k o values s id,
       (k, o) ∈ schema (module r) → mongoose.enum o = Some values →
       m !! k = Some (VStr s) → s ∉ values →
       (∃ dt, handle r e (POST (VObj m)) c
              = (c, Res 400 (ErrorBody "validation_error" dt)))
       ∧ (∃ dt, handle r e (PUT id (VObj m)) c
                = (c, Res 400 (ErrorBody "validation_error" dt))))
  ∧ (∀ e id c' d, r = Appointment →
       handle r e (PATCH_cancel id) c = (c', Res 200 (Doc d)) →
       d !! "status" = Some (VStr "cancelled")).
Proof.
  intros Hreach. split; [|split].
  - induction Hreach as [|e q c Hreach IH].
    + intros id d Hd. by rewrite lookup_empty in Hd.
    + by apply handle_in_range.
  - intros. by eapply enum_out_of_range_refused.
  - intros e id c' d -> Hcancel. simpl in Hcancel.
    unfold patch_cancel in Hcancel.
    destruct (mongoose.findByIdAndUpdate _ _ _ _ c) as [c1 [[d1|]|err]] eqn:E;
      try done.
    injection Hcancel as <- <-.
    apply findByIdAndUpdate_Some in E as (o & u & d0 & _ & Hu & _ & -> & _).
    rewrite cancel_update_cast in Hu. injection Hu as <-.
    rewrite lookup_insert_ne by done.
    apply lookup_union_Some_l, lookup_singleton_eq.
Qed.

Lemma enum_fields_stay_in_range_witness :
  reachable Appointment sample.booked ∧
  sample.booked !! newId sample.e0 = Some sample.booked_doc ∧
  enums_in_range appointments.appointmentSchema sample.booked_doc.
Proof.
  assert (reachable Appointment sample.booked) as H
    by exact (reachable_step Appointment sample.e0 (POST (VObj sample.backwards))
                ∅ (reachable_empty Appointment)).
  assert (sample.booked !! newId sample.e0 = Some sample.booked_doc) as Hd
    by (vm_compute; reflexivity).
  split; [exact H|]. split; [exact Hd|].
  exact (proj1 (enum_fields_stay_in_range Appointment sample.booked H)
           (newId sample.e0) sample.booked_doc Hd).
Defined.

(** ** Creating an appointment *)

(** What the model makes of the paths of a validated appointment whose
    references are ObjectIds and whose datetimes are valid. *)
Lemma appointment_paths (UTC : Z → Z) (m : gmap string value)
    sp sq ss se p q t1 t2 :
  (∀ k t, (k, t) ∈ appointments.AppointmentCreate →
          zod._parse t [k] (prop m k) = []) →
  prop m "patientId" = VStr sp → mongoose.castObjectId sp = Some p →
  prop m "providerId" = VStr sq → mongoose.castObjectId sq = Some q →
  prop m "start" = VStr ss → JSDate.parse UTC ss = Some t1 →
  prop m "end" = VStr se → JSDate.parse UTC se = Some t2 →
  let input := appointments.create_doc UTC
                 (zod.strip appointments.AppointmentCreate m) in
  (∀ k o, (k, o) ∈ appointments.appointmentSchema →
          ∃ v, mongoose.set_path input k o = inr v)
  ∧ mongoose.set_path input "start"
      (mongoose.Path mongoose.TDate true None None) = inr (VDate (Some t1))
  ∧ mongoose.set_path input "end"
      (mongoose.Path mongoose.TDate true None None) = inr (VDate (Some t2)).
Proof.
  intros Hz Hp Hcp Hq Hcq Hs Ht1 He Ht2 input.
  assert (∀ k, k ∈ appointments.AppointmentCreate.*1 →
            prop (zod.strip appointments.AppointmentCreate m) k = prop m k)
    as Hstrip.
  { intros k Hk. unfold prop. rewrite strip_lookup. by rewrite decide_True. }
  assert (enum_value ["scheduled"; "completed"; "cancelled"] (prop m "status"))
    as Hst.
  { apply (parse_optional_enum _ ["status"]). apply Hz.
    unfold appointments.AppointmentCreate. in_list. }
  assert (∀ k, k ≠ "start" → k ≠ "end" →
            prop input k = prop (zod.strip appointments.AppointmentCreate m) k)
    as Hin.
  { intros k H1 H2. unfold input, appointments.create_doc, prop at 1.
    by rewrite !lookup_insert_ne. }
  assert (prop input "start" = VDate (Some t1)) as Hs'.
  { unfold input, appointments.create_doc, prop at 1.
    rewrite lookup_insert_ne, lookup_insert_eq by done. simpl.
    rewrite Hstrip, Hs by (simpl; in_list). simpl. by rewrite Ht1. }
  assert (prop input "end" = VDate (Some t2)) as He'.
  { unfold input, appointments.create_doc, prop at 1.
    rewrite lookup_insert_eq. simpl.
    rewrite Hstrip, He by (simpl; in_list). simpl. by rewrite Ht2. }
  assert (mongoose.set_path input "start"
            (mongoose.Path mongoose.TDate true None None)
          = inr (VDate (Some t1))) as Hs''
    by (eapply set_path_defined; [exact Hs'|done..]).
  assert (mongoose.set_path input "end"
            (mongoose.Path mongoose.TDate true None None)
          = inr (VDate (Some t2))) as He''
    by (eapply set_path_defined; [exact He'|done..]).
  split; [|done].
  intros k o Hko. unfold appointments.appointmentSchema in Hko. inv_elem Hko.
  - exists (VOid p). eapply set_path_defined;
      [rewrite Hin, Hstrip by (done || (simpl; in_list)); exact Hp
      |done|simpl; by rewrite Hcp|done].
  - exists (VOid q). eapply set_path_defined;
      [rewrite Hin, Hstrip by (done || (simpl; in_list)); exact Hq
      |done|simpl; by rewrite Hcq|done].
  - eauto.
  - eauto.
  - destruct Hst as [Hst|(s & Hst & Hs_in)].
    + exists (VStr "scheduled"). eapply set_path_default;
        [rewrite Hin, Hstrip by (done || (simpl; in_list)); exact Hst|done..].
    + exists (VStr s). eapply set_path_defined;
        [rewrite Hin, Hstrip by (done || (simpl; in_list)); exact Hst
        |done|done|].
      unfold mongoose.validate_value. simpl. by rewrite bool_decide_true.
Qed.

(** C6 (as amended).  A payload each of whose fields satisfies its own
    rule of [AppointmentCreate] is accepted by validation, whatever the
    order of [start] and [end]: no rule relates two fields.  The
    appointment is then created, with the two instants as given, as soon
    as the model can cast the payload -- [patientId] and [providerId] are
    ObjectIds, [start] and [end] are valid dates -- and the generated id
    is free.  Nothing is assumed about the order of [t1] and [t2]. *)
Theorem appointment_create_ignores_order (e : env) (m : gmap string value)
    (c : gmap string (gmap string value)) :
  (∀ k t, (k, t) ∈ appointments.AppointmentCreate →
          zod._parse t [k] (prop m k) = []) →
  zod.parse appointments.AppointmentCreate (VObj m)
    = zod.Ok (zod.strip appointments.AppointmentCreate m)
  ∧ (∀ sp sq ss se p q t1 t2,
       prop m "patientId" = VStr sp → mongoose.castObjectId sp = Some p →
       prop m "providerId" = VStr sq → mongoose.castObjectId sq = Some q →
       prop m "start" = VStr ss → JSDate.parse (UTC e) ss = Some t1 →
       prop m "end" = VStr se → JSDate.parse (UTC e) se = Some t2 →
       c !! newId e = None →
       ∃ d, handle Appointment e (POST (VObj m)) c
              = (<[newId e := d]> c, Res 201 (Doc d))
            ∧ d !! "start" = Some (VDate (Some t1))
            ∧ d !! "end" = Some (VDate (Some t2))).
Proof.
  intros Hz.
  assert (zod.parse appointments.AppointmentCreate (VObj m)
          = zod.Ok (zod.strip appointments.AppointmentCreate m)) as Hparse.
  { apply parse_Ok. exists m. split; [done|]. split; [|done].
    by apply field_issues_nil. }
  split; [done|].
  intros sp sq ss se p q t1 t2 Hp Hcp Hq Hcq Hs Ht1 He Ht2 Hfree.
  destruct (appointment_paths (UTC e) m sp sq ss se p q t1 t2)
    as (Hall & Hstart & Hend); try done.
  eexists. split.
  - simpl. apply post_Created.
    exists (zod.strip appointments.AppointmentCreate m).
    split; [exact Hparse|]. split; [by apply path_errors_nil|]. done.
  - split.
    + rewrite (document_lookup Appointment) by (simpl; in_list).
      eapply paths_of_lookup;
        [apply (schema_NoDup Appointment)| |exact Hstart|done].
      simpl. unfold appointments.appointmentSchema. in_list.
    + rewrite (document_lookup Appointment) by (simpl; in_list).
      eapply paths_of_lookup;
        [apply (schema_NoDup Appointment)| |exact Hend|done].
      simpl. unfold appointments.appointmentSchema. in_list.
Qed.

Lemma sample_backwards_fields :
  ∀ k t, (k, t) ∈ appointments.AppointmentCreate →
         zod._parse t [k] (prop sample.backwards k) = [].
Proof.
  intros k t H. unfold appointments.AppointmentCreate in H. inv_elem H;
    vm_compute; reflexivity.
Qed.

Lemma appointment_create_ignores_order_witness :
  JSDate.parse (UTC sample.e0) "2024-01-02T10:00:00.000Z"
    = Some 1704189600000%Z ∧
  JSDate.parse (UTC sample.e0) "2024-01-01T10:00:00.000Z"
    = Some 1704103200000%Z ∧
  (1704103200000 < 1704189600000)%Z ∧
  ∃ d, handle Appointment sample.e0 (POST (VObj sample.backwards)) ∅
         = (<[newId sample.e0 := d]> ∅, Res 201 (Doc d))
       ∧ d !! "start" = Some (VDate (Some 1704189600000%Z))
       ∧ d !! "end" = Some (VDate (Some 1704103200000%Z)).
Proof.
  assert (JSDate.parse (UTC sample.e0) "2024-01-02T10:00:00.000Z"
          = Some 1704189600000%Z) as H1 by (vm_compute; reflexivity).
  assert (JSDate.parse (UTC sample.e0) "2024-01-01T10:00:00.000Z"
          = Some 1704103200000%Z) as H2 by (vm_compute; reflexivity).
  split; [exact H1|]. split; [exact H2|]. split; [reflexivity|].
  exact (proj2 (appointment_create_ignores_order sample.e0 sample.backwards ∅
                  sample_backwards_fields)
           "65a1b2c3d4e5f60718293a01" "65a1b2c3d4e5f60718293a02"
           "2024-01-02T10:00:00.000Z" "2024-01-01T10:00:00.000Z"
           "65a1b2c3d4e5f60718293a01" "65a1b2c3d4e5f60718293a02"
           _ _ eq_refl eq_refl eq_refl eq_refl eq_refl H1 eq_refl H2 eq_refl).
Defined.

(** Every field satisfies its rule and [end] is a day before [start], but
    the references are not ObjectIds: the model refuses the document and
    the answer is 400. *)
Lemma appointment_loose_references_not_created :
  (∀ k t, (k, t) ∈ appointments.AppointmentCreate →
          zod._parse t [k] (prop sample.backwards_loose k) = []) ∧
  JSDate.parse (UTC sample.e0) "2024-01-02T10:00:00.000Z"
    = Some 1704189600000%Z ∧
  JSDate.parse (UTC sample.e0) "2024-01-01T10:00:00.000Z"
    = Some 1704103200000%Z ∧
  (1704103200000 < 1704189600000)%Z ∧
  handle Appointment sample.e0 (POST (VObj sample.backwards_loose)) ∅
    = (∅, Res 400 (ErrorBody "validation_error"
                     (PathErrors [("patientId", mongoose.CastFailed);
                                  ("providerId", mongoose.CastFailed)]))).
Proof.
  split.
  { intros k t H. unfold appointments.AppointmentCreate in H. inv_elem H;
      vm_compute; reflexivity. }
  repeat split; vm_compute; reflexivity.
Qed.

(** ** Dates *)

Lemma date_shaped_test (s : string) :
  date_shaped s → RegExp.test RegExp.date s = true.
Proof.
  intros (y & m & d & [Hy Hy'] & [Hm Hm'] & [Hd Hd'] & ->).
  destruct y as [|y1 [|y2 [|y3 [|y4 [|]]]]]; try discriminate Hy.
  destruct m as [|m1 [|m2 [|]]]; try discriminate Hm.
  destruct d as [|d1 [|d2 [|]]]; try discriminate Hd.
  simpl in Hy', Hm', Hd'.
  repeat match goal with
         | H : _ && _ = true |- _ => apply andb_true_iff in H as [? ?]
         end.
  simpl. repeat (rewrite andb_true_iff; split); done.
Qed.

Lemma datetime_shaped_test (s : string) :
  datetime_shaped s → RegExp.test RegExp.datetime s = true.
Proof.
  intros (y & m & d & h & mi & sec & ms & z & [Hy Hy'] & [Hm Hm'] & [Hd Hd']
          & [Hh Hh'] & [Hmi Hmi'] & [Hsec Hsec'] & [Hms Hms'] & Hz & ->).
  destruct y as [|y1 [|y2 [|y3 [|y4 [|]]]]]; try discriminate Hy.
  destruct m as [|m1 [|m2 [|]]]; try discriminate Hm.
  destruct d as [|d1 [|d2 [|]]]; try discriminate Hd.
  destruct h as [|h1 [|h2 [|]]]; try discriminate Hh.
  destruct mi as [|mi1 [|mi2 [|]]]; try discriminate Hmi.
  destruct sec as [|sec1 [|sec2 [|]]]; try discriminate Hsec.
  destruct ms as [|ms1 [|ms2 [|ms3 [|]]]]; try discriminate Hms.
  simpl in Hy', Hm', Hd', Hh', Hmi', Hsec', Hms'.
  repeat match goal with
         | H : _ && _ = true |- _ => apply andb_true_iff in H as [? ?]
         end.
  destruct Hz as [-> | ->]; simpl;
    repeat (rewrite andb_true_iff; split); done.
Qed.

Lemma shaped_accepted re p s :
  shaped re s → zod._parse (zod.ZodString [zod.Regex re]) p (VStr s) = [].
Proof.
  intros [[-> H]|[-> H]];
    [pose proof (date_shaped_test s H) as E
    |pose proof (datetime_shaped_test s H) as E];
    unfold zod._parse, flat_map, zod.string_check; by rewrite E.
Qed.

(** Each Date path of a model is, in the request schema, a string with
    one of the two patterns and nothing else. *)
Lemma date_paths (r : record_type) k o :
  (k, o) ∈ schema (module r) → mongoose.type o = mongoose.TDate →
  ∃ re, (k, zod.ZodString [zod.Regex re]) ∈ Create (module r)
        ∧ (re = RegExp.date ∨ re = RegExp.datetime).
Proof.
  intros Hin Ht. destruct r; simpl in Hin; inv_elem Hin;
    simpl in Ht; try discriminate Ht;
    eexists; (split; [simpl; in_list|]); auto.
Qed.

(** The object handed to [Model.create] holds, at each Date path, the
    [Date] made from the validated string. *)
Lemma create_doc_dates (r : record_type) (UTC : Z → Z)
    (data : gmap string value) k o :
  (k, o) ∈ schema (module r) → mongoose.type o = mongoose.TDate →
  prop (createDoc (module r) UTC data) k = JSDate.new UTC (prop data k).
Proof.
  intros Hin Ht. destruct r; simpl in Hin; inv_elem Hin;
    simpl in Ht; try discriminate Ht; simpl;
    unfold patients.create_doc, appointments.create_doc, encounters.create_doc,
      prescriptions.create_doc, labs.create_doc, vitals.create_doc,
      billing.create_doc;
    unfold prop at 1;
    by rewrite ?lookup_insert_ne, lookup_insert_eq by done.
Qed.

Lemma invalid_date_refused (r : record_type) (e : env)
    (m data : gmap string value) (c : gmap string (gmap string value)) k o s :
  (k, o) ∈ schema (module r) → mongoose.type o = mongoose.TDate →
  zod.parse (Create (module r)) (VObj m) = zod.Ok data →
  m !! k = Some (VStr s) → JSDate.parse (UTC e) s = None →
  ∃ errs, handle r e (POST (VObj m)) c
            = (c, Res 400 (ErrorBody "validation_error" (PathErrors errs)))
          ∧ (k, mongoose.CastFailed) ∈ errs.
Proof.
  intros Hin Ht Hp Hm Hs.
  destruct (date_paths r k o Hin Ht) as (re & Hz & _).
  assert (mongoose.set_path (createDoc (module r) (UTC e) data) k o
          = inl mongoose.CastFailed) as Hset.
  { apply set_path_invalid_date; [|done].
    rewrite (create_doc_dates r _ _ k o Hin Ht).
    apply parse_Ok in Hp as (m' & [= <-] & _ & ->).
    rewrite (strip_prop _ _ _ _ Hz). unfold prop. rewrite Hm. simpl.
    by rewrite Hs. }
  assert ((k, mongoose.CastFailed)
          ∈ mongoose.path_errors (schema (module r))
              (createDoc (module r) (UTC e) data)) as Hel
    by (apply path_errors_elem; eauto).
  exists (mongoose.path_errors (schema (module r))
            (createDoc (module r) (UTC e) data)).
  split; [|done]. simpl. unfold post. rewrite Hp.
  rewrite create_invalid; [done|].
  intros Hnil. rewrite Hnil in Hel. by apply elem_of_nil in Hel.
Qed.

(** When a string of the date pattern is a date. *)
Lemma date_test_parse (UTC : Z → Z) (s : string) :
  RegExp.test RegExp.date s = true →
  let y := JSDate.num s 0 4 in
  let m := JSDate.num s 5 2 in
  let d := JSDate.num s 8 2 in
  is_Some (JSDate.parse UTC s)
  ↔ (1 ≤ m ≤ 12 ∧ 1 ≤ d ≤ 31)%Z ∨ (1 ≤ y ≤ 12 ∧ 1 ≤ m ≤ 31)%Z.
Proof.
  intros H. unfold JSDate.parse. rewrite H. simpl.
  unfold JSDate.day_ok, JSDate.legacy_ok, JSDate.between.
  repeat match goal with
         | |- context [(?a <=? ?b)%Z] => destruct (Z.leb_spec a b); simpl
         end;
    (split;
     [ intros [t Ht]; first [discriminate Ht | (left; lia) | (right; lia)]
     | intros [?|?]; first [lia | by eauto] ]).
Qed.

Lemma patient_created (e : env) (m : gmap string value)
    (c : gmap string (gmap string value)) dob t :
  (∀ k t, (k, t) ∈ patients.PatientCreate →
          zod._parse t [k] (prop m k) = []) →
  prop m "dob" = VStr dob → JSDate.parse (UTC e) dob = Some t →
  c !! newId e = None →
  ∃ d, handle Patient e (POST (VObj m)) c
         = (<[newId e := d]> c, Res 201 (Doc d))
       ∧ d !! "dob" = Some (VDate (Some t)).
Proof.
  intros Hz Hdob Ht Hfree.
  assert (zod.parse patients.PatientCreate (VObj m)
          = zod.Ok (zod.strip patients.PatientCreate m)) as Hparse.
  { apply parse_Ok. exists m. split; [done|]. split; [|done].
    by apply field_issues_nil. }
  set (input := patients.create_doc (UTC e) (zod.strip patients.PatientCreate m)).
  assert (∀ k, k ∈ patients.PatientCreate.*1 →
            prop (zod.strip patients.PatientCreate m) k = prop m k) as Hstrip.
  { intros k Hk. unfold prop. rewrite strip_lookup. by rewrite decide_True. }
  assert (∃ n, prop m "name" = VStr n ∧ n ≠ EmptyString) as (n & Hn & Hne).
  { assert (zod._parse (zod.ZodString [zod.Min 2]) ["name"] (prop m "name") = [])
      as H by (apply Hz; unfold patients.PatientCreate; in_list).
    destruct (prop m "name") as [| | | |n| | | |]; try done.
    exists n. split; [done|]. intros ->. done. }
  assert (mongoose.set_path input "name"
            (mongoose.Path mongoose.TString true None None) = inr (VStr n))
    as Hname.
  { assert (prop input "name" = VStr n) as Hpn.
    { unfold input, patients.create_doc, prop at 1.
      rewrite !lookup_insert_ne, lookup_insert_eq by done. simpl.
      by rewrite Hstrip by (simpl; in_list). }
    eapply set_path_defined; [exact Hpn|done|done|].
    unfold mongoose.validate_value. simpl. by destruct n. }
  assert (mongoose.set_path input "dob"
            (mongoose.Path mongoose.TDate true None None)
          = inr (VDate (Some t))) as Hd.
  { assert (prop input "dob" = VDate (Some t)) as Hpd.
    { unfold input, patients.create_doc, prop at 1.
      rewrite lookup_insert_ne, lookup_insert_eq by done. simpl.
      rewrite Hstrip, Hdob by (simpl; in_list). simpl. by rewrite Ht. }
    eapply set_path_defined; [exact Hpd|done..]. }
  assert (∃ g, mongoose.set_path input "gender"
                 (mongoose.Path mongoose.TString false
                    (Some ["M"; "F"; "O"]) (Some (VStr "O"))) = inr (VStr g))
    as [g Hg].
  { assert (enum_value ["M"; "F"; "O"] (prop input "gender")) as Hv.
    { apply (create_doc_enum Patient (UTC e) _ "gender"
               (mongoose.Path mongoose.TString false
                  (Some ["M"; "F"; "O"]) (Some (VStr "O"))));
        [simpl; unfold patients.patientSchema; in_list|done|].
      rewrite Hstrip by (simpl; in_list).
      apply (parse_optional_enum _ ["gender"]). apply Hz.
      unfold patients.PatientCreate. in_list. }
    destruct Hv as [Hv|(g & Hv & Hg)].
    - exists "O". by eapply set_path_default.
    - exists g. eapply set_path_defined; [exact Hv|done|done|].
      unfold mongoose.validate_value. simpl. by rewrite bool_decide_true. }
  eexists. split.
  - simpl. apply post_Created. exists (zod.strip patients.PatientCreate m).
    split; [exact Hparse|]. split; [|done].
    apply path_errors_nil. intros k o Hko. simpl in Hko.
    unfold patients.patientSchema in Hko. inv_elem Hko; eauto.
  - rewrite (document_lookup Patient) by (simpl; in_list).
    eapply paths_of_lookup; [apply (schema_NoDup Patient)| |exact Hd|done].
    simpl. unfold patients.patientSchema. in_list.
Qed.

(** A patient payload that the schema accepts holds, as [dob], a string
    of the date pattern. *)
Lemma patient_dob_test (m : gmap string value) dob :
  (∀ k t, (k, t) ∈ patients.PatientCreate →
          zod._parse t [k] (prop m k) = []) →
  prop m "dob" = VStr dob →
  RegExp.test RegExp.date dob = true ∧ m !! "dob" = Some (VStr dob)
  ∧ zod.parse (Create (module Patient)) (VObj m)
    = zod.Ok (zod.strip patients.PatientCreate m).
Proof.
  intros Hz Hdob. split; [|split].
  - assert (zod._parse (zod.ZodString [zod.Regex RegExp.date]) ["dob"]
              (prop m "dob") = []) as H
      by (apply Hz; unfold patients.PatientCreate; in_list).
    rewrite Hdob in H. unfold zod._parse, flat_map, zod.string_check in H.
    by destruct (RegExp.test RegExp.date dob).
  - unfold prop in Hdob. destruct (m !! "dob") as [v|]; [|done].
    simpl in Hdob. by subst.
  - apply parse_Ok. exists m. split; [done|]. split; [|done].
    by apply field_issues_nil.
Qed.

(** C10 (as amended).  The request schemas check dates by digit pattern
    only: for every record type, each Date path of the model is a string
    field with one of the two patterns, and any string of the pattern's
    shape passes that field's check, a real calendar date or not.  Create
    then builds a [Date] from the string.  When that is the Invalid Date
    the model refuses the document: the answer is 400 with a cast error
    at the path, and nothing is written.  A patient whose payload the
    schema accepts is created when the month of [dob] is 01..12 and the
    day 01..31 (an impossible day such as 31 February included, which
    rolls over), and also when the year digits are 0001..0012 and the
    month digits 01..31, which [new Date] reads as month-day-year; every
    other [dob], such as month 13 or day 99 of an ordinary year, is
    refused with 400.  A patient whose [dob] yields a valid [Date] is
    stored with that date. *)
Theorem date_pattern_is_not_a_calendar_check (r : record_type) (e : env)
    (c : gmap string (gmap string value)) :
  (∀ k o, (k, o) ∈ schema (module r) → mongoose.type o = mongoose.TDate →
     ∃ re, (k, zod.ZodString [zod.Regex re]) ∈ Create (module r) ∧
       ∀ s, shaped re s →
            zod._parse (zod.ZodString [zod.Regex re]) [k] (VStr s) = [])
  ∧ (∀ m data k o s,
       (k, o) ∈ schema (module r) → mongoose.type o = mongoose.TDate →
       zod.parse (Create (module r)) (VObj m) = zod.Ok data →
       m !! k = Some (VStr s) → JSDate.parse (UTC e) s = None →
       ∃ errs, handle r e (POST (VObj m)) c
                 = (c, Res 400 (ErrorBody "validation_error" (PathErrors errs)))
               ∧ (k, mongoose.CastFailed) ∈ errs)
  ∧ (∀ m dob,
       (∀ k t, (k, t) ∈ patients.PatientCreate →
               zod._parse t [k] (prop m k) = []) →
       prop m "dob" = VStr dob → c !! newId e = None →
       let year := JSDate.num dob 0 4 in
       let month := JSDate.num dob 5 2 in
       let day := JSDate.num dob 8 2 in
       let is_date := ((1 ≤ month ≤ 12 ∧ 1 ≤ day ≤ 31)
                       ∨ (1 ≤ year ≤ 12 ∧ 1 ≤ month ≤ 31))%Z in
       (is_date →
        ∃ d, handle Patient e (POST (VObj m)) c
             = (<[newId e := d]> c, Res 201 (Doc d)))
       ∧ (¬ is_date →
          ∃ errs, handle Patient e (POST (VObj m)) c
                  = (c, Res 400 (ErrorBody "validation_error"
                                   (PathErrors errs)))
                  ∧ ("dob", mongoose.CastFailed) ∈ errs))
  ∧ (∀ m dob t,
       (∀ k t, (k, t) ∈ patients.PatientCreate →
               zod._parse t [k] (prop m k) = []) →
       prop m "dob" = VStr dob → JSDate.parse (UTC e) dob = Some t →
       c !! newId e = None →
       ∃ d, handle Patient e (POST (VObj m)) c
              = (<[newId e := d]> c, Res 201 (Doc d))
            ∧ d !! "dob" = Some (VDate (Some t))).
Proof.
  split; [|split; [|split]].
  - intros k o Hin Ht. destruct (date_paths r k o Hin Ht) as (re & Hz & _).
    exists re. split; [done|]. intros s Hs. by apply shaped_accepted.
  - intros m data k o s. apply invalid_date_refused.
  - intros m dob Hz Hdob Hfree year month day is_date.
    destruct (patient_dob_test m dob Hz Hdob) as (Htest & Hm & Hparse).
    pose proof (date_test_parse (UTC e) dob Htest) as Hiff. split.
    + intros [t Ht]%Hiff.
      destruct (patient_created e m c dob t Hz Hdob Ht Hfree) as (d & Hd & _).
      by exists d.
    + intros Hno.
      apply (invalid_date_refused Patient e m
               (zod.strip patients.PatientCreate m) c "dob"
               (mongoose.Path mongoose.TDate true None None) dob);
        [simpl; unfold patients.patientSchema; in_list|done|exact Hparse|done|].
      destruct (JSDate.parse (UTC e) dob) as [t|] eqn:Ht; [|done].
      destruct Hno. apply Hiff. by eauto.
  - intros m dob t. apply patient_created.
Qed.

(** Two strings that are no ISO date and that the legacy parser reads as
    13 January 2001 and 1 January 2000, and two that nothing reads. *)
Lemma sample_legacy_dates :
  JSDate.parse (UTC sample.e0) "0001-13-01" = Some 979344000000%Z
  ∧ JSDate.parse (UTC sample.e0) "0001-01-00" = Some 946684800000%Z
  ∧ JSDate.parse (UTC sample.e0) "2024-13-01" = None
  ∧ JSDate.parse (UTC sample.e0) "0013-01-99" = None.
Proof. repeat split; vm_compute; reflexivity. Qed.

Lemma sample_feb31_shaped : date_shaped "2023-02-31".
Proof. exists "2023", "02", "31". by repeat split. Qed.

Lemma date_pattern_is_not_a_calendar_check_witness :
  date_shaped "2023-02-31" ∧
  JSDate.parse (UTC sample.e0) "2023-02-31" = Some 1677801600000%Z ∧
  ∃ d, handle Patient sample.e0 (POST (VObj sample.feb31)) ∅
         = (<[newId sample.e0 := d]> ∅, Res 201 (Doc d))
       ∧ d !! "dob" = Some (VDate (Some 1677801600000%Z)).
Proof.
  assert (∀ k t, (k, t) ∈ patients.PatientCreate →
                 zod._parse t [k] (prop sample.feb31 k) = []) as H1.
  { intros k t H. unfold patients.PatientCreate in H. inv_elem H.
    - reflexivity.
    - exact (shaped_accepted RegExp.date ["dob"] "2023-02-31"
               (or_introl (conj eq_refl sample_feb31_shaped))).
    - reflexivity. }
  assert (JSDate.parse (UTC sample.e0) "2023-02-31" = Some 1677801600000%Z)
    as H2 by (vm_compute; reflexivity).
  split; [exact sample_feb31_shaped|]. split; [exact H2|].
  exact (proj2 (proj2 (proj2
           (date_pattern_is_not_a_calendar_check Patient sample.e0 ∅)))
           sample.feb31 "2023-02-31" _ H1 eq_refl H2 eq_refl).
Defined.

(** A [dob] in month 13 has the shape, passes the request schema, and is
    not accepted by create. *)
Lemma month13_passes_schema_but_not_created :
  date_shaped "2024-13-01" ∧
  (∃ data, zod.parse patients.PatientCreate sample.month13 = zod.Ok data) ∧
  handle Patient sample.e0 (POST sample.month13) ∅
    = (∅, Res 400 (ErrorBody "validation_error"
                     (PathErrors [("dob", mongoose.CastFailed)]))).
Proof.
  split; [exists "2024", "13", "01"; by repeat split|]. split.
  - exists (zod.strip patients.PatientCreate
              {[ "name" := VStr "Jane Doe"; "dob" := VStr "2024-13-01" ]}).
    vm_compute. reflexivity.
  - vm_compute. reflexivity.
Qed.

(** ** The casts the routes reach *)

(** What a handler hands to the model has, at every path, a value of the
    JavaScript type the path expects (or none), so the only casts that
    can fail are those of a string that is no ObjectId and of the Invalid
    Date. *)
(** From [Hz], the field-wise acceptance of [m] by [shape]: what the
    field [k] of [m] can be. *)
Ltac zod_field Hz shape m k :=
  let H := fresh "Hf" in
  let Hm := fresh "Hmem" in
  eassert ((k, _) ∈ shape) as Hm by in_list;
  pose proof (Hz _ _ Hm) as H;
  rewrite (strip_prop _ m k _ Hm);
  destruct (prop m k) as [| | |n|s| | | |]; simpl in H; try done;
  try (destruct (zod.is_nan n) eqn:?; try done); simpl; auto.

Lemma create_doc_typed (r : record_type) (UTC : Z → Z) (input : value)
    (data : gmap string value) k o :
  zod.parse (Create (module r)) input = zod.Ok data →
  (k, o) ∈ schema (module r) →
  schema_typed (mongoose.type o) (prop (createDoc (module r) UTC data) k).
Proof.
  intros Hp Hin. apply parse_Ok in Hp as (m & _ & Hnil & ->).
  pose proof (proj1 (field_issues_nil _ _) Hnil) as Hz. clear Hnil.
  destruct r; simpl in Hin, Hz |- *; inv_elem Hin; simpl;
    unfold patients.create_doc, providers.create_doc, appointments.create_doc,
      encounters.create_doc, prescriptions.create_doc, labs.create_doc,
      vitals.create_doc, inventory.create_doc, billing.create_doc;
    unfold prop at 1; rewrite ?lookup_insert_ne by done;
    rewrite ?lookup_insert_eq; simpl;
    try (by (unfold JSDate.new; destruct (prop _ _)));
    repeat match goal with
    | |- context [default VUndef (zod.strip ?shape m !! ?k)] =>
        change (default VUndef (zod.strip shape m !! k))
          with (prop (zod.strip shape m) k)
    end;
    match goal with
    | |- context [prop (zod.strip ?shape m) ?k] => zod_field Hz shape m k
    end;
    try (unfold or_else; match goal with s : string |- _ => destruct s; simpl; by auto end).
Qed.

Lemma update_doc_typed (r : record_type) (UTC : Z → Z) (input : value)
    (data : gmap string value) k o :
  zod.parse (Update (module r)) input = zod.Ok data →
  (k, o) ∈ schema (module r) →
  schema_typed (mongoose.type o) (prop (updateDoc (module r) UTC data) k).
Proof.
  intros Hp Hin. apply parse_Ok in Hp as (m & _ & Hnil & ->).
  pose proof (proj1 (field_issues_nil _ _) Hnil) as Hz. clear Hnil.
  destruct r; unfold Update in *; simpl in Hin, Hz |- *; inv_elem Hin; simpl;
    unfold patients.update_doc, providers.update_doc, appointments.update_doc,
      encounters.update_doc, prescriptions.update_doc, labs.update_doc,
      vitals.update_doc, inventory.update_doc, billing.update_doc;
    unfold prop at 1; rewrite ?lookup_insert_ne by done;
    rewrite ?lookup_insert_eq; simpl;
    try (by (unfold date_or_undefined, JSDate.new;
             destruct (truthy _); [destruct (prop _ _)|]));
    repeat match goal with
    | |- context [default VUndef (zod.strip ?shape m !! ?k)] =>
        change (default VUndef (zod.strip shape m !! k))
          with (prop (zod.strip shape m) k)
    end;
    match goal with
    | |- context [prop (zod.strip ?shape m) ?k] => zod_field Hz shape m k
    end.
Qed.

Lemma cast_typed (t : mongoose.SchemaType) (v : value) :
  schema_typed t v → mongoose.cast t v = None →
  v = VDate None ∨
  ∃ s, v = VStr s ∧ t = mongoose.TObjectId ∧ mongoose.castObjectId s = None.
Proof.
  destruct v as [| | |n|s|[x|]| | |]; simpl; try done; intros H;
    repeat match type of H with
           | _ ∧ _ => destruct H as [H ?]
           | _ ∨ _ => destruct H as [H|H]
           end; subst t; simpl; try done.
  - by destruct (zod.is_nan n).
  - destruct (mongoose.castObjectId s) eqn:E; [done|]. intros _. right. eauto.
  - intros _. by left.
Qed.


(** * Further properties of the routes *)

(** ** Create *)

(** X1.  When create answers 201, the generated id was free, the record
    is stored under it and carries it as [_id], both timestamps are the
    clock's reading and [__v] is 0; no other record is touched and the
    count has grown by exactly one. *)
Theorem create_adds_one_record (r : record_type) (e : env) (input : value)
    (c c' : gmap string (gmap string value)) (d : gmap string value) :
  handle r e (POST input) c = (c', Res 201 (Doc d)) →
  c !! newId e = None ∧ c' !! newId e = Some d
  ∧ (∀ id, id ≠ newId e → c' !! id = c !! id)
  ∧ d !! "_id" = Some (VOid (newId e))
  ∧ d !! "createdAt" = Some (VDate (Some (now e)))
  ∧ d !! "updatedAt" = Some (VDate (Some (now e)))
  ∧ d !! "__v" = Some (VNum zero)
  ∧ get_count c' = Res 200 (Count (S (size c))).
Proof.
  simpl. intros (data & _ & _ & Hfree & -> & ->)%post_Created.
  split; [done|]. split; [apply lookup_insert_eq|].
  split; [intros id Hid; by rewrite lookup_insert_ne|].
  unfold mongoose.document.
  repeat (split; [by rewrite ?lookup_insert_ne, lookup_insert_eq by done|]).
  unfold get_count. by rewrite map_size_insert_None.
Qed.

Lemma sample_registered :
  handle Patient sample.e0 (POST sample.jane) ∅
  = (sample_more.registered, Res 201 (Doc sample.jane_doc)).
Proof. vm_compute. reflexivity. Qed.

Lemma create_adds_one_record_witness :
  handle Patient sample.e0 (POST sample.jane) ∅
    = (sample_more.registered, Res 201 (Doc sample.jane_doc)) ∧
  sample_more.registered !! newId sample.e0 = Some sample.jane_doc ∧
  sample.jane_doc !! "_id" = Some (VOid (newId sample.e0)) ∧
  get_count sample_more.registered = Res 200 (Count 1).
Proof.
  pose proof sample_registered as H.
  destruct (create_adds_one_record Patient sample.e0 sample.jane ∅ _ _ H)
    as (_ & H1 & _ & H2 & _ & _ & _ & H3).
  split; [exact H|]. split; [exact H1|]. split; [exact H2|]. exact H3.
Defined.

(** Create followed by delete of the new id gives back the collection
    create started from. *)
Lemma delete_insert_back (c : gmap string (gmap string value)) id d :
  c !! id = None → delete id (<[id := d]> c) = c.
Proof. intros H. by rewrite delete_insert_id. Qed.

(** X2.  Deleting the record that a create has just added restores the
    collection exactly. *)
Theorem create_then_delete (r : record_type) (e : env) (input : value)
    (c c' : gmap string (gmap string value)) (d : gmap string value) :
  handle r e (POST input) c = (c', Res 201 (Doc d)) →
  mongoose.castObjectId (newId e) = Some (newId e) →
  handle r e (DELETE (newId e)) c' = (c, Res 204 Empty).
Proof.
  simpl. intros (data & _ & _ & Hfree & -> & ->)%post_Created Hid.
  unfold delete_, mongoose.findByIdAndDelete. rewrite Hid.
  by rewrite delete_insert_back.
Qed.

Lemma create_then_delete_witness :
  handle Patient sample.e0 (POST sample.jane) ∅
    = (sample_more.registered, Res 201 (Doc sample.jane_doc)) ∧
  mongoose.castObjectId (newId sample.e0) = Some (newId sample.e0) ∧
  handle Patient sample.e0 (DELETE (newId sample.e0)) sample_more.registered
    = (∅, Res 204 Empty).
Proof.
  pose proof sample_registered as H.
  assert (mongoose.castObjectId (newId sample.e0) = Some (newId sample.e0))
    as H2 by reflexivity.
  split; [exact H|]. split; [exact H2|].
  exact (create_then_delete Patient sample.e0 sample.jane ∅ _ _ H H2).
Defined.

(** ** Delete *)

(** X3.  For a well-formed id, after the delete route no record has the
    id and every other record is as before; reading the id then answers
    404, deleting it again changes nothing and still answers 204, and if
    a record had the id the collection is smaller by exactly one. *)
Theorem delete_removes_exactly_one (r : record_type) (e : env) (id o : string)
    (c : gmap string (gmap string value)) :
  mongoose.castObjectId id = Some o →
  let c1 := (handle r e (DELETE id) c).1 in
  c1 !! o = None
  ∧ (∀ id', id' ≠ o → c1 !! id' = c !! id')
  ∧ handle r e (GET id) c1 = (c1, Res 404 (ErrorBody "not_found" NoDetails))
  ∧ handle r e (DELETE id) c1 = (c1, Res 204 Empty)
  ∧ (∀ d, c !! o = Some d → size c = S (size c1)).
Proof.
  intros Ho. simpl. unfold delete_, mongoose.findByIdAndDelete.
  rewrite Ho. simpl. rewrite ?Ho.
  split; [apply lookup_delete_eq|].
  split; [intros id' Hne; by rewrite lookup_delete_ne|].
  split; [unfold get_by_id, mongoose.findById; by rewrite Ho, lookup_delete_eq|].
  split; [by rewrite delete_id by apply lookup_delete_eq|].
  intros d Hd. erewrite <- (insert_delete_id c o d) at 1 by done.
  rewrite map_size_insert_None; [done|apply lookup_delete_eq].
Qed.

Lemma delete_removes_exactly_one_witness :
  mongoose.castObjectId (newId sample.e0) = Some (newId sample.e0) ∧
  handle Patient sample.e0 (GET (newId sample.e0))
    (handle Patient sample.e0 (DELETE (newId sample.e0)) sample_more.registered).1
  = ((handle Patient sample.e0 (DELETE (newId sample.e0)) sample_more.registered).1,
     Res 404 (ErrorBody "not_found" NoDetails)).
Proof.
  assert (mongoose.castObjectId (newId sample.e0) = Some (newId sample.e0))
    as H by reflexivity.
  split; [exact H|].
  exact (proj1 (proj2 (proj2
           (delete_removes_exactly_one Patient sample.e0 _ _
              sample_more.registered H)))).
Defined.


(** ** Update *)

(** The keys of a cast update are paths of the schema. *)
Lemma castUpdate_keys (sch : mongoose.Schema) (update u : gmap string value) k :
  mongoose.castUpdate sch update = Some u → is_Some (u !! k) → k ∈ sch.*1.
Proof.
  intros Hu [v Hv].
  destruct (castUpdate_lookup _ _ _ k Hu) as [?|(o & ? & ? & Hin & _)];
    [congruence|].
  apply list_elem_of_fmap. by exists (k, o).
Qed.

Lemma put_cases (R : Resource) (e : env) (id : string) (input : value)
    (c : gmap string (gmap string value)) :
  (∃ d', put R e id input c
         = (<[default id (mongoose.castObjectId id) := d']> c, Res 200 (Doc d'))
         ∧ ∃ data o u d,
             zod.parse (Update R) input = zod.Ok data ∧
             mongoose.castObjectId id = Some o ∧
             mongoose.castUpdate (schema R) (updateDoc R (UTC e) data) = Some u ∧
             c !! o = Some d ∧
             d' = <["updatedAt" := VDate (Some (now e))]> (u ∪ d))
  ∨ put R e id input c = (c, Res 404 (ErrorBody "not_found" NoDetails))
  ∨ ∃ dt, put R e id input c = (c, Res 400 (ErrorBody "validation_error" dt)).
Proof.
  unfold put, mongoose.findByIdAndUpdate.
  destruct (zod.parse (Update R) input) as [data|errs] eqn:Hp; [|right; right; eauto].
  destruct (mongoose.castObjectId id) as [o|] eqn:Ho; [|right; right; eauto].
  destruct (mongoose.castUpdate _ _) as [u|] eqn:Hu; [|right; right; eauto].
  destruct (c !! o) as [d|] eqn:Hd; [|right; by left].
  left. eexists. split; [done|]. by exists data, o, u, d.
Qed.

(** X4.  Whatever an update is asked to do, it neither adds nor removes
    a record, it leaves every record but the addressed one as it was, and
    it never changes the [_id], [createdAt] or [__v] of the addressed
    record, even when the payload names those keys. *)
Theorem update_preserves_identity (r : record_type) (e : env) (id : string)
    (input : value) (c : gmap string (gmap string value)) :
  let c' := (handle r e (PUT id input) c).1 in
  dom c' = dom c
  ∧ ∀ id' d', c' !! id' = Some d' →
      ∃ d, c !! id' = Some d
           ∧ d' !! "_id" = d !! "_id"
           ∧ d' !! "createdAt" = d !! "createdAt"
           ∧ d' !! "__v" = d !! "__v"
           ∧ (mongoose.castObjectId id ≠ Some id' → d' = d).
Proof.
  simpl.
  destruct (put_cases (module r) e id input c)
    as [(d' & -> & data & o & u & d & _ & Ho & Hu & Hd & ->)
       |[-> | [dt ->]]]; simpl; try (split; [done|]; by eauto 10).
  rewrite Ho. simpl. split.
  - apply dom_insert_lookup_L. eauto.
  - intros id' d1 [[<- <-]|[Hne Hd1]]%lookup_insert_Some.
    + exists d. split; [done|].
      assert (∀ k, k ∈ ["_id"; "createdAt"; "__v"] →
                (<["updatedAt" := VDate (Some (now e))]> (u ∪ d)) !! k = d !! k)
        as Hk.
      { intros k Hin.
        assert (k ≠ "updatedAt") by (by inv_elem Hin).
        rewrite lookup_insert_ne by done. apply lookup_union_r.
        destruct (u !! k) eqn:E; [|done].
        assert (k ∈ (schema (module r)).*1) as Hs
          by (eapply castUpdate_keys; eauto).
        apply schema_reserved in Hs as (? & ? & ? & ?). by inv_elem Hin. }
      repeat (split; [apply Hk; in_list|]). intros H. by destruct H.
    + exists d1. split; [done|]. done.
Qed.



(** An update that answered 200 is what a read then returns, and asking
    for the same update again changes nothing but [updatedAt]. *)
Lemma union_insert_absorb (u d : gmap string value) k v w :
  <[k := w]> (u ∪ <[k := v]> (u ∪ d)) = <[k := w]> (<[k := v]> (u ∪ d)).
Proof.
  apply map_eq. intros j. destruct (decide (j = k)) as [->|Hne].
  - by rewrite !lookup_insert_eq.
  - rewrite !lookup_insert_ne by done.
    rewrite !lookup_union, !lookup_insert_ne by done. rewrite lookup_union.
    by destruct (u !! j), (d !! j).
Qed.

(** X6.  After an update has answered 200 with a record, reading the id
    returns that record; and the same update applied once more (the
    local-time conversion being the same) answers 200 with the same
    record in which only [updatedAt] has moved to the new clock
    reading. *)
Theorem update_then_read_and_repeat (r : record_type) (e e2 : env)
    (id : string) (input : value) (c c1 : gmap string (gmap string value))
    (d1 : gmap string value) :
  handle r e (PUT id input) c = (c1, Res 200 (Doc d1)) →
  UTC e2 = UTC e →
  handle r e (GET id) c1 = (c1, Res 200 (Doc d1))
  ∧ ∃ o, mongoose.castObjectId id = Some o ∧
      let d2 := <["updatedAt" := VDate (Some (now e2))]> d1 in
      handle r e2 (PUT id input) c1 = (<[o := d2]> c1, Res 200 (Doc d2)).
Proof.
  simpl. intros (data & o & u & d & Hp & Ho & Hu & Hd & -> & ->)%put_OK HUTC.
  split.
  - unfold get_by_id, mongoose.findById. by rewrite Ho, lookup_insert_eq.
  - exists o. split; [done|]. simpl. apply put_OK.
    exists data, o, u, (<["updatedAt" := VDate (Some (now e))]> (u ∪ d)).
    split; [done|]. split; [done|]. split; [by rewrite HUTC|].
    split; [apply lookup_insert_eq|]. split; [|done].
    symmetry. apply union_insert_absorb.
Qed.

Lemma sample_regendered :
  handle Patient sample_more.e1
    (PUT (newId sample.e0) (VObj sample_more.gender_F)) sample_more.registered
  = (sample_more.regendered, Res 200 (Doc sample_more.regendered_doc)).
Proof. vm_compute. reflexivity. Qed.

Lemma update_then_read_and_repeat_witness :
  handle Patient sample_more.e1 (GET (newId sample.e0)) sample_more.regendered
  = (sample_more.regendered, Res 200 (Doc sample_more.regendered_doc))
  ∧ ∃ o, mongoose.castObjectId (newId sample.e0) = Some o ∧
      let d2 := <["updatedAt" := VDate (Some (now sample.e0))]>
                  sample_more.regendered_doc in
      handle Patient sample.e0
        (PUT (newId sample.e0) (VObj sample_more.gender_F))
        sample_more.regendered
      = (<[o := d2]> sample_more.regendered, Res 200 (Doc d2)).
Proof.
  apply (update_then_read_and_repeat Patient sample_more.e1 sample.e0
           (newId sample.e0) (VObj sample_more.gender_F)
           sample_more.registered);
    [apply sample_regendered | done].
Defined.


(** ** Cancel *)

(** X7.  The cancel route neither adds nor removes a record, touches no
    record but the addressed one, and changes nothing in that one besides
    [status] and [updatedAt]. *)
Theorem cancel_changes_status_only (e : env) (id : string)
    (c : gmap string (gmap string value)) :
  let c' := (handle Appointment e (PATCH_cancel id) c).1 in
  dom c' = dom c
  ∧ ∀ id' d', c' !! id' = Some d' →
      ∃ d, c !! id' = Some d
           ∧ (∀ k, k ≠ "status" → k ≠ "updatedAt" → d' !! k = d !! k)
           ∧ (mongoose.castObjectId id ≠ Some id' → d' = d).
Proof.
  simpl. unfold patch_cancel, mongoose.findByIdAndUpdate.
  rewrite cancel_update_cast.
  destruct (mongoose.castObjectId id) as [o|]; simpl;
    [|split; [done|]; by eauto].
  destruct (c !! o) as [d|] eqn:Hd; simpl; [|split; [done|]; by eauto].
  split; [apply dom_insert_lookup_L; eauto|].
  intros id' d1 [[<- <-]|[Hne Hd1]]%lookup_insert_Some.
  - exists d. split; [done|]. split; [|intros H; by destruct H].
    intros k Hs Hu. rewrite lookup_insert_ne by done.
    apply lookup_union_r. by rewrite lookup_singleton_ne.
  - exists d1. split; [done|]. split; [done|]. done.
Qed.

(** ** Request schemas *)

Lemma partial_keys (shape : zod.ZodObject) : (zod.partial shape).*1 = shape.*1.
Proof.
  unfold zod.partial. induction shape as [|[k t] shape IH]; simpl; [done|].
  by f_equal.
Qed.

Lemma strip_partial (shape : zod.ZodObject) (m : gmap string value) :
  zod.strip (zod.partial shape) m = zod.strip shape m.
Proof.
  apply map_eq. intros k. by rewrite !strip_lookup, partial_keys.
Qed.

(** X8.  Whatever payload the create schema of a record type accepts,
    its update schema accepts too, and it accepts every payload made of
    some of that payload's fields; the validated data are the fields
    kept. *)
Theorem update_accepts_sub_payloads (r : record_type)
    (m m' : gmap string value) :
  m' ⊆ m →
  zod.field_issues (Create (module r)) m = [] →
  zod.parse (Update (module r)) (VObj m')
  = zod.Ok (zod.strip (Create (module r)) m').
Proof.
  intros Hsub Hm. apply parse_Ok. exists m'. split; [done|].
  split; [|unfold Update; by rewrite strip_partial].
  apply field_issues_nil. intros k t (t' & -> & Hin)%partial_elem.
  pose proof (proj1 (field_issues_nil _ _) Hm k t' Hin) as Hk.
  unfold prop in *. destruct (m' !! k) as [v|] eqn:E; [|done].
  rewrite (lookup_weaken _ _ _ _ E Hsub) in Hk. simpl in *.
  by destruct v.
Qed.

Lemma update_accepts_sub_payloads_witness :
  ({[ "status" := VStr "completed" ]} : gmap string value) ⊆ sample.backwards ∧
  zod.field_issues (Create (module Appointment)) sample.backwards = [] ∧
  zod.parse (Update (module Appointment))
    (VObj {[ "status" := VStr "completed" ]})
  = zod.Ok (zod.strip (Create (module Appointment))
              {[ "status" := VStr "completed" ]}).
Proof.
  assert (({[ "status" := VStr "completed" ]} : gmap string value)
          ⊆ sample.backwards) as H1.
  { apply map_subseteq_spec. intros k v [<- <-]%lookup_singleton_Some.
    vm_compute. reflexivity. }
  assert (zod.field_issues (Create (module Appointment)) sample.backwards = [])
    as H2 by (vm_compute; reflexivity).
  split; [exact H1|]. split; [exact H2|].
  exact (update_accepts_sub_payloads Appointment _ _ H1 H2).
Defined.

Lemma field_issues_unknown_key (shape : zod.ZodObject)
    (m : gmap string value) k v :
  k ∉ shape.*1 →
  zod.field_issues shape (<[k := v]> m) = zod.field_issues shape m.
Proof.
  intros Hk. unfold zod.field_issues.
  induction shape as [|[k0 t0] shape IH]; simpl; [done|].
  apply not_elem_of_cons in Hk as [Hne Hk]. rewrite (IH Hk). f_equal.
  unfold prop. by rewrite lookup_insert_ne.
Qed.

Lemma strip_unknown_key (shape : zod.ZodObject) (m : gmap string value) k v :
  k ∉ shape.*1 → zod.strip shape (<[k := v]> m) = zod.strip shape m.
Proof.
  intros Hk. apply map_eq. intros j. rewrite !strip_lookup.
  case_decide as Hj; [|done].
  rewrite lookup_insert_ne; [done|]. by intros ->.
Qed.

Lemma parse_unknown_key (shape : zod.ZodObject) (m : gmap string value) k v :
  k ∉ shape.*1 →
  zod.parse shape (VObj (<[k := v]> m)) = zod.parse shape (VObj m).
Proof.
  intros Hk. unfold zod.parse. simpl.
  by rewrite field_issues_unknown_key, strip_unknown_key.
Qed.

(** X9.  A key that the request schema does not declare is ignored: the
    create route and the update route answer the same, and leave the same
    collection, whether or not the payload carries it and whatever value
    it has. *)
Theorem unknown_keys_are_ignored (r : record_type) (e : env) (id : string)
    (m : gmap string value) (k : string) (v : value)
    (c : gmap string (gmap string value)) :
  k ∉ (Create (module r)).*1 →
  handle r e (POST (VObj (<[k := v]> m))) c = handle r e (POST (VObj m)) c
  ∧ handle r e (PUT id (VObj (<[k := v]> m))) c
    = handle r e (PUT id (VObj m)) c.
Proof.
  intros Hk. simpl. unfold post, put, Update.
  by rewrite !parse_unknown_key by (by rewrite ?partial_keys).
Qed.

Lemma unknown_keys_are_ignored_witness :
  ("_id" ∉ (Create (module Patient)).*1) ∧
  handle Patient sample.e0
    (PUT (newId sample.e0)
       (VObj (<["_id" := VStr "000000000000000000000000"]>
                {[ "gender" := VStr "F" ]}))) sample_more.registered
  = handle Patient sample.e0
      (PUT (newId sample.e0) (VObj {[ "gender" := VStr "F" ]}))
      sample_more.registered.
Proof.
  assert ("_id" ∉ (Create (module Patient)).*1) as H
    by (apply (bool_decide_unpack _); vm_compute; exact I).
  split; [exact H|].
  exact (proj2 (unknown_keys_are_ignored Patient sample.e0 _ _ "_id" _
                  sample_more.registered H)).
Defined.


(** ** Defaults and required strings *)

(** A default of a schema is a value of its path's type that passes the
    path's validators, and a create handler leaves a path that the data
    lack either unset or at that default. *)
Lemma default_paths (r : record_type) k o dv :
  (k, o) ∈ schema (module r) → mongoose.default_value o = Some dv →
  mongoose.cast (mongoose.type o) dv = Some dv
  ∧ dv ≠ VUndef
  ∧ mongoose.validate_value o dv = None
  ∧ stored_typed (mongoose.type o) dv
  ∧ ∀ UTC (data : gmap string value), prop data k = VUndef →
      prop (createDoc (module r) UTC data) k = VUndef
      ∨ prop (createDoc (module r) UTC data) k = dv.
Proof.
  intros Hin Hd. destruct r; simpl in Hin; inv_elem Hin;
    simpl in Hd; try discriminate Hd; injection Hd as <-;
    (repeat (split; [done|])); intros UTC data Hp; simpl;
    unfold patients.create_doc, providers.create_doc, appointments.create_doc,
      encounters.create_doc, prescriptions.create_doc, inventory.create_doc,
      billing.create_doc;
    unfold prop at 1; rewrite ?lookup_insert_ne by done;
    rewrite ?lookup_insert_eq; simpl; rewrite ?Hp; auto.
Qed.

Lemma set_path_of_default (input : gmap string value) k o dv :
  mongoose.default_value o = Some dv →
  mongoose.cast (mongoose.type o) dv = Some dv → dv ≠ VUndef →
  mongoose.validate_value o dv = None →
  prop input k = VUndef ∨ prop input k = dv →
  mongoose.set_path input k o = inr dv.
Proof.
  intros Hd Hc Hne Hv [Hp|Hp]; unfold mongoose.set_path; rewrite Hp, Hd.
  - by rewrite Hc, Hv.
  - destruct dv; try done; by rewrite Hc, Hv.
Qed.

(** X10.  A record created from a payload that omits a field whose path
    has a default holds the default there: gender ['O'], status
    ['scheduled'], ['active'] or ['unpaid'], notes [''], active [true],
    reorderLevel [0]. *)
Theorem create_fills_defaults (r : record_type) (e : env)
    (m : gmap string value) (c c' : gmap string (gmap string value))
    (d : gmap string value) k o dv :
  handle r e (POST (VObj m)) c = (c', Res 201 (Doc d)) →
  (k, o) ∈ schema (module r) → mongoose.default_value o = Some dv →
  m !! k = None →
  d !! k = Some dv.
Proof.
  simpl. intros (data & Hp & Hnil & _ & -> & _)%post_Created Hin Hd Hk.
  apply parse_Ok in Hp as (m' & [= <-] & _ & ->).
  destruct (default_paths r k o dv Hin Hd) as (Hc & Hne & Hv & _ & Hcd).
  assert (prop (zod.strip (Create (module r)) m) k = VUndef) as Hp
    by (unfold prop; by rewrite strip_lookup_None).
  rewrite document_lookup by (apply list_elem_of_fmap; by exists (k, o)).
  eapply paths_of_lookup; [apply schema_NoDup|done| |done].
  apply (set_path_of_default _ _ _ dv); auto.
Qed.

Lemma create_fills_defaults_witness :
  handle Patient sample.e0 (POST sample.jane) ∅
    = (sample_more.registered, Res 201 (Doc sample.jane_doc)) ∧
  sample.jane_doc !! "gender" = Some (VStr "O").
Proof.
  split; [exact sample_registered|].
  refine (create_fills_defaults Patient sample.e0 _ ∅ _ _ "gender"
            (mongoose.Path mongoose.TString false
               (Some ["M"; "F"; "O"]) (Some (VStr "O")))
            (VStr "O") sample_registered _ eq_refl eq_refl).
  simpl. unfold patients.patientSchema. in_list.
Defined.

Lemma create_NoDup (r : record_type) : NoDup (Create (module r)).*1.
Proof. destruct r; apply (bool_decide_unpack _); by vm_compute. Qed.

(** A required String path whose request rule is the bare [z.string()]
    is handed on unchanged by both handlers. *)
Lemma plain_string_paths (r : record_type) k o :
  (k, o) ∈ schema (module r) → mongoose.type o = mongoose.TString →
  (k, zod.ZodString []) ∈ Create (module r) →
  ∀ UTC (data : gmap string value),
    prop (createDoc (module r) UTC data) k = prop data k
    ∧ prop (updateDoc (module r) UTC data) k = prop data k.
Proof.
  intros Hin Ht Hz UTC data.
  destruct r; simpl in Hin; inv_elem Hin; simpl in Ht; try discriminate Ht;
    simpl in Hz; inv_elem Hz; simpl;
    unfold encounters.create_doc, prescriptions.create_doc, labs.create_doc,
      vitals.create_doc, inventory.create_doc,
      encounters.update_doc, prescriptions.update_doc, labs.update_doc,
      vitals.update_doc, inventory.update_doc;
    split; unfold prop at 1; by rewrite ?lookup_insert_ne by done.
Qed.

Section mongoose_castUpdate_facts.

Implicit Types (sch : mongoose.Schema) (update u : gmap string value).

Lemma castUpdate_is_Some sch update :
  (∀ k o v, (k, o) ∈ sch → update !! k = Some v → v ≠ VUndef →
            is_Some (mongoose.cast (mongoose.type o) v)) →
  is_Some (mongoose.castUpdate sch update).
Proof.
  induction sch as [|[k0 o0] sch IH]; simpl; [by eauto|].
  intros Hall. fold (mongoose.castUpdate sch update).
  destruct IH as [a Ha].
  { intros k o v Hin. apply Hall. by right. }
  rewrite Ha. destruct (update !! k0) as [v0|] eqn:E0; [|by eauto].
  assert (v0 = VUndef ∨ v0 ≠ VUndef) as [->|Hv0]
    by (destruct v0; (by left) || (by right)); [by eauto|].
  destruct (Hall k0 o0 v0) as [v0' Hc]; [left|done|done|].
  rewrite Hc. destruct v0; by eauto.
Qed.

Lemma castUpdate_lookup_Some sch update u k o v :
  NoDup sch.*1 → (k, o) ∈ sch →
  mongoose.castUpdate sch update = Some u →
  update !! k = Some v → v ≠ VUndef →
  ∃ v', mongoose.cast (mongoose.type o) v = Some v' ∧ u !! k = Some v'.
Proof.
  revert u. induction sch as [|[k0 o0] sch IH]; intros u; simpl;
    [by intros _ ?%elem_of_nil|].
  intros [Hk0 Hnd]%NoDup_cons Hin Hu Hv Hne.
  fold (mongoose.castUpdate sch update) in Hu.
  apply elem_of_cons in Hin as [[= <- <-]|Hin].
  - rewrite Hv in Hu.
    destruct (mongoose.cast (mongoose.type o) v) as [v'|] eqn:Hc;
      destruct (mongoose.castUpdate sch update) as [a|];
      destruct v; try done; injection Hu as <-;
      eexists; (split; [done|]); by rewrite lookup_insert_eq.
  - assert (k ≠ k0) as Hkk.
    { intros ->. apply Hk0. apply list_elem_of_fmap. by exists (k0, o). }
    assert (∃ a, mongoose.castUpdate sch update = Some a ∧ u !! k = a !! k)
      as (a & Ha & Hua).
    { destruct (update !! k0) as [v0|] eqn:E0; [|by eauto].
      destruct (mongoose.cast (mongoose.type o0) v0) as [v0'|];
        destruct (mongoose.castUpdate sch update) as [a|];
        destruct v0; try done; try (by eauto);
        injection Hu as <-; exists a; by rewrite lookup_insert_ne. }
    destruct (IH a Hnd Hin Ha Hv Hne) as (v' & Hc & Hl).
    exists v'. by rewrite Hua.
Qed.

End mongoose_castUpdate_facts.

(** X11.  For a required String path that the request schema types as a
    bare [z.string()] (testName, result, medication, dosage,
    bloodPressure, the inventory name): create refuses the empty string
    -- the payload passes the request schema, the model's [required]
    validator fails and the answer is 400 -- whereas update, which runs
    no validators, accepts it and stores the empty string in an existing
    record. *)
Theorem empty_required_string (r : record_type) (e : env) (id oid : string)
    (c : gmap string (gmap string value)) (d : gmap string value) k o :
  (k, o) ∈ schema (module r) → mongoose.type o = mongoose.TString →
  mongoose.required o = true → (k, zod.ZodString []) ∈ Create (module r) →
  (∀ m data, zod.parse (Create (module r)) (VObj m) = zod.Ok data →
     m !! k = Some (VStr EmptyString) →
     ∃ errs, handle r e (POST (VObj m)) c
               = (c, Res 400 (ErrorBody "validation_error" (PathErrors errs)))
             ∧ (k, mongoose.RequiredFailed) ∈ errs)
  ∧ (mongoose.castObjectId id = Some oid → c !! oid = Some d →
     ∃ d', handle r e (PUT id (VObj {[ k := VStr EmptyString ]})) c
             = (<[oid := d']> c, Res 200 (Doc d'))
           ∧ d' !! k = Some (VStr EmptyString)).
Proof.
  intros Hin Ht Hreq Hz. split.
  - intros m data Hp Hm.
    assert (mongoose.set_path (createDoc (module r) (UTC e) data) k o
            = inl mongoose.RequiredFailed) as Hset.
    { unfold mongoose.set_path.
      rewrite (proj1 (plain_string_paths r k o Hin Ht Hz (UTC e) data)).
      apply parse_Ok in Hp as (m' & [= <-] & _ & ->).
      rewrite (strip_prop _ _ _ _ Hz). unfold prop. rewrite Hm. simpl.
      destruct (mongoose.default_value o); rewrite Ht; simpl;
        unfold mongoose.validate_value; by rewrite Hreq, Ht. }
    assert ((k, mongoose.RequiredFailed)
            ∈ mongoose.path_errors (schema (module r))
                (createDoc (module r) (UTC e) data)) as Hel
      by (apply path_errors_elem; eauto).
    eexists. split; [|exact Hel]. simpl. unfold post. rewrite Hp.
    rewrite create_invalid; [done|].
    intros Hnil. rewrite Hnil in Hel. by apply elem_of_nil in Hel.
  - intros Hid Hd.
    set (m := ({[ k := VStr EmptyString ]} : gmap string value)).
    assert (k ∈ (Create (module r)).*1) as Hkeys
      by (apply list_elem_of_fmap; by exists (k, zod.ZodString [])).
    assert (zod.parse (Update (module r)) (VObj m)
            = zod.Ok (zod.strip (Update (module r)) m)) as Hp.
    { apply parse_Ok. exists m. split; [done|]. split; [|done].
      apply field_issues_nil. intros k' t (t' & -> & Hin')%partial_elem.
      unfold prop, m. destruct (decide (k' = k)) as [->|Hne].
      - rewrite lookup_singleton_eq. simpl.
        by rewrite (NoDup_fst_functional _ _ _ _ (create_NoDup r) Hin' Hz).
      - by rewrite lookup_singleton_ne. }
    set (data := zod.strip (Update (module r)) m) in *.
    assert (data !! k = Some (VStr EmptyString)) as Hdk.
    { unfold data, Update. rewrite strip_partial, strip_lookup.
      rewrite decide_True by done. apply lookup_singleton_eq. }
    assert (∀ k', k' ≠ k → data !! k' = None) as Hdo.
    { intros k' Hne. unfold data. apply strip_lookup_None.
      by apply lookup_singleton_ne. }
    set (upd := updateDoc (module r) (UTC e) data).
    assert (upd !! k = Some (VStr EmptyString)) as Hupd.
    { pose proof (proj2 (plain_string_paths r k o Hin Ht Hz (UTC e) data)) as H.
      fold upd in H. unfold prop in H. rewrite Hdk in H. simpl in H.
      destruct (upd !! k) as [v|]; simpl in H; by subst. }
    destruct (castUpdate_is_Some (schema (module r)) upd) as [u Hu].
    { intros k' o' v Hin' Hv Hne.
      destruct (decide (k' = k)) as [->|Hkk].
      - rewrite Hupd in Hv. injection Hv as <-.
        rewrite (NoDup_fst_functional _ _ _ _ (schema_NoDup r) Hin' Hin), Ht.
        by eauto.
      - pose proof (update_doc_frame r (UTC e) data k' (Hdo k' Hkk)) as Hf.
        fold upd in Hf. unfold prop in Hf. rewrite Hv in Hf. by simpl in Hf. }
    destruct (castUpdate_lookup_Some _ _ _ k o _ (schema_NoDup r) Hin Hu Hupd)
      as (v' & Hc & Huk); [done|].
    rewrite Ht in Hc. injection Hc as <-.
    eexists. split.
    + simpl. apply put_OK. exists data, oid, u, d. by repeat split.
    + assert (k ≠ "updatedAt") as Hk
        by (eapply schema_reserved, list_elem_of_fmap; by exists (k, o)).
      rewrite lookup_insert_ne by done. by apply lookup_union_Some_l.
Qed.

Lemma sample_tested :
  handle Lab sample.e0 (POST (VObj sample_more.lab)) ∅
  = (sample_more.tested, Res 201 (Doc sample_more.lab_doc)).
Proof. vm_compute. reflexivity. Qed.

Lemma empty_required_string_witness :
  mongoose.castObjectId (newId sample.e0) = Some (newId sample.e0) ∧
  sample_more.tested !! newId sample.e0 = Some sample_more.lab_doc ∧
  (∃ errs, handle Lab sample_more.e1
             (POST (VObj (<["testName" := VStr EmptyString]> sample_more.lab)))
             sample_more.tested
           = (sample_more.tested,
              Res 400 (ErrorBody "validation_error" (PathErrors errs)))
           ∧ ("testName", mongoose.RequiredFailed) ∈ errs) ∧
  ∃ d', handle Lab sample_more.e1
          (PUT (newId sample.e0) (VObj {[ "testName" := VStr EmptyString ]}))
          sample_more.tested
        = (<[newId sample.e0 := d']> sample_more.tested, Res 200 (Doc d'))
        ∧ d' !! "testName" = Some (VStr EmptyString).
Proof.
  assert (("testName", mongoose.Path mongoose.TString true None None)
          ∈ schema (module Lab)) as H1
    by (simpl; unfold labs.labSchema; in_list).
  assert (("testName", zod.ZodString []) ∈ Create (module Lab)) as H2
    by (simpl; unfold labs.LabCreate; in_list).
  assert (mongoose.castObjectId (newId sample.e0) = Some (newId sample.e0))
    as H3 by reflexivity.
  assert (sample_more.tested !! newId sample.e0 = Some sample_more.lab_doc)
    as H4 by apply lookup_singleton_eq.
  destruct (empty_required_string Lab sample_more.e1 (newId sample.e0)
              (newId sample.e0) sample_more.tested sample_more.lab_doc
              "testName" _ H1 eq_refl eq_refl H2) as [Hc Hu].
  split; [exact H3|]. split; [exact H4|]. split.
  - apply (Hc (<["testName" := VStr EmptyString]> sample_more.lab)
              (zod.strip (Create (module Lab))
                 (<["testName" := VStr EmptyString]> sample_more.lab))).
    + vm_compute. reflexivity.
    + apply lookup_insert_eq.
  - exact (Hu H3 H4).
Defined.


(** ** What every stored record looks like *)

(** An update keeps the keys mongoose owns. *)
Lemma put_keeps_reserved (r : record_type) (u d : gmap string value) t k :
  is_Some (mongoose.castUpdate (schema (module r)) u) →
  k ∈ ["_id"; "createdAt"; "__v"] →
  ∀ u', mongoose.castUpdate (schema (module r)) u = Some u' →
    (<["updatedAt" := t]> (u' ∪ d)) !! k = d !! k.
Proof.
  intros _ Hin u' Hu.
  assert (k ≠ "updatedAt") by (by inv_elem Hin).
  rewrite lookup_insert_ne by done. apply lookup_union_r.
  destruct (u' !! k) eqn:E; [|done].
  assert (k ∈ (schema (module r)).*1) as Hs
    by (eapply castUpdate_keys; eauto).
  apply schema_reserved in Hs as (? & ? & ? & ?). by inv_elem Hin.
Qed.

(** What the routes leave of a record, or how it came to be. *)
Lemma handle_provenance (r : record_type) (e : env) (q : request)
    (c : gmap string (gmap string value)) id' d' :
  (handle r e q c).1 !! id' = Some d' →
  (∃ d, c !! id' = Some d
        ∧ d' !! "_id" = d !! "_id" ∧ d' !! "__v" = d !! "__v"
        ∧ d' !! "createdAt" = d !! "createdAt"
        ∧ (d' !! "updatedAt" = d !! "updatedAt"
           ∨ d' !! "updatedAt" = Some (VDate (Some (now e)))))
  ∨ (id' = newId e
     ∧ d' !! "_id" = Some (VOid id') ∧ d' !! "__v" = Some (VNum zero)
     ∧ d' !! "createdAt" = Some (VDate (Some (now e)))
     ∧ d' !! "updatedAt" = Some (VDate (Some (now e)))).
Proof.
  destruct q as [b|id b|id|id|id|]; simpl.
  - destruct (post (module r) e b c) as [c' resp] eqn:E.
    assert ((∃ d, resp = Res 201 (Doc d)) ∨ ∀ d, resp ≠ Res 201 (Doc d))
      as [[d1 ->]|Hno].
    { destruct resp as [st [| | | | |]|]; try (by right).
      destruct (decide (st = 201)) as [->|?]; [left; eauto|right; congruence]. }
    2: { simpl. rewrite (post_unchanged _ _ _ _ _ _ E Hno). by eauto 10. }
    apply post_Created in E as (data & _ & _ & _ & -> & ->). simpl.
    intros [[<- <-]|[_ Hd]]%lookup_insert_Some; [|by eauto 10].
    right. unfold mongoose.document.
    repeat (split; [by rewrite ?lookup_insert_ne, ?lookup_insert_eq by done|]).
    by rewrite !lookup_insert_ne, lookup_insert_eq by done.
  - destruct (put_cases (module r) e id b c)
      as [(d1 & -> & data & o & u & d & _ & Ho & Hu & Hd & ->)
         |[-> | [dt ->]]]; simpl; try (by eauto 10).
    rewrite Ho. simpl.
    intros [[<- <-]|[_ Hd']]%lookup_insert_Some; [|by eauto 10].
    left. exists d. split; [done|].
    rewrite !(put_keeps_reserved r _ d _ _ (mk_is_Some _ _ Hu)) by
      (done || in_list).
    repeat (split; [done|]). right. apply lookup_insert_eq.
  - destruct r; simpl; try (by eauto 10).
    unfold patch_cancel, mongoose.findByIdAndUpdate.
    rewrite cancel_update_cast.
    destruct (mongoose.castObjectId id) as [o|]; simpl; [|by eauto 10].
    destruct (c !! o) as [d|] eqn:Hd; simpl; [|by eauto 10].
    intros [[<- <-]|[_ Hd']]%lookup_insert_Some; [|by eauto 10].
    left. exists d. split; [done|].
    rewrite !lookup_insert_ne, !lookup_union_r
      by (done || by rewrite lookup_singleton_ne).
    repeat (split; [done|]). right. apply lookup_insert_eq.
  - unfold delete_, mongoose.findByIdAndDelete.
    destruct (mongoose.castObjectId id) as [o|]; simpl; [|by eauto 10].
    intros [_ Hd]%lookup_delete_Some. by eauto 10.
  - by eauto 10.
  - by eauto 10.
Qed.

(** X12.  In every collection the routes can produce, each record is
    stored under its own [_id], has [__v] 0 and carries both timestamps
    as valid dates: ids are never reassigned and never shared. *)
Theorem stored_records_carry_their_id (r : record_type)
    (c : gmap string (gmap string value)) :
  reachable r c →
  ∀ id d, c !! id = Some d →
    d !! "_id" = Some (VOid id) ∧ d !! "__v" = Some (VNum zero)
    ∧ (∃ t, d !! "createdAt" = Some (VDate (Some t)))
    ∧ (∃ t, d !! "updatedAt" = Some (VDate (Some t))).
Proof.
  induction 1 as [|e q c Hreach IH]; intros id d Hd.
  - by rewrite lookup_empty in Hd.
  - destruct (handle_provenance r e q c id d Hd)
      as [(d0 & Hd0 & H1 & H2 & H3 & H4)|(-> & H1 & H2 & H3 & H4)].
    + destruct (IH id d0 Hd0) as (I1 & I2 & [t1 I3] & [t2 I4]).
      rewrite H1, H2, H3. repeat (split; [done|]). split; [eauto|].
      destruct H4 as [->| ->]; eauto.
    + rewrite H1, H2, H3, H4. eauto 10.
Qed.

Lemma stored_records_carry_their_id_witness :
  reachable Appointment sample.booked ∧
  sample.booked !! newId sample.e0 = Some sample.booked_doc ∧
  sample.booked_doc !! "_id" = Some (VOid (newId sample.e0)).
Proof.
  assert (reachable Appointment sample.booked) as H
    by exact (reachable_step Appointment sample.e0 (POST (VObj sample.backwards))
                ∅ (reachable_empty Appointment)).
  assert (sample.booked !! newId sample.e0 = Some sample.booked_doc) as Hd
    by (vm_compute; reflexivity).
  split; [exact H|]. split; [exact Hd|].
  exact (proj1 (stored_records_carry_their_id Appointment sample.booked H
                  (newId sample.e0) sample.booked_doc Hd)).
Defined.


(** ** Stored values have their path's type *)

Lemma cast_stored (t : mongoose.SchemaType) (v v' : value) :
  schema_typed t v → v ≠ VUndef → mongoose.cast t v = Some v' →
  stored_typed t v'.
Proof.
  destruct v as [| | |n|s|[x|]| | |]; simpl; try done; intros H _;
    repeat match type of H with
           | _ ∧ _ => destruct H as [H ?]
           | _ ∨ _ => destruct H as [H|H]
           end; subst t; simpl; try (by intros [= <-]).
  - destruct (zod.is_nan n) eqn:E; [done|]. by intros [= <-].
  - destruct (mongoose.castObjectId s); simpl; [|done]. by intros [= <-].
Qed.

Lemma set_path_stored (input : gmap string value) k o v :
  schema_typed (mongoose.type o) (prop input k) →
  (∀ dv, mongoose.default_value o = Some dv →
         mongoose.cast (mongoose.type o) dv = Some dv ∧
         stored_typed (mongoose.type o) dv) →
  mongoose.set_path input k o = inr v →
  (v = VUndef ∧ mongoose.required o = false ∧ mongoose.default_value o = None)
  ∨ (v ≠ VUndef ∧ stored_typed (mongoose.type o) v).
Proof.
  intros Hty Hdef. unfold mongoose.set_path.
  assert (∀ w, w ≠ VUndef → schema_typed (mongoose.type o) w →
            match mongoose.cast (mongoose.type o) w with
            | Some v2 => match mongoose.validate_value o v2 with
                         | Some e => inl e | None => inr v2 end
            | None => inl mongoose.CastFailed
            end = inr v →
            v ≠ VUndef ∧ stored_typed (mongoose.type o) v) as Hdefined.
  { intros w Hw Htw.
    destruct (mongoose.cast (mongoose.type o) w) as [v2|] eqn:Hc; [|done].
    destruct (mongoose.validate_value o v2); [done|]. intros [= <-].
    pose proof (cast_stored _ _ _ Htw Hw Hc) as Hs. split; [|done].
    intros ->. by destruct (mongoose.type o). }
  revert Hty.
  destruct (prop input k) as [| | |n|s|x| | |] eqn:Hp; intros Hty;
    try (by destruct Hty);
    try (destruct (mongoose.default_value o);
         intros H; right; by refine (Hdefined _ _ Hty H)).
  destruct (mongoose.default_value o) as [dv|] eqn:Hd.
  - destruct (Hdef dv eq_refl) as [Hc Hs]. rewrite Hc.
    destruct (mongoose.validate_value o dv); [done|]. intros [= <-].
    right. split; [|done]. intros ->. by destruct (mongoose.type o).
  - simpl. unfold mongoose.validate_value. simpl.
    destruct (mongoose.required o); simpl; [done|].
    destruct (mongoose.enum o); intros [= <-]; by left.
Qed.

Lemma paths_of_undefined (sch : mongoose.Schema) (input : gmap string value) k o :
  NoDup sch.*1 → (k, o) ∈ sch →
  mongoose.set_path input k o = inr VUndef →
  mongoose.paths_of sch input !! k = None.
Proof.
  induction sch as [|[k0 o0] sch IH]; simpl; [by intros _ ?%elem_of_nil|].
  intros [Hk0 Hnd]%NoDup_cons Hin Hset.
  fold (mongoose.paths_of sch input).
  apply elem_of_cons in Hin as [[= <- <-]|Hin].
  - rewrite Hset. by apply paths_of_None.
  - assert (k ≠ k0) as Hne.
    { intros ->. apply Hk0. apply list_elem_of_fmap. by exists (k0, o). }
    destruct (mongoose.set_path input k0 o0) as [?|[]];
      rewrite ?lookup_insert_ne by done; by apply IH.
Qed.

Lemma created_well_stored (r : record_type) (e : env) (input : value)
    (c c' : gmap string (gmap string value)) (d : gmap string value) :
  post (module r) e input c = (c', Res 201 (Doc d)) →
  well_stored (schema (module r)) d.
Proof.
  intros (data & Hp & Hnil & _ & -> & _)%post_Created k o Hin.
  assert (k ∈ (schema (module r)).*1) as Hk
    by (apply list_elem_of_fmap; by exists (k, o)).
  rewrite document_lookup by done.
  destruct (proj1 (path_errors_nil _ _) Hnil k o Hin) as [v Hset].
  destruct (set_path_stored _ k o v
              (create_doc_typed r (UTC e) input data k o Hp Hin)) as
    [(-> & Hreq & Hdef)|[Hv Hs]]; [|done|..].
  - intros dv Hdv. by destruct (default_paths r k o dv Hin Hdv) as (?&?&?&?&?).
  - rewrite (paths_of_undefined _ _ k o (schema_NoDup r) Hin Hset).
    split; [|done]. rewrite Hreq, Hdef. intros [?|[? ?]]; done.
  - rewrite (paths_of_lookup _ _ k o v (schema_NoDup r) Hin Hset Hv).
    split; [by eauto|]. by intros v' [= <-].
Qed.

Lemma updated_well_stored (r : record_type) (e : env) (input : value)
    (data u d : gmap string value) :
  zod.parse (Update (module r)) input = zod.Ok data →
  mongoose.castUpdate (schema (module r)) (updateDoc (module r) (UTC e) data)
    = Some u →
  well_stored (schema (module r)) d →
  well_stored (schema (module r))
    (<["updatedAt" := VDate (Some (now e))]> (u ∪ d)).
Proof.
  intros Hp Hu Hd k o Hin.
  assert (k ≠ "updatedAt") as Hk
    by (eapply schema_reserved, list_elem_of_fmap; by exists (k, o)).
  rewrite lookup_insert_ne by done. destruct (Hd k o Hin) as [Hpres Hty].
  split.
  - intros H. apply lookup_union_is_Some. right. by apply Hpres.
  - intros v [Hv|[_ Hv]]%lookup_union_Some_raw; [|by apply Hty].
    destruct (castUpdate_lookup _ _ _ k Hu)
      as [?|(o1 & w & w' & Hin1 & Hw & Hwne & Hc & Hw')]; [congruence|].
    assert (o1 = o) as ->
      by (eapply NoDup_fst_functional; [apply schema_NoDup|done..]).
    assert (w' = v) as -> by congruence.
    eapply cast_stored; [|exact Hwne|exact Hc].
    pose proof (update_doc_typed r (UTC e) input data k o Hp Hin) as Ht.
    unfold prop in Ht. by rewrite Hw in Ht.
Qed.

Lemma handle_well_stored (r : record_type) (e : env) (q : request)
    (c : gmap string (gmap string value)) :
  (∀ id d, c !! id = Some d → well_stored (schema (module r)) d) →
  ∀ id d, (handle r e q c).1 !! id = Some d →
          well_stored (schema (module r)) d.
Proof.
  intros Hc id' d'. destruct q as [b|id b|id|id|id|]; simpl.
  - destruct (post (module r) e b c) as [c' resp] eqn:E.
    assert ((∃ d, resp = Res 201 (Doc d)) ∨ ∀ d, resp ≠ Res 201 (Doc d))
      as [[d1 ->]|Hno].
    { destruct resp as [st [| | | | |]|]; try (by right).
      destruct (decide (st = 201)) as [->|?]; [left; eauto|right; congruence]. }
    2: { simpl. rewrite (post_unchanged _ _ _ _ _ _ E Hno). apply Hc. }
    pose proof (created_well_stored r e b c c' d1 E) as Hw.
    apply post_Created in E as (data & _ & _ & _ & _ & ->). simpl.
    intros [[<- <-]|[_ Hd]]%lookup_insert_Some; [done|by eapply Hc].
  - destruct (put_cases (module r) e id b c)
      as [(d1 & -> & data & o & u & d & Hp & Ho & Hu & Hd & ->)
         |[-> | [dt ->]]]; simpl; try apply Hc.
    rewrite Ho. simpl.
    intros [[<- <-]|[_ Hd']]%lookup_insert_Some; [|by eapply Hc].
    eapply updated_well_stored; eauto.
  - destruct r; simpl; try apply Hc.
    unfold patch_cancel, mongoose.findByIdAndUpdate.
    rewrite cancel_update_cast.
    destruct (mongoose.castObjectId id) as [o|]; simpl; [|apply Hc].
    destruct (c !! o) as [d|] eqn:Hd; simpl; [|apply Hc].
    intros [[<- <-]|[_ Hd']]%lookup_insert_Some; [|by eapply Hc].
    intros k o' Hin. destruct (Hc o d Hd k o' Hin) as [Hpres Hty].
    assert (k ≠ "updatedAt") as Hk
      by (apply (schema_reserved Appointment), list_elem_of_fmap;
          by exists (k, o')).
    rewrite lookup_insert_ne by done. split.
    + intros H. apply lookup_union_is_Some. right. by apply Hpres.
    + intros v [Hv|[_ Hv]]%lookup_union_Some_raw; [|by apply Hty].
      apply lookup_singleton_Some in Hv as [<- <-].
      simpl in Hin. unfold appointments.appointmentSchema in Hin.
      inv_elem Hin; simplify_eq; by simpl.
  - unfold delete_, mongoose.findByIdAndDelete.
    destruct (mongoose.castObjectId id) as [o|]; simpl; [|apply Hc].
    intros [_ Hd]%lookup_delete_Some. by eapply Hc.
  - apply Hc.
  - apply Hc.
Qed.

(** X13.  In every collection the routes can produce, each record has
    every path that is required or has a default, and holds at each path
    a value of the path's type: an ObjectId at a reference, a valid date
    (never the Invalid Date) at a Date path, a number that is not NaN, a
    string, a boolean.  No route can unset such a path or store [null]
    at a path. *)
Theorem stored_records_are_well_typed (r : record_type)
    (c : gmap string (gmap string value)) :
  reachable r c →
  ∀ id d, c !! id = Some d → well_stored (schema (module r)) d.
Proof.
  induction 1 as [|e q c Hreach IH].
  - intros id d Hd. by rewrite lookup_empty in Hd.
  - by apply handle_well_stored.
Qed.

Lemma stored_records_are_well_typed_witness :
  reachable Appointment sample.booked ∧
  sample.booked !! newId sample.e0 = Some sample.booked_doc ∧
  well_stored appointments.appointmentSchema sample.booked_doc.
Proof.
  assert (reachable Appointment sample.booked) as H
    by exact (reachable_step Appointment sample.e0 (POST (VObj sample.backwards))
                ∅ (reachable_empty Appointment)).
  assert (sample.booked !! newId sample.e0 = Some sample.booked_doc) as Hd
    by (vm_compute; reflexivity).
  split; [exact H|]. split; [exact Hd|].
  exact (stored_records_are_well_typed Appointment sample.booked H
           (newId sample.e0) sample.booked_doc Hd).
Defined.


(** ** Search filters *)

Lemma assign_if_truthy (q : gmap string qvalue) k mk
    (w : gmap string condition) :
  assign_if q k mk w
  = match truthy_param q k with Some v => <[k := mk v]> w | None => w end.
Proof.
  unfold assign_if, truthy_param. destruct (q !! k) as [v|]; [|done].
  by destruct (q_truthy v).
Qed.

Lemma or_empty_truthy (q : gmap string qvalue) k :
  or_empty q k = default (QStr EmptyString) (truthy_param q k).
Proof.
  unfold or_empty, truthy_param. destruct (q !! k) as [v|]; [|done].
  by destruct (q_truthy v).
Qed.

(** X14.  The filter a search route builds depends on nothing but the
    truthy values of the parameters the route reads: a parameter that is
    absent, one that is the empty string, and any parameter the route
    does not know make no difference. *)
Theorem search_filter_reads_truthy_params (r : record_type)
    (q q' : gmap string qvalue) :
  (∀ k, k ∈ search_params r → truthy_param q k = truthy_param q' k) →
  searchFilter (module r) q = searchFilter (module r) q'.
Proof.
  intros H. destruct r; simpl in *;
    unfold patients.search, providers.search, appointments.search,
      encounters.search, prescriptions.search, labs.search, vitals.search,
      inventory.search, billing.search;
    rewrite ?assign_if_truthy, ?or_empty_truthy;
    repeat match goal with
           | |- context [truthy_param q ?k] => rewrite (H k) by in_list
           end; done.
Qed.

Lemma search_filter_reads_truthy_params_witness :
  (∀ k, k ∈ search_params Appointment →
        truthy_param {[ "patientId" := QStr EmptyString; "page" := QStr "2" ]} k
        = truthy_param ∅ k) ∧
  searchFilter (module Appointment)
    {[ "patientId" := QStr EmptyString; "page" := QStr "2" ]}
  = searchFilter (module Appointment) ∅.
Proof.
  assert (∀ k, k ∈ search_params Appointment →
            truthy_param {[ "patientId" := QStr EmptyString;
                            "page" := QStr "2" ]} k
            = truthy_param ∅ k) as H
    by (intros k Hk; simpl in Hk; inv_elem Hk; vm_compute; reflexivity).
  split; [exact H|].
  exact (search_filter_reads_truthy_params Appointment _ _ H).
Defined.

Lemma assign_if_lookup (q : gmap string qvalue) k k' mk
    (w : gmap string condition) :
  assign_if q k' mk w !! k
  = if decide (k = k')
    then match truthy_param q k' with
         | Some v => Some (mk v)
         | None => w !! k
         end
    else w !! k.
Proof.
  rewrite assign_if_truthy. case_decide as Hk.
  - subst. destruct (truthy_param q k'); [apply lookup_insert_eq|done].
  - destruct (truthy_param q k'); [by rewrite lookup_insert_ne|done].
Qed.

(** X15.  In the seven modules that build a [where] object, the filter
    has a condition on a field exactly when the request carries a truthy
    parameter of that name which the route reads; the condition is then
    equality with the parameter's value, or for [testName] and [name] a
    case-insensitive regex made of it. *)
Theorem search_filter_conditions (r : record_type)
    (q : gmap string qvalue) (k : string) :
  r ≠ Patient → r ≠ Provider →
  (k ∈ search_params r →
   conditions_on (searchFilter (module r) q) k
   = match truthy_param q k with
     | Some v => [search_condition k v]
     | None => []
     end)
  ∧ (k ∉ search_params r →
     conditions_on (searchFilter (module r) q) k = []).
Proof.
  intros Hp Hq. destruct r; try done; simpl;
    unfold appointments.search, encounters.search, prescriptions.search,
      labs.search, vitals.search, inventory.search, billing.search; simpl;
    rewrite ?assign_if_lookup, lookup_empty; split; intros Hk.
  all: try (inv_elem Hk; simpl;
            repeat (case_decide; try done);
            by destruct (truthy_param q _)).
  all: by rewrite !decide_False by (intros ->; apply Hk; in_list).
Qed.

Lemma search_filter_conditions_witness :
  Lab ≠ Patient ∧ Lab ≠ Provider ∧
  conditions_on
    (searchFilter (module Lab)
       {[ "testName" := QStr "gluc"; "patientId" := QStr EmptyString ]})
    "testName"
  = [RegexMatch (QStr "gluc") "i"].
Proof.
  assert (Lab ≠ Patient) as H1 by done.
  assert (Lab ≠ Provider) as H2 by done.
  split; [exact H1|]. split; [exact H2|].
  exact (proj1 (search_filter_conditions Lab
                  {[ "testName" := QStr "gluc";
                     "patientId" := QStr EmptyString ]} "testName" H1 H2)
           ltac:(simpl; in_list)).
Defined.


(** ** The date patterns accept exactly their shape *)

Lemma test_digit r (s : string) :
  RegExp.test (RegExp.Digit :: r) s = true →
  ∃ c s', s = String c s' ∧ RegExp.is_digit c = true ∧ RegExp.test r s' = true.
Proof.
  destruct s as [|c s']; simpl; [done|].
  intros [? ?]%andb_true_iff. eauto.
Qed.

Lemma test_lit a r (s : string) :
  RegExp.test (RegExp.Lit a :: r) s = true →
  ∃ s', s = String a s' ∧ RegExp.test r s' = true.
Proof.
  destruct s as [|c s']; simpl; [done|].
  intros [->%Ascii.eqb_eq ?]%andb_true_iff. eauto.
Qed.

Lemma test_end (s : string) : RegExp.test [] s = true → s = EmptyString.
Proof. by destruct s. Qed.

Lemma test_opt_end a (s : string) :
  RegExp.test [RegExp.OptLit a] s = true →
  s = EmptyString ∨ s = String a EmptyString.
Proof.
  destruct s as [|c s']; simpl; [by left|].
  rewrite orb_false_r. intros [->%Ascii.eqb_eq ->%test_end]%andb_true_iff.
  by right.
Qed.

(** One step of a match: peel the first atom off the pattern. *)
Ltac peel H :=
  first
    [ apply test_digit in H as (? & ? & -> & ? & H)
    | apply test_lit in H as (? & -> & H) ].

Lemma digit_string_intro (n : nat) (s : string) :
  String.length s = n → all_digits s = true → digit_string n s.
Proof. by split. Qed.

Lemma date_test_shaped (s : string) :
  RegExp.test RegExp.date s = true → date_shaped s.
Proof.
  intros H. unfold RegExp.date in H.
  cbn [RegExp.digits repeat app] in H.
  do 10 peel H. apply test_end in H as ->.
  eexists (String _ (String _ (String _ (String _ EmptyString)))),
          (String _ (String _ EmptyString)),
          (String _ (String _ EmptyString)).
  repeat split; try reflexivity; simpl;
    repeat match goal with
           | H : RegExp.is_digit _ = true |- _ => rewrite H; clear H
           end; reflexivity.
Qed.

Lemma datetime_test_shaped (s : string) :
  RegExp.test RegExp.datetime s = true → datetime_shaped s.
Proof.
  intros H. unfold RegExp.datetime, RegExp.date in H.
  cbn [RegExp.digits repeat app] in H.
  do 23 peel H. apply test_opt_end in H.
  destruct H as [-> | ->];
    [ eexists (String _ (String _ (String _ (String _ EmptyString)))),
              (String _ (String _ EmptyString)),
              (String _ (String _ EmptyString)),
              (String _ (String _ EmptyString)),
              (String _ (String _ EmptyString)),
              (String _ (String _ EmptyString)),
              (String _ (String _ (String _ EmptyString))), EmptyString
    | eexists (String _ (String _ (String _ (String _ EmptyString)))),
              (String _ (String _ EmptyString)),
              (String _ (String _ EmptyString)),
              (String _ (String _ EmptyString)),
              (String _ (String _ EmptyString)),
              (String _ (String _ EmptyString)),
              (String _ (String _ (String _ EmptyString))), "Z" ];
    (repeat (split; [apply digit_string_intro; [reflexivity|]|]));
    try (split; [auto|reflexivity]); simpl;
    repeat match goal with
           | H : RegExp.is_digit _ = true |- _ => rewrite H; clear H
           end; reflexivity.
Qed.

(** X16.  A string field with the date pattern passes exactly when the
    string is four digits, a hyphen, two digits, a hyphen and two
    digits, and one with the datetime pattern exactly when it continues
    with [T], two digits, a colon, two digits, a colon, two digits, a
    dot, three digits and at most a final [Z]: nothing shorter, longer or
    differently punctuated is accepted, and nothing about the numbers
    themselves is checked. *)
Theorem date_patterns_accept_exactly_their_shape (p : list string)
    (s : string) :
  (zod._parse (zod.ZodString [zod.Regex RegExp.date]) p (VStr s) = []
   ↔ date_shaped s)
  ∧ (zod._parse (zod.ZodString [zod.Regex RegExp.datetime]) p (VStr s) = []
     ↔ datetime_shaped s).
Proof.
  unfold zod._parse, flat_map, zod.string_check. split; split.
  - destruct (RegExp.test RegExp.date s) eqn:E; [|done].
    intros _. by apply date_test_shaped.
  - intros H. by rewrite (date_shaped_test s H).
  - destruct (RegExp.test RegExp.datetime s) eqn:E; [|done].
    intros _. by apply datetime_test_shaped.
  - intros H. by rewrite (datetime_shaped_test s H).
Qed.

(** ** What create accepts *)

Ltac zod_value Hz Hw shape m k :=
  let H := fresh "Hf" in
  let Hm := fresh "Hmem" in
  eassert ((k, _) ∈ shape) as Hm by in_list;
  pose proof (Hz _ _ Hm) as H;
  rewrite (strip_prop _ m k _ Hm) in Hw;
  unfold prop in H, Hw;
  let E := fresh "E" in
  destruct (m !! k) as [[| | |n|s| | | |]|] eqn:E; simpl in H, Hw; try done;
  try (destruct (zod.is_nan n) eqn:?; try done); subst; simpl;
  clear Hz Hm E.

Lemma set_path_castable (r : record_type) (UTC : Z → Z)
    (m : gmap string value) k o :
  zod.field_issues (Create (module r)) m = [] →
  (k, o) ∈ schema (module r) →
  (∃ v, mongoose.set_path
          (createDoc (module r) UTC (zod.strip (Create (module r)) m)) k o
        = inr v)
  ↔ ∀ s, m !! k = Some (VStr s) →
      match mongoose.type o with
      | mongoose.TObjectId => is_Some (mongoose.castObjectId s)
      | mongoose.TDate => is_Some (JSDate.parse UTC s)
      | mongoose.TString => mongoose.required o = true → s ≠ EmptyString
      | _ => True
      end.
Proof.
  intros Hnil Hin.
  pose proof (proj1 (field_issues_nil _ _) Hnil) as Hz. clear Hnil.
  unfold mongoose.set_path.
  set (w := prop _ k). assert (w = prop
    (createDoc (module r) UTC (zod.strip (Create (module r)) m)) k) as Hw
    by done.
  clearbody w. revert w Hw.
  destruct r; simpl in Hin, Hz |- *; inv_elem Hin; simpl; intros w Hw;
    simpl in Hw;
    unfold patients.create_doc, providers.create_doc, appointments.create_doc,
      encounters.create_doc, prescriptions.create_doc, labs.create_doc,
      vitals.create_doc, inventory.create_doc, billing.create_doc in Hw;
    unfold prop at 1 in Hw; rewrite ?lookup_insert_ne in Hw by done;
    rewrite ?lookup_insert_eq in Hw; simpl in Hw;
    repeat match type of Hw with
    | context [default VUndef (zod.strip ?shape m !! ?k)] =>
        change (default VUndef (zod.strip shape m !! k))
          with (prop (zod.strip shape m) k) in Hw
    end;
    match type of Hw with
    | context [prop (zod.strip ?shape m) ?k] => zod_value Hz Hw shape m k
    end.
  all: unfold mongoose.validate_value, or_else; simpl.
  all: repeat match goal with
    | |- context [JSDate.parse ?u ?s] =>
        is_var s; destruct (JSDate.parse u s) eqn:?; simpl
    | |- context [mongoose.castObjectId ?s] =>
        is_var s; destruct (mongoose.castObjectId s) eqn:?; simpl
    | |- context [match ?s with EmptyString => _ | String _ _ => _ end] =>
        is_var s; destruct s; simpl
    | H : context [bool_decide _] |- _ => case_bool_decide; simpl in H |- *
    end.
  all: try done.
  all: try (split; [intros _ ? ?; simplify_eq; by eauto | intros _; by eauto]).
  all: try (split; [by intros [? ?]
                   | intros Hc; destruct (Hc _ eq_refl); congruence]).
  all: match goal with H : zod.is_nan _ = false |- _ => rewrite H end; simpl.
  all: split; [done | intros _; by eauto].
Qed.

(** X17.  A payload the create schema accepts is stored (201), when the
    generated id is free, exactly when Mongoose can cast it: every
    reference is an ObjectId, every date string is a date for
    [new Date], no required String path gets the empty string.  The
    statement leaves aside references of 12 characters, which drivers
    before bson 6 take for an ObjectId as well. *)
Theorem create_accepts_castable_payloads (r : record_type) (e : env)
    (m : gmap string value) (c : gmap string obj) :
  zod.field_issues (Create (module r)) m = [] →
  c !! newId e = None →
  (∀ k o s, (k, o) ∈ schema (module r) →
            mongoose.type o = mongoose.TObjectId →
            m !! k = Some (VStr s) → String.length s ≠ 12%nat) →
  (∃ c' d, handle r e (POST (VObj m)) c = (c', Res 201 (Doc d)))
  ↔ castable r (UTC e) m.
Proof.
  intros Hnil Hfree _. simpl.
  assert (zod.parse (Create (module r)) (VObj m)
          = zod.Ok (zod.strip (Create (module r)) m)) as Hparse.
  { apply parse_Ok. by exists m. }
  split.
  - intros (c' & d & Hpost) k o s Hin Hk.
    apply post_Created in Hpost as (data & Hd & Herrs & _).
    rewrite Hparse in Hd. injection Hd as <-.
    pose proof (proj1 (path_errors_nil _ _) Herrs k o Hin) as Hset.
    by apply (proj1 (set_path_castable r (UTC e) m k o Hnil Hin) Hset).
  - intros Hcast. eexists _, _. apply post_Created.
    exists (zod.strip (Create (module r)) m).
    repeat split; [done| |done].
    apply path_errors_nil. intros k o Hin.
    apply (set_path_castable r (UTC e) m k o Hnil Hin).
    intros s Hk. by apply (Hcast k o s).
Qed.

Lemma create_accepts_castable_payloads_witness :
  (∃ c' d, handle Appointment sample.e0 (POST (VObj sample.backwards_loose)) ∅
           = (c', Res 201 (Doc d)))
  ↔ castable Appointment (UTC sample.e0) sample.backwards_loose.
Proof.
  apply (create_accepts_castable_payloads Appointment sample.e0
           sample.backwards_loose ∅); [by vm_compute | done |].
  intros k o s Hin Ht Hm. simpl in Hin.
  unfold appointments.appointmentSchema in Hin.
  inv_elem Hin; simpl in Ht; try discriminate Ht;
    vm_compute in Hm; injection Hm as <-; done.
Defined.
